(** * docker-manager: a shallow embedding of the Go services and handlers
    and of the browser event dispatcher, with the properties checked
    against the repository's natural-language specification.

    Layout: the embedding comes first (Go primitives, then one module per
    source package), the theorems follow. *)

From Stdlib Require Import ZArith String Ascii List Lia Bool Floats.
From Stdlib Require Import Sorting.Sorted Sorting.Permutation.
From Stdlib Require Import Numbers.DecimalString.
From Stdlib Require Numbers.DecimalZ Numbers.DecimalN Numbers.DecimalPos.
Import ListNotations.

Open Scope string_scope.
Open Scope Z_scope.

(* ================================================================= *)
(** ** Go primitives *)

(** Go's [int] and [int64] on a 64-bit target: two's complement, silent
    wrap-around on overflow. *)
Module GoInt.

Definition minInt64 : Z := - 2 ^ 63.
Definition maxInt64 : Z := 2 ^ 63 - 1.

Definition wrap64 (z : Z) : Z := (z + 2 ^ 63) mod 2 ^ 64 - 2 ^ 63.

Definition add64 (a b : Z) : Z := wrap64 (a + b).
Definition sub64 (a b : Z) : Z := wrap64 (a - b).
Definition mul64 (a b : Z) : Z := wrap64 (a * b).

(** [len(xs)] as an [int] *)
Definition len {A : Type} (xs : list A) : Z := Z.of_nat (List.length xs).

Definition inInt64 (z : Z) : Prop := minInt64 <= z <= maxInt64.

(** [float64(i)] for an integer [i]: the nearest binary64 value, ties to
    even *)
Definition float64 (i : Z) : float :=
  SF2Prim (SpecFloat.binary_normalize prec emax i 0 false).

End GoInt.

(** Go strings are byte strings; Rocq's [string] is a list of 8-bit
    characters, compared by character code as Go's [<] compares bytes. *)
Module strings.

Definition tab : ascii := ascii_of_nat 9.
Definition lf : ascii := ascii_of_nat 10.
Definition cr : ascii := ascii_of_nat 13.
Definition sp : ascii := " "%char.

(** the [asciiSpace] table of package strings: tab, line feed, vertical
    tab, form feed, carriage return and space *)
Definition asciiSpace (c : ascii) : bool :=
  let n := N_of_ascii c in
  ((9 <=? n) && (n <=? 13) || (n =? 32))%N.

(** every byte below [utf8.RuneSelf]: the inputs on which [Fields] and
    [TrimSpace] take their ASCII path, the one embedded here *)
Fixpoint isASCII (s : string) : bool :=
  match s with
  | EmptyString => true
  | String c s' => (N_of_ascii c <? 128)%N && isASCII s'
  end.

Fixpoint TrimLeftSpace (s : string) : string :=
  match s with
  | EmptyString => EmptyString
  | String c s' => if asciiSpace c then TrimLeftSpace s' else s
  end.

Fixpoint TrimRightSpace (s : string) : string :=
  match s with
  | EmptyString => EmptyString
  | String c s' =>
      match TrimRightSpace s' with
      | EmptyString => if asciiSpace c then EmptyString else String c EmptyString
      | t => String c t
      end
  end.

Definition TrimSpace (s : string) : string := TrimRightSpace (TrimLeftSpace s).

(** [Fields]: the loop over the bytes of [s]; [cur] is the field begun at
    [fieldStart] and not yet closed *)
Fixpoint fieldsFrom (cur : string) (s : string) : list string :=
  match s with
  | EmptyString =>
      match cur with EmptyString => [] | _ => [cur] end
  | String c s' =>
      if asciiSpace c then
        match cur with
        | EmptyString => fieldsFrom EmptyString s'
        | _ => cur :: fieldsFrom EmptyString s'
        end
      else fieldsFrom (cur ++ String c EmptyString) s'
  end.

Definition Fields (s : string) : list string := fieldsFrom EmptyString s.

Definition Join (elems : list string) (sep : string) : string :=
  String.concat sep elems.

Definition HasPrefix (s pre : string) : bool := String.prefix pre s.

(** [TrimSuffix]: [s] without the trailing [suffix], [s] itself when it
    does not end with it *)
Fixpoint TrimSuffix (s suffix : string) : string :=
  if String.eqb s suffix then EmptyString
  else match s with
       | EmptyString => EmptyString
       | String c s' => String c (TrimSuffix s' suffix)
       end.

(** [Split(s, sep)] for a one-byte separator: always at least one piece *)
Fixpoint Split (s : string) (sep : ascii) : list string :=
  match s with
  | EmptyString => [EmptyString]
  | String c s' =>
      if Ascii.eqb c sep then EmptyString :: Split s' sep
      else match Split s' sep with
           | h :: t => String c h :: t
           | [] => [String c EmptyString]
           end
  end.

(** [SplitN(s, sep, n)] for a one-byte separator and [n >= 0]: at most
    [n] pieces, the last one the unsplit remainder; nil for [n = 0] *)
Fixpoint SplitN (s : string) (sep : ascii) (n : nat) : list string :=
  match n with
  | O => []
  | S O => [s]
  | S (S _ as n') =>
      match s with
      | EmptyString => [EmptyString]
      | String c s' =>
          if Ascii.eqb c sep then EmptyString :: SplitN s' sep n'
          else match SplitN s' sep n with
               | h :: t => String c h :: t
               | [] => [String c EmptyString]
               end
      end
  end.

(** [Contains(s, substr)] *)
Fixpoint Contains (s substr : string) : bool :=
  String.prefix substr s
  || match s with
     | EmptyString => false
     | String _ s' => Contains s' substr
     end.

(** [TrimPrefix]: [s] without the leading [prefix], [s] itself when it
    does not start with it *)
Definition TrimPrefix (s prefix : string) : string :=
  if HasPrefix s prefix
  then String.substring (String.length prefix)
         (String.length s - String.length prefix) s
  else s.

(** membership in the byte set of an ASCII cutset *)
Fixpoint inCutset (cutset : string) (c : ascii) : bool :=
  match cutset with
  | EmptyString => false
  | String k cutset' => Ascii.eqb c k || inCutset cutset' c
  end.

Fixpoint TrimLeft (s cutset : string) : string :=
  match s with
  | EmptyString => EmptyString
  | String c s' => if inCutset cutset c then TrimLeft s' cutset else s
  end.

Fixpoint TrimRight (s cutset : string) : string :=
  match s with
  | EmptyString => EmptyString
  | String c s' =>
      match TrimRight s' cutset with
      | EmptyString =>
          if inCutset cutset c then EmptyString else String c EmptyString
      | t => String c t
      end
  end.

(** [Trim(s, cutset)] for an ASCII cutset of two bytes or more: the
    leading and trailing bytes of the set are removed *)
Definition Trim (s cutset : string) : string :=
  TrimLeft (TrimRight s cutset) cutset.

End strings.

(** [bufio.Scanner] with the default [ScanLines] split function over a
    [strings.Reader]. *)
Module bufio.

Definition MaxScanTokenSize : Z := 64 * 1024.

(** [dropCR]: one trailing carriage return is dropped *)
Fixpoint dropCR (s : string) : string :=
  match s with
  | EmptyString => EmptyString
  | String c EmptyString => if Ascii.eqb c strings.cr then EmptyString else s
  | String c s' => String c (dropCR s')
  end.

(** at end of input with no data left, [ScanLines] yields no token *)
Fixpoint dropFinalEmpty (ls : list string) : list string :=
  match ls with
  | [] => []
  | [EmptyString] => []
  | l :: r => l :: dropFinalEmpty r
  end.

(** [Scan] returns false (with [ErrTooLong]) at the first line that does
    not fit the buffer; the callers never look at [Err()] *)
Fixpoint scanWhileFits (ls : list string) : list string :=
  match ls with
  | [] => []
  | l :: r =>
      if Z.of_nat (String.length l) <? MaxScanTokenSize
      then dropCR l :: scanWhileFits r
      else []
  end.

(** the tokens of [for scanner.Scan() { ... scanner.Text() ... }] *)
Definition ScanLines (data : string) : list string :=
  scanWhileFits (dropFinalEmpty (strings.Split data strings.lf)).

End bufio.

Module strconv.

Definition digitValue (c : ascii) : option Z :=
  let n := N_of_ascii c in
  if ((48 <=? n) && (n <=? 57))%N then Some (Z.of_N n - 48) else None.

(** base-10 digits, most significant first; [acc] is the value so far *)
Fixpoint parseDigits (acc : Z) (s : string) : option Z :=
  match s with
  | EmptyString => Some acc
  | String c s' =>
      match digitValue c with
      | Some d => parseDigits (acc * 10 + d) s'
      | None => None
      end
  end.

Definition parseUnsigned (s : string) : option Z :=
  match s with
  | EmptyString => None
  | _ => parseDigits 0 s
  end.

(** [ParseInt(s, 10, 64)]: an optional sign, at least one digit, nothing
    else; [None] stands for a non-nil error (syntax or range) *)
Definition ParseInt (s : string) : option Z :=
  let signed :=
    match s with
    | String "+"%char r => parseUnsigned r
    | String "-"%char r => option_map Z.opp (parseUnsigned r)
    | _ => parseUnsigned s
    end in
  match signed with
  | Some v => if (GoInt.minInt64 <=? v) && (v <=? GoInt.maxInt64)
              then Some v else None
  | None => None
  end.

(** [FormatInt(i, 10)], also what [%d] prints *)
Definition FormatInt (i : Z) : string :=
  NilEmpty.string_of_int (Z.to_int i).

End strconv.

(** A Go call returning [(T, error)]: either the value with a nil error or
    a non-nil error; an [error] is known here by its [Error()] text. *)
Definition error := string.

Inductive result (A : Type) : Type :=
| Ok (a : A)
| Err (e : error).
Arguments Ok {A} a.
Arguments Err {A} e.

(** What the host metrics reader takes from its platform: the files it
    can read, the core count, and the two float conversions of the Go
    library and language that are not embedded ([None] is a non-nil
    error). *)
Module platform.

Record Platform := {
  ReadFile     : string -> result string;
  NumCPU       : Z;
  ParseFloat   : string -> option float;
  int64OfFloat : float -> Z
}.

End platform.

(* ================================================================= *)
(** ** The Docker Engine client, as the facade sees it *)

Module types.

(** [types.Container]: the facade reads [State] only *)
Record Container := { ID : string; State : string }.

(** [types.ImageSummary] *)
Record ImageSummary := { ImageID : string; Size : Z }.

(** [types.NetworkResource] *)
Record NetworkResource := { NetworkName : string }.

(** [volume.ListResponse] *)
Record VolumeListResponse := { Volumes : list string }.

(** [types.ContainerJSON]: [State.Running] is what [GetContainerDetail]
    branches on *)
Record ContainerJSON := { InspectID : string; StateRunning : bool }.

(** [types.StatsJSON], [types.Info], [types.Version], [types.DiskUsage]
    and [events.Message] are passed through untouched *)
Record StatsJSON := { StatsRead : string }.
Record Info := { InfoName : string }.
Record Version := { VersionString : string }.
Record DiskUsage := { LayersSize : Z }.
Record Message := { MsgType : string; MsgAction : string; MsgActor : string }.

(** [types.EventsOptions] *)
Record EventsOptions := { Since : string; Until : string }.

(** [types.ContainerStats]: the body of the stats response, known by what
    decoding it as JSON gives *)
Record ContainerStats := { Decode : result StatsJSON }.

(** one [Read] on a log stream: the bytes it returned and its error *)
Definition LogRead : Type := string * option error.

End types.

Module client.

(** What the daemon answers to the calls of one request. *)
Record Daemon := {
  Info             : result types.Info;
  ServerVersion    : result types.Version;
  ContainerList    : result (list types.Container);
  ImageList        : result (list types.ImageSummary);
  NetworkList      : result (list types.NetworkResource);
  VolumeList       : result types.VolumeListResponse;
  DiskUsage        : result types.DiskUsage;
  ContainerInspect : string -> result types.ContainerJSON;
  ContainerStats   : string -> result types.ContainerStats;
  ContainerStart   : string -> option error;
  ContainerStop    : string -> Z -> option error;
  ContainerRestart : string -> Z -> option error;
  ContainerLogs    : string -> string -> result (list types.LogRead)
}.

(** the calls a request makes on the daemon, in order *)
Inductive Call :=
| CallContainerInspect (id : string)
| CallContainerStats (id : string)
| CallBodyClose.

(** What one pass through [select] receives: an event (with the outcome
    of writing it to the sink), a value from the error channel ([None] is
    a nil error), or the closing of [ctx.Done()]. *)
Inductive Selected :=
| RecvEvent (event : types.Message) (writeErr : option error)
| RecvErr (err : option error)
| CtxDone.

(** [context.Background()] is never done; a request context may be *)
Inductive Context := Background | Cancellable.

(** [DockerClient.Events(ctx, options)]: what the two channels deliver
    to the passes of [select], for the options of the subscription *)
Definition Events : Type := types.EventsOptions -> list Selected.

End client.

(** [os/exec]: what running a command line gives *)
Module exec.

(** A call that waits for a command: it returns when the command has
    exited, and blocks for as long as the command runs. *)
Inductive Wait (A : Type) :=
| Returns (a : A)
| Blocks.
Arguments Returns {A} a.
Arguments Blocks {A}.

(** the two results of [cmd.Output()]: the bytes of standard output,
    [None] for a nil slice, and the error, [None] for nil *)
Record Captured := {
  Stdout  : option string;
  Failure : option error
}.

Record Commands := {
  Output : list string -> Wait Captured;
  Run    : list string -> Wait (option error)
}.

(** [string(output)] *)
Definition text (output : option string) : string :=
  match output with
  | Some s => s
  | None => ""
  end.

(** [output, err := cmd.Output()] as the callers that check [err] read
    it: the error when there is one, the output otherwise *)
Definition checked (c : Captured) : result string :=
  match Failure c with
  | Some err => Err err
  | None => Ok (text (Stdout c))
  end.

End exec.
(* ================================================================= *)
(** ** Package sort *)

Module sort.

Section Less.
Context {A : Type} (less : A -> A -> bool).

(** What [sort.Interface] asks of [Less]: a transitive ordering whose
    "neither is less" relation is transitive too, and in which no element
    sorts before itself. *)
Record LessOrdering : Prop := {
  less_irrefl : forall a, less a a = false;
  less_trans : forall a b c,
      less a b = true -> less b c = true -> less a c = true;
  less_negtrans : forall a b c,
      less a b = false -> less b c = false -> less a c = false
}.

(** no element is less than its predecessor *)
Definition notAfter (a b : A) : Prop := less b a = false.

Definition IsSorted (l : list A) : Prop := Sorted notAfter l.

End Less.

(** [sort.Slice(x, less)]: the slice afterwards is a rearrangement of the
    slice before and is sorted by [less].  The documentation promises no
    more: "The sort is not guaranteed to be stable: equal elements may be
    reversed from their original order." *)
Definition SliceContract
  (Slice : forall A : Type, (A -> A -> bool) -> list A -> list A) : Prop :=
  forall (A : Type) (less : A -> A -> bool) (x : list A),
    LessOrdering less ->
    Permutation x (Slice A less x) /\ IsSorted less (Slice A less x).

(** A sort that meets the contract: insertion, the elements taken one by
    one from the back of the slice and each put ahead of the elements
    tied with it. *)
Section Instances.
Context {A : Type} (less : A -> A -> bool).

Fixpoint insertAhead (a : A) (l : list A) : list A :=
  match l with
  | [] => [a]
  | b :: t => if less b a then b :: insertAhead a t else a :: b :: t
  end.

End Instances.

Definition insertionSort (A : Type) (less : A -> A -> bool) (x : list A) : list A :=
  fold_right (insertAhead less) [] x.

End sort.
(* ================================================================= *)
(** ** internal/models *)

Module models.

Record ContainerCounts := {
  Running : Z;
  Paused  : Z;
  Stopped : Z;
  Total   : Z
}.

Record SystemStats := {
  Containers    : ContainerCounts;
  ImagesTotal   : Z;
  ImagesSize    : Z;
  NetworksTotal : Z;
  VolumesTotal  : Z
}.

Record DockerInfo := {
  SystemInfo : types.Info;
  Version    : types.Version;
  Containers_ : list types.Container;
  Images     : list types.ImageSummary;
  Networks   : list types.NetworkResource;
  Volumes    : types.VolumeListResponse;
  DiskUsage  : types.DiskUsage
}.

(** [Stats] is a pointer: [None] is nil *)
Record ContainerDetail := {
  Container : types.ContainerJSON;
  Stats     : option types.StatsJSON
}.

Record HostSystemInfo := {
  Uptime             : string;
  UptimeSeconds      : Z;
  LoadAverage1       : float;
  LoadAverage5       : float;
  LoadAverage15      : float;
  MemoryTotal        : Z;
  MemoryUsed         : Z;
  MemoryAvailable    : Z;
  MemoryUsedPct      : float;
  NetworkConnections : Z;
  CPUCores           : Z
}.

(** [&models.HostSystemInfo{}]: every field at its zero value *)
Definition zeroHostSystemInfo : HostSystemInfo :=
  {| Uptime := ""; UptimeSeconds := 0;
     LoadAverage1 := 0%float; LoadAverage5 := 0%float;
     LoadAverage15 := 0%float;
     MemoryTotal := 0; MemoryUsed := 0; MemoryAvailable := 0;
     MemoryUsedPct := 0%float;
     NetworkConnections := 0; CPUCores := 0 |}.

(** assignments to one field of [hostInfo] *)
Definition setUptime (v : string) (h : HostSystemInfo) : HostSystemInfo :=
  {| Uptime := v; UptimeSeconds := UptimeSeconds h;
     LoadAverage1 := LoadAverage1 h; LoadAverage5 := LoadAverage5 h;
     LoadAverage15 := LoadAverage15 h;
     MemoryTotal := MemoryTotal h; MemoryUsed := MemoryUsed h;
     MemoryAvailable := MemoryAvailable h; MemoryUsedPct := MemoryUsedPct h;
     NetworkConnections := NetworkConnections h; CPUCores := CPUCores h |}.

Definition setUptimeSeconds (v : Z) (h : HostSystemInfo) : HostSystemInfo :=
  {| Uptime := Uptime h; UptimeSeconds := v;
     LoadAverage1 := LoadAverage1 h; LoadAverage5 := LoadAverage5 h;
     LoadAverage15 := LoadAverage15 h;
     MemoryTotal := MemoryTotal h; MemoryUsed := MemoryUsed h;
     MemoryAvailable := MemoryAvailable h; MemoryUsedPct := MemoryUsedPct h;
     NetworkConnections := NetworkConnections h; CPUCores := CPUCores h |}.

Definition setLoadAverage1 (v : float) (h : HostSystemInfo) : HostSystemInfo :=
  {| Uptime := Uptime h; UptimeSeconds := UptimeSeconds h;
     LoadAverage1 := v; LoadAverage5 := LoadAverage5 h;
     LoadAverage15 := LoadAverage15 h;
     MemoryTotal := MemoryTotal h; MemoryUsed := MemoryUsed h;
     MemoryAvailable := MemoryAvailable h; MemoryUsedPct := MemoryUsedPct h;
     NetworkConnections := NetworkConnections h; CPUCores := CPUCores h |}.

Definition setLoadAverage5 (v : float) (h : HostSystemInfo) : HostSystemInfo :=
  {| Uptime := Uptime h; UptimeSeconds := UptimeSeconds h;
     LoadAverage1 := LoadAverage1 h; LoadAverage5 := v;
     LoadAverage15 := LoadAverage15 h;
     MemoryTotal := MemoryTotal h; MemoryUsed := MemoryUsed h;
     MemoryAvailable := MemoryAvailable h; MemoryUsedPct := MemoryUsedPct h;
     NetworkConnections := NetworkConnections h; CPUCores := CPUCores h |}.

Definition setLoadAverage15 (v : float) (h : HostSystemInfo) : HostSystemInfo :=
  {| Uptime := Uptime h; UptimeSeconds := UptimeSeconds h;
     LoadAverage1 := LoadAverage1 h; LoadAverage5 := LoadAverage5 h;
     LoadAverage15 := v;
     MemoryTotal := MemoryTotal h; MemoryUsed := MemoryUsed h;
     MemoryAvailable := MemoryAvailable h; MemoryUsedPct := MemoryUsedPct h;
     NetworkConnections := NetworkConnections h; CPUCores := CPUCores h |}.

Definition setMemoryTotal (v : Z) (h : HostSystemInfo) : HostSystemInfo :=
  {| Uptime := Uptime h; UptimeSeconds := UptimeSeconds h;
     LoadAverage1 := LoadAverage1 h; LoadAverage5 := LoadAverage5 h;
     LoadAverage15 := LoadAverage15 h;
     MemoryTotal := v; MemoryUsed := MemoryUsed h;
     MemoryAvailable := MemoryAvailable h; MemoryUsedPct := MemoryUsedPct h;
     NetworkConnections := NetworkConnections h; CPUCores := CPUCores h |}.

Definition setMemoryUsed (v : Z) (h : HostSystemInfo) : HostSystemInfo :=
  {| Uptime := Uptime h; UptimeSeconds := UptimeSeconds h;
     LoadAverage1 := LoadAverage1 h; LoadAverage5 := LoadAverage5 h;
     LoadAverage15 := LoadAverage15 h;
     MemoryTotal := MemoryTotal h; MemoryUsed := v;
     MemoryAvailable := MemoryAvailable h; MemoryUsedPct := MemoryUsedPct h;
     NetworkConnections := NetworkConnections h; CPUCores := CPUCores h |}.

Definition setMemoryAvailable (v : Z) (h : HostSystemInfo) : HostSystemInfo :=
  {| Uptime := Uptime h; UptimeSeconds := UptimeSeconds h;
     LoadAverage1 := LoadAverage1 h; LoadAverage5 := LoadAverage5 h;
     LoadAverage15 := LoadAverage15 h;
     MemoryTotal := MemoryTotal h; MemoryUsed := MemoryUsed h;
     MemoryAvailable := v; MemoryUsedPct := MemoryUsedPct h;
     NetworkConnections := NetworkConnections h; CPUCores := CPUCores h |}.

Definition setMemoryUsedPct (v : float) (h : HostSystemInfo) : HostSystemInfo :=
  {| Uptime := Uptime h; UptimeSeconds := UptimeSeconds h;
     LoadAverage1 := LoadAverage1 h; LoadAverage5 := LoadAverage5 h;
     LoadAverage15 := LoadAverage15 h;
     MemoryTotal := MemoryTotal h; MemoryUsed := MemoryUsed h;
     MemoryAvailable := MemoryAvailable h; MemoryUsedPct := v;
     NetworkConnections := NetworkConnections h; CPUCores := CPUCores h |}.

Definition setNetworkConnections (v : Z) (h : HostSystemInfo) : HostSystemInfo :=
  {| Uptime := Uptime h; UptimeSeconds := UptimeSeconds h;
     LoadAverage1 := LoadAverage1 h; LoadAverage5 := LoadAverage5 h;
     LoadAverage15 := LoadAverage15 h;
     MemoryTotal := MemoryTotal h; MemoryUsed := MemoryUsed h;
     MemoryAvailable := MemoryAvailable h; MemoryUsedPct := MemoryUsedPct h;
     NetworkConnections := v; CPUCores := CPUCores h |}.

Definition setCPUCores (v : Z) (h : HostSystemInfo) : HostSystemInfo :=
  {| Uptime := Uptime h; UptimeSeconds := UptimeSeconds h;
     LoadAverage1 := LoadAverage1 h; LoadAverage5 := LoadAverage5 h;
     LoadAverage15 := LoadAverage15 h;
     MemoryTotal := MemoryTotal h; MemoryUsed := MemoryUsed h;
     MemoryAvailable := MemoryAvailable h; MemoryUsedPct := MemoryUsedPct h;
     NetworkConnections := NetworkConnections h; CPUCores := v |}.

(** SystemdService represents a systemd service *)
Record SystemdService := {
  Name        : string;
  LoadState   : string;
  ActiveState : string;
  SubState    : string;
  Description : string;
  Unit        : string;
  Type_       : string;
  MainPID     : string;
  Memory      : string;
  Tasks       : string
}.

(** [models.SystemdService{Name: serviceName}] *)
Definition namedService (name : string) : SystemdService :=
  {| Name := name; LoadState := ""; ActiveState := ""; SubState := "";
     Description := ""; Unit := ""; Type_ := ""; MainPID := "";
     Memory := ""; Tasks := "" |}.

(** assignments to one field of [service] *)
Definition setLoadState (v : string) (s : SystemdService) : SystemdService :=
  {| Name := Name s; LoadState := v; ActiveState := ActiveState s;
     SubState := SubState s; Description := Description s; Unit := Unit s;
     Type_ := Type_ s; MainPID := MainPID s; Memory := Memory s;
     Tasks := Tasks s |}.

Definition setActiveState (v : string) (s : SystemdService) : SystemdService :=
  {| Name := Name s; LoadState := LoadState s; ActiveState := v;
     SubState := SubState s; Description := Description s; Unit := Unit s;
     Type_ := Type_ s; MainPID := MainPID s; Memory := Memory s;
     Tasks := Tasks s |}.

Definition setSubState (v : string) (s : SystemdService) : SystemdService :=
  {| Name := Name s; LoadState := LoadState s; ActiveState := ActiveState s;
     SubState := v; Description := Description s; Unit := Unit s;
     Type_ := Type_ s; MainPID := MainPID s; Memory := Memory s;
     Tasks := Tasks s |}.

Definition setDescription (v : string) (s : SystemdService) : SystemdService :=
  {| Name := Name s; LoadState := LoadState s; ActiveState := ActiveState s;
     SubState := SubState s; Description := v; Unit := Unit s;
     Type_ := Type_ s; MainPID := MainPID s; Memory := Memory s;
     Tasks := Tasks s |}.

Definition setType (v : string) (s : SystemdService) : SystemdService :=
  {| Name := Name s; LoadState := LoadState s; ActiveState := ActiveState s;
     SubState := SubState s; Description := Description s; Unit := Unit s;
     Type_ := v; MainPID := MainPID s; Memory := Memory s;
     Tasks := Tasks s |}.

Definition setMainPID (v : string) (s : SystemdService) : SystemdService :=
  {| Name := Name s; LoadState := LoadState s; ActiveState := ActiveState s;
     SubState := SubState s; Description := Description s; Unit := Unit s;
     Type_ := Type_ s; MainPID := v; Memory := Memory s;
     Tasks := Tasks s |}.

Definition setMemory (v : string) (s : SystemdService) : SystemdService :=
  {| Name := Name s; LoadState := LoadState s; ActiveState := ActiveState s;
     SubState := SubState s; Description := Description s; Unit := Unit s;
     Type_ := Type_ s; MainPID := MainPID s; Memory := v;
     Tasks := Tasks s |}.

Definition setTasks (v : string) (s : SystemdService) : SystemdService :=
  {| Name := Name s; LoadState := LoadState s; ActiveState := ActiveState s;
     SubState := SubState s; Description := Description s; Unit := Unit s;
     Type_ := Type_ s; MainPID := MainPID s; Memory := Memory s;
     Tasks := v |}.

(** SystemdServiceDetail represents detailed information about a systemd
    service *)
Record SystemdServiceDetail := {
  Service : SystemdService;
  Status  : string;
  Logs    : list string;
  Props   : list (string * string)
}.

End models.


(** A Go [map[string]string]: one value per key, no order; here the
    bindings in a list that holds each key at most once. *)
Module gomap.

Definition Map := list (string * string).

(** [make(map[string]string)] *)
Definition make : Map := [].

(** [v, ok := m[k]] *)
Fixpoint get (m : Map) (k : string) : option string :=
  match m with
  | [] => None
  | (k', v) :: r => if String.eqb k' k then Some v else get r k
  end.

(** [m[k] = v] *)
Definition set (m : Map) (k v : string) : Map :=
  (k, v) :: filter (fun kv => negb (String.eqb (fst kv) k)) m.

End gomap.
(* ================================================================= *)
(** ** internal/service/docker.go *)

Module service.

Import GoInt.

(** [InitDockerClient]: the client, or [log.Fatal] and the process is
    gone *)
Inductive Startup :=
| Ready
| Fatal (logged : string).

(** [newClient] is the error of [client.NewClientWithOpts] *)
Definition InitDockerClient (newClient : option error) : Startup :=
  match newClient with
  | Some err => Fatal ("Failed to create Docker client:" ++ err)
  | None => Ready
  end.

(** The body of [for _, container := range containers { switch ... }] *)
Definition countState (st : models.ContainerCounts) (c : types.Container)
  : models.ContainerCounts :=
  if String.eqb (types.State c) "running" then
    {| models.Running := add64 (models.Running st) 1;
       models.Paused  := models.Paused st;
       models.Stopped := models.Stopped st;
       models.Total   := models.Total st |}
  else if String.eqb (types.State c) "paused" then
    {| models.Running := models.Running st;
       models.Paused  := add64 (models.Paused st) 1;
       models.Stopped := models.Stopped st;
       models.Total   := models.Total st |}
  else
    {| models.Running := models.Running st;
       models.Paused  := models.Paused st;
       models.Stopped := add64 (models.Stopped st) 1;
       models.Total   := models.Total st |}.

Definition countContainers (containers : list types.Container)
  : models.ContainerCounts :=
  fold_left countState containers
    {| models.Running := 0; models.Paused := 0; models.Stopped := 0;
       models.Total := len containers |}.

Definition sumImageSizes (images : list types.ImageSummary) : Z :=
  fold_left (fun acc img => add64 acc (types.Size img)) images 0.

Definition GetSystemStats (d : client.Daemon) : result models.SystemStats :=
  match client.ContainerList d with
  | Err e => Err e
  | Ok containers =>
  match client.ImageList d with
  | Err e => Err e
  | Ok images =>
  match client.NetworkList d with
  | Err e => Err e
  | Ok networks =>
  match client.VolumeList d with
  | Err e => Err e
  | Ok volumes =>
      Ok {| models.Containers    := countContainers containers;
            models.ImagesTotal   := len images;
            models.ImagesSize    := sumImageSizes images;
            models.NetworksTotal := len networks;
            models.VolumesTotal  := len (types.Volumes volumes) |}
  end end end end.

Definition GetDockerInfo (d : client.Daemon) : result models.DockerInfo :=
  match client.Info d with
  | Err e => Err e
  | Ok info =>
  match client.ServerVersion d with
  | Err e => Err e
  | Ok version =>
  match client.ContainerList d with
  | Err e => Err e
  | Ok containers =>
  match client.ImageList d with
  | Err e => Err e
  | Ok images =>
  match client.NetworkList d with
  | Err e => Err e
  | Ok networks =>
  match client.VolumeList d with
  | Err e => Err e
  | Ok volumes =>
  match client.DiskUsage d with
  | Err e => Err e
  | Ok diskUsage =>
      Ok {| models.SystemInfo := info;
            models.Version := version;
            models.Containers_ := containers;
            models.Images := images;
            models.Networks := networks;
            models.Volumes := volumes;
            models.DiskUsage := diskUsage |}
  end end end end end end end.

(** the result, and the calls made on the daemon to get it *)
Definition GetContainerDetail (d : client.Daemon) (containerID : string)
  : result models.ContainerDetail * list client.Call :=
  match client.ContainerInspect d containerID with
  | Err e => (Err e, [client.CallContainerInspect containerID])
  | Ok containerJSON =>
      let detail := {| models.Container := containerJSON;
                       models.Stats := None |} in
      (* Get stats if container is running *)
      if types.StateRunning containerJSON then
        match client.ContainerStats d containerID with
        | Ok stats =>
            let detail' :=
              match types.Decode stats with
              | Ok statsJSON =>
                  {| models.Container := models.Container detail;
                     models.Stats := Some statsJSON |}
              | Err _ => detail
              end in
            (Ok detail',
             [client.CallContainerInspect containerID;
              client.CallContainerStats containerID;
              client.CallBodyClose])
        | Err _ =>
            (Ok detail,
             [client.CallContainerInspect containerID;
              client.CallContainerStats containerID])
        end
      else (Ok detail, [client.CallContainerInspect containerID])
  end.

Definition StartContainer (d : client.Daemon) (containerID : string)
  : option error :=
  client.ContainerStart d containerID.

Definition StopContainer (d : client.Daemon) (containerID : string)
  : option error :=
  let timeout := 10 in
  client.ContainerStop d containerID timeout.

Definition RestartContainer (d : client.Daemon) (containerID : string)
  : option error :=
  let timeout := 10 in
  client.ContainerRestart d containerID timeout.

(** What a relay loop has done to its sink and its log so far. *)
Inductive SinkOp :=
| Encode (event : types.Message) (* one JSON object, [encoder.Encode] *)
| Flush                          (* [flusher.Flush()] *)
| WriteJSON (event : types.Message) (* one frame, [conn.WriteJSON] *)
| LogPrintln (prefix : string) (err : error).

(** A loop either returned, or sits in [select] with nothing to receive. *)
Inductive LoopState (R : Type) :=
| Returned (r : R)
| Blocked.
Arguments Returned {R} r.
Arguments Blocked {R}.

(** [since] and [until] as they go into the options: kept when they
    parse as integers *)
Definition eventsOption (v : string) : string :=
  if String.eqb v "" then ""
  else match strconv.ParseInt v with
       | Some timestamp => strconv.FormatInt timestamp
       | None => ""
       end.

(** [for { select { ... } }] of [StreamSystemEvents], run on what
    [select] receives pass after pass; [isFlusher] tells whether the
    response writer is an [http.Flusher] *)
Fixpoint streamLoop (ctx : client.Context) (isFlusher : bool)
  (received : list client.Selected) (done : list SinkOp)
  : list SinkOp * LoopState (option error) :=
  match received with
  | [] => (done, Blocked)
  | client.RecvEvent event _ :: rest =>
      streamLoop ctx isFlusher rest
        (done ++ Encode event :: (if isFlusher then [Flush] else []))%list
  | client.RecvErr err :: _ => (done, Returned err)
  | client.CtxDone :: rest =>
      match ctx with
      | client.Cancellable => (done, Returned None)
      | client.Background => streamLoop ctx isFlusher rest done
      end
  end.

Definition StreamSystemEvents (events : client.Events)
  (ctx : client.Context) (since until : string) (isFlusher : bool)
  : list SinkOp * LoopState (option error) :=
  let options := {| types.Since := eventsOption since;
                    types.Until := eventsOption until |} in
  streamLoop ctx isFlusher (events options) [].

(* ----------------------------------------------------------------- *)
(** *** systemd services (package service, second file) *)

(** the body of the scanner loop of [GetSystemdServices] for one line of
    [systemctl list-units] output: [None] when the line adds no service *)
Definition parseUnitLine (text : string) : option models.SystemdService :=
  let line := strings.TrimSpace text in
  if String.eqb line "" then None
  else
    match strings.Fields line with
    | f0 :: f1 :: f2 :: f3 :: rest =>
        Some {| models.Unit        := f0;
                models.Name        := strings.TrimSuffix f0 ".service";
                models.LoadState   := f1;
                models.ActiveState := f2;
                models.SubState    := f3;
                models.Description :=
                  match rest with
                  | [] => ""
                  | _ => strings.Join rest " "
                  end;
                models.Type_ := ""; models.MainPID := "";
                models.Memory := ""; models.Tasks := "" |}
    | _ => None
    end.

(** [services = append(services, service)] over the scanned lines *)
Fixpoint parseUnits (lines : list string) : list models.SystemdService :=
  match lines with
  | [] => []
  | l :: r =>
      match parseUnitLine l with
      | Some s => s :: parseUnits r
      | None => parseUnits r
      end
  end.

(** the closure handed to [sort.Slice], on the two elements compared *)
Definition servicesLess (si sj : models.SystemdService) : bool :=
  if String.eqb (models.SubState si) "running"
     && negb (String.eqb (models.SubState sj) "running") then true
  else if negb (String.eqb (models.SubState si) "running")
          && String.eqb (models.SubState sj) "running" then false
  else if String.eqb (models.SubState si) (models.SubState sj)
       then String.ltb (models.Name si) (models.Name sj)
  else String.ltb (models.SubState si) (models.SubState sj).

Section Systemd.
(** [sort.Slice] of the Go library *)
Variable Slice : forall A : Type, (A -> A -> bool) -> list A -> list A.

(** the [sort.Slice(services, ...)] step *)
Definition sortServices (services : list models.SystemdService)
  : list models.SystemdService :=
  Slice _ servicesLess services.

(** [output] is what [cmd.Output()] returned for
    [systemctl list-units --type=service --all --no-pager --no-legend] *)
Definition GetSystemdServices (output : result string)
  : result (list models.SystemdService) :=
  match output with
  | Err e => Err e
  | Ok out => Ok (sortServices (parseUnits (bufio.ScanLines out)))
  end.

End Systemd.

(* ----------------------------------------------------------------- *)
(** *** host metrics (package service, second file) *)

Definition formatUptime (seconds : Z) : string :=
  let days := Z.quot seconds 86400 in
  let hours := Z.quot (Z.rem seconds 86400) 3600 in
  let minutes := Z.quot (Z.rem seconds 3600) 60 in
  if days >? 0 then
    strconv.FormatInt days ++ "d " ++ strconv.FormatInt hours ++ "h "
      ++ strconv.FormatInt minutes ++ "m"
  else if hours >? 0 then
    strconv.FormatInt hours ++ "h " ++ strconv.FormatInt minutes ++ "m"
  else
    strconv.FormatInt minutes ++ "m".

(** the body of the scanner loop over [/proc/meminfo], for one line *)
Definition memLine (hostInfo : models.HostSystemInfo) (line : string)
  : models.HostSystemInfo :=
  if strings.HasPrefix line "MemTotal:" then
    match strings.Fields line with
    | _ :: p1 :: _ =>
        match strconv.ParseInt p1 with
        | Some total => models.setMemoryTotal (mul64 total 1024) hostInfo
        | None => hostInfo
        end
    | _ => hostInfo
    end
  else if strings.HasPrefix line "MemAvailable:" then
    match strings.Fields line with
    | _ :: p1 :: _ =>
        match strconv.ParseInt p1 with
        | Some available =>
            models.setMemoryAvailable (mul64 available 1024) hostInfo
        | None => hostInfo
        end
    | _ => hostInfo
    end
  else hostInfo.

Section Host.
Variable P : platform.Platform.

(** [// Get uptime] *)
Definition readUptime (hostInfo : models.HostSystemInfo)
  : models.HostSystemInfo :=
  match platform.ReadFile P "/proc/uptime" with
  | Err _ => hostInfo
  | Ok uptimeData =>
      let uptimeStr := strings.TrimSpace uptimeData in
      match strings.Split uptimeStr strings.sp with
      | [] => hostInfo
      | part0 :: _ =>
          match platform.ParseFloat P part0 with
          | None => hostInfo
          | Some uptimeSeconds =>
              let secs := platform.int64OfFloat P uptimeSeconds in
              models.setUptime (formatUptime secs)
                (models.setUptimeSeconds secs hostInfo)
          end
      end
  end.

(** [// Get load average] *)
Definition readLoadavg (hostInfo : models.HostSystemInfo)
  : models.HostSystemInfo :=
  match platform.ReadFile P "/proc/loadavg" with
  | Err _ => hostInfo
  | Ok loadData =>
      let loadStr := strings.TrimSpace loadData in
      match strings.Split loadStr strings.sp with
      | p0 :: p1 :: p2 :: _ =>
          let h1 := match platform.ParseFloat P p0 with
                    | Some load1 => models.setLoadAverage1 load1 hostInfo
                    | None => hostInfo
                    end in
          let h2 := match platform.ParseFloat P p1 with
                    | Some load5 => models.setLoadAverage5 load5 h1
                    | None => h1
                    end in
          match platform.ParseFloat P p2 with
          | Some load15 => models.setLoadAverage15 load15 h2
          | None => h2
          end
      | _ => hostInfo
      end
  end.

(** [// Get memory info] *)
Definition readMeminfo (hostInfo : models.HostSystemInfo)
  : models.HostSystemInfo :=
  match platform.ReadFile P "/proc/meminfo" with
  | Err _ => hostInfo
  | Ok memData =>
      let h1 := fold_left memLine (bufio.ScanLines memData) hostInfo in
      let h2 := models.setMemoryUsed
                  (sub64 (models.MemoryTotal h1) (models.MemoryAvailable h1))
                  h1 in
      if models.MemoryTotal h2 >? 0 then
        models.setMemoryUsedPct
          (float64 (models.MemoryUsed h2) / float64 (models.MemoryTotal h2)
           * 100)%float h2
      else h2
  end.

(** [// Get network connections (simplified)] *)
Definition readNetTcp (hostInfo : models.HostSystemInfo)
  : models.HostSystemInfo :=
  match platform.ReadFile P "/proc/net/tcp" with
  | Err _ => hostInfo
  | Ok netData =>
      let lines := strings.Split netData strings.lf in
      let h1 := models.setNetworkConnections (sub64 (len lines) 2) hostInfo in
      if models.NetworkConnections h1 <? 0
      then models.setNetworkConnections 0 h1
      else h1
  end.

(** the snapshot and the error result *)
Definition GetHostSystemInfo : models.HostSystemInfo * option error :=
  let hostInfo := models.zeroHostSystemInfo in
  let hostInfo := readUptime hostInfo in
  let hostInfo := readLoadavg hostInfo in
  let hostInfo := readMeminfo hostInfo in
  let hostInfo := models.setCPUCores (platform.NumCPU P) hostInfo in
  let hostInfo := readNetTcp hostInfo in
  (hostInfo, None).

End Host.


(* ----------------------------------------------------------------- *)
(** *** the detail of one systemd service *)

(** A call that returns, or panics at run time. *)
Inductive Outcome (A : Type) :=
| Return (a : A)
| Panic (msg : string).
Arguments Return {A} a.
Arguments Panic {A} msg.

(** [for i, part := range parts]: the field after the first ["PID:"]
    that has one *)
Fixpoint mainPID (parts : list string) : option string :=
  match parts with
  | [] => None
  | part :: rest =>
      if String.eqb part "PID:" then
        match rest with
        | next :: _ => Some next
        | [] => mainPID rest
        end
      else mainPID rest
  end.

(** the body of [for _, line := range lines] of [GetSystemdServiceDetail];
    [None] is the index-out-of-range panic of [strings.Fields(loadPart)[0]]
    on an empty slice *)
Definition statusLine (service : models.SystemdService) (line : string)
  : option models.SystemdService :=
  let line := strings.TrimSpace line in
  if strings.Contains line "Loaded:" then
    match strings.Split line ";" with
    | part0 :: _ =>
        let loadPart :=
          strings.TrimSpace (strings.TrimPrefix part0 "Loaded:") in
        match strings.Fields loadPart with
        | f0 :: _ => Some (models.setLoadState f0 service)
        | [] => None
        end
    | [] => Some service
    end
  else if strings.Contains line "Active:" then
    let activeLine := strings.TrimPrefix line "Active:" in
    let activeFields := strings.Fields (strings.TrimSpace activeLine) in
    match activeFields with
    | a0 :: a1 :: _ =>
        Some (models.setSubState (strings.Trim a1 "()")
                (models.setActiveState a0 service))
    | _ => Some service
    end
  else if strings.Contains line "Main PID:" then
    let parts := strings.Fields line in
    match mainPID parts with
    | Some pid => Some (models.setMainPID pid service)
    | None => Some service
    end
  else Some service.

Fixpoint statusLines (service : models.SystemdService) (lines : list string)
  : option models.SystemdService :=
  match lines with
  | [] => Some service
  | line :: rest =>
      match statusLine service line with
      | Some service' => statusLines service' rest
      | None => None
      end
  end.

(** the body of the scanner loop over the output of [systemctl show] *)
Definition propertyLine (properties : gomap.Map) (line : string)
  : gomap.Map :=
  match strings.SplitN line "=" 2 with
  | [k; v] => gomap.set properties k v
  | _ => properties
  end.

(** [// Extract useful properties] *)
Definition extractProperties (properties : gomap.Map)
  (service : models.SystemdService) : models.SystemdService :=
  let service :=
    match gomap.get properties "Description" with
    | Some desc => models.setDescription desc service
    | None => service
    end in
  let service :=
    match gomap.get properties "Type" with
    | Some serviceType => models.setType serviceType service
    | None => service
    end in
  let service :=
    match gomap.get properties "MemoryCurrent" with
    | Some memory => models.setMemory memory service
    | None => service
    end in
  match gomap.get properties "TasksCurrent" with
  | Some tasks => models.setTasks tasks service
  | None => service
  end.

(** [for _, line := range logLines]: the lines that are not blank *)
Fixpoint logLines (lines : list string) : list string :=
  match lines with
  | [] => []
  | line :: rest =>
      if negb (String.eqb (strings.TrimSpace line) "")
      then line :: logLines rest
      else logLines rest
  end.

(** [statusOutput] and [showOutput] are what [Output()] returned for
    [systemctl status serviceName --no-pager --lines=0] and
    [systemctl show serviceName --no-pager]; [logsOutput] is the bytes
    [Output()] returned for [journalctl -u serviceName --no-pager -n 50
    --output=short], [None] for a nil slice, its error being dropped *)
Definition GetSystemdServiceDetail (serviceName : string)
  (statusOutput showOutput : result string) (logsOutput : option string)
  : Outcome (result models.SystemdServiceDetail) :=
  match statusOutput with
  | Err err => Return (Err err)
  | Ok statusStr =>
      (* Extract basic info from status output *)
      let lines := strings.Split statusStr strings.lf in
      match statusLines (models.namedService serviceName) lines with
      | None => Panic "runtime error: index out of range [0] with length 0"
      | Some service =>
          (* Get service properties *)
          let '(properties, service) :=
            match showOutput with
            | Ok out =>
                let properties :=
                  fold_left propertyLine (bufio.ScanLines out) gomap.make in
                (properties, extractProperties properties service)
            | Err _ => (gomap.make, service)
            end in
          (* Get recent logs *)
          let logs :=
            match logsOutput with
            | Some out => logLines (strings.Split out strings.lf)
            | None => []
            end in
          Return (Ok {| models.Service := service;
                        models.Status := statusStr;
                        models.Logs := logs;
                        models.Props := properties |})
      end
  end.

(* ----------------------------------------------------------------- *)
(** *** the systemd functions with the commands they run *)

Section Commands.
Variable Slice : forall A : Type, (A -> A -> bool) -> list A -> list A.
Variable sh : exec.Commands.

Definition listUnitsCommand : list string :=
  ["systemctl"; "list-units"; "--type=service"; "--all"; "--no-pager";
   "--no-legend"].

Definition statusCommand (serviceName : string) : list string :=
  ["systemctl"; "status"; serviceName; "--no-pager"; "--lines=0"].

Definition showCommand (serviceName : string) : list string :=
  ["systemctl"; "show"; serviceName; "--no-pager"].

Definition journalCommand (serviceName : string) : list string :=
  ["journalctl"; "-u"; serviceName; "--no-pager"; "-n"; "50";
   "--output=short"].

(** [GetSystemdServices()]: the command is run and its output read *)
Definition runGetSystemdServices
  : exec.Wait (result (list models.SystemdService)) :=
  match exec.Output sh listUnitsCommand with
  | exec.Returns output =>
      exec.Returns (GetSystemdServices Slice (exec.checked output))
  | exec.Blocks => exec.Blocks
  end.

(** [GetSystemdServiceDetail(serviceName)]: the three commands are run
    in turn.  The status command comes first, and its output is read
    before the next command is started: a failed status returns, and a
    status that cannot be read panics, without the other two commands
    being run.  The error of [systemctl show] is looked at by
    [GetSystemdServiceDetail]; that of [journalctl] is dropped. *)
Definition runGetSystemdServiceDetail (serviceName : string)
  : exec.Wait (Outcome (result models.SystemdServiceDetail)) :=
  match exec.Output sh (statusCommand serviceName) with
  | exec.Blocks => exec.Blocks
  | exec.Returns status =>
      let statusOutput := exec.checked status in
      match statusOutput with
      | Err _ =>
          exec.Returns
            (GetSystemdServiceDetail serviceName statusOutput (Err "") None)
      | Ok statusStr =>
          match statusLines (models.namedService serviceName)
                  (strings.Split statusStr strings.lf) with
          | None =>
              exec.Returns
                (GetSystemdServiceDetail serviceName statusOutput (Err "")
                   None)
          | Some _ =>
              match exec.Output sh (showCommand serviceName) with
              | exec.Blocks => exec.Blocks
              | exec.Returns show =>
                  match exec.Output sh (journalCommand serviceName) with
                  | exec.Blocks => exec.Blocks
                  | exec.Returns journal =>
                      exec.Returns
                        (GetSystemdServiceDetail serviceName statusOutput
                           (exec.checked show) (exec.Stdout journal))
                  end
              end
          end
      end
  end.

End Commands.
End service.

(* ================================================================= *)
(** ** net/http, as the handlers use it *)

Module http.

Definition StatusOK : Z := 200.
Definition StatusInternalServerError : Z := 500.

(** the value handed to [json.NewEncoder(w).Encode] *)
Inductive Encoded :=
| EncDockerInfo (v : models.DockerInfo)
| EncContainers (v : list types.Container)
| EncContainerDetail (v : models.ContainerDetail)
| EncImages (v : list types.ImageSummary)
| EncNetworks (v : list types.NetworkResource)
| EncVolumes (v : types.VolumeListResponse)
| EncSystemStats (v : models.SystemStats)
| EncHostSystemInfo (v : models.HostSystemInfo)
| EncServices (v : list models.SystemdService)
| EncServiceDetail (v : models.SystemdServiceDetail)
| EncMap (v : list (string * string)).

Inductive Body :=
| Text (s : string)
| JSON (v : Encoded).

Record Response := {
  Status      : Z;
  ContentType : option string;
  Payload     : Body
}.

(** [http.Error(w, error, code)]: plain text, the message and a line
    feed *)
Definition Error (error : string) (code : Z) : Response :=
  {| Status := code;
     ContentType := Some "text/plain; charset=utf-8";
     Payload := Text (error ++ String strings.lf "") |}.

(** the handlers' success path: the header is set and the value encoded,
    the status defaults to 200 *)
Definition writeJSON (v : Encoded) : Response :=
  {| Status := StatusOK;
     ContentType := Some "application/json";
     Payload := JSON v |}.

(** What a handler comes to: it answers; it panics, and the server
    ([net/http], which runs each handler in the goroutine of its
    connection) recovers, logs the panic and drops the connection without
    an answer; or it never returns. *)
Inductive Served :=
| Responds (r : Response)
| Panics (msg : string)
| Waits.

End http.

(* ================================================================= *)
(** ** internal/api/handlers.go *)

Module api.

Definition GetDockerInfo (d : client.Daemon) : http.Response :=
  match service.GetDockerInfo d with
  | Err err => http.Error err http.StatusInternalServerError
  | Ok info => http.writeJSON (http.EncDockerInfo info)
  end.

Definition GetContainers (d : client.Daemon) : http.Response :=
  match client.ContainerList d with
  | Err err => http.Error err http.StatusInternalServerError
  | Ok containers => http.writeJSON (http.EncContainers containers)
  end.

Definition GetContainerDetail (d : client.Daemon) (id : string)
  : http.Response :=
  match fst (service.GetContainerDetail d id) with
  | Err err => http.Error err http.StatusInternalServerError
  | Ok detail => http.writeJSON (http.EncContainerDetail detail)
  end.

(** [w.WriteHeader(http.StatusOK)] and the encoded status map; no
    content type is set *)
Definition statusReply (status : string) : http.Response :=
  {| http.Status := http.StatusOK;
     http.ContentType := None;
     http.Payload := http.JSON (http.EncMap [("status", status)]) |}.

Definition StartContainer (d : client.Daemon) (id : string) : http.Response :=
  match service.StartContainer d id with
  | Some err => http.Error err http.StatusInternalServerError
  | None => statusReply "started"
  end.

Definition StopContainer (d : client.Daemon) (id : string) : http.Response :=
  match service.StopContainer d id with
  | Some err => http.Error err http.StatusInternalServerError
  | None => statusReply "stopped"
  end.

Definition RestartContainer (d : client.Daemon) (id : string) : http.Response :=
  match service.RestartContainer d id with
  | Some err => http.Error err http.StatusInternalServerError
  | None => statusReply "restarted"
  end.

(** the read loop of [GetContainerLogs]: what is written before the first
    read that reports an error *)
Fixpoint copyLogs (reads : list types.LogRead) : string :=
  match reads with
  | [] => ""
  | (chunk, None) :: rest => chunk ++ copyLogs rest
  | (_, Some _) :: _ => ""
  end.

Definition GetContainerLogs (d : client.Daemon) (id tailParam : string)
  : http.Response :=
  let tail := if String.eqb tailParam "" then "100" else tailParam in
  match client.ContainerLogs d id tail with
  | Err err => http.Error err http.StatusInternalServerError
  | Ok logs =>
      {| http.Status := http.StatusOK;
         http.ContentType := Some "text/plain";
         http.Payload := http.Text (copyLogs logs) |}
  end.

Definition GetImages (d : client.Daemon) : http.Response :=
  match client.ImageList d with
  | Err err => http.Error err http.StatusInternalServerError
  | Ok images => http.writeJSON (http.EncImages images)
  end.

Definition GetNetworks (d : client.Daemon) : http.Response :=
  match client.NetworkList d with
  | Err err => http.Error err http.StatusInternalServerError
  | Ok networks => http.writeJSON (http.EncNetworks networks)
  end.

Definition GetVolumes (d : client.Daemon) : http.Response :=
  match client.VolumeList d with
  | Err err => http.Error err http.StatusInternalServerError
  | Ok volumes => http.writeJSON (http.EncVolumes volumes)
  end.

Definition GetSystemStats (d : client.Daemon) : http.Response :=
  match service.GetSystemStats d with
  | Err err => http.Error err http.StatusInternalServerError
  | Ok stats => http.writeJSON (http.EncSystemStats stats)
  end.

(** the handler calls [StreamSystemEvents] with [context.Background()]
    and drops its error: what reaches the client is what the loop wrote *)
Definition GetSystemEvents (events : client.Events)
  (since until : string) (isFlusher : bool)
  : list service.SinkOp * service.LoopState unit :=
  match service.StreamSystemEvents events client.Background since until
          isFlusher with
  | (done, service.Returned _) => (done, service.Returned tt)
  | (done, service.Blocked) => (done, service.Blocked)
  end.

(** [for { select { ... } }] of [HandleWebSocket]; the context is
    [context.Background()] *)
Fixpoint webSocketLoop (received : list client.Selected)
  (done : list service.SinkOp)
  : list service.SinkOp * service.LoopState unit :=
  match received with
  | [] => (done, service.Blocked)
  | client.RecvEvent event None :: rest =>
      webSocketLoop rest (done ++ [service.WriteJSON event])%list
  | client.RecvEvent event (Some err) :: _ =>
      ((done ++ [service.LogPrintln "WebSocket write error:" err])%list,
       service.Returned tt)
  | client.RecvErr (Some err) :: _ =>
      ((done ++ [service.LogPrintln "Docker events error:" err])%list,
       service.Returned tt)
  | client.RecvErr None :: rest => webSocketLoop rest done
  | client.CtxDone :: rest => webSocketLoop rest done
  end.

(** [upgrade] is the error of [Upgrader.Upgrade] *)
Definition HandleWebSocket (upgrade : option error) (events : client.Events)
  : list service.SinkOp * service.LoopState unit :=
  match upgrade with
  | Some err =>
      ([service.LogPrintln "WebSocket upgrade error:" err], service.Returned tt)
  | None =>
      webSocketLoop (events {| types.Since := ""; types.Until := "" |}) []
  end.

Definition GetHostSystemInfo (P : platform.Platform) : http.Response :=
  match service.GetHostSystemInfo P with
  | (_, Some err) =>
      http.Error ("Failed to get host info: " ++ err)
        http.StatusInternalServerError
  | (hostInfo, None) => http.writeJSON (http.EncHostSystemInfo hostInfo)
  end.

Section Systemd.
Variable Slice : forall A : Type, (A -> A -> bool) -> list A -> list A.
Variable sh : exec.Commands.

Definition GetSystemdServices : http.Served :=
  match service.runGetSystemdServices Slice sh with
  | exec.Blocks => http.Waits
  | exec.Returns (Err err) =>
      http.Responds
        (http.Error ("Failed to get services: " ++ err)
           http.StatusInternalServerError)
  | exec.Returns (Ok services) =>
      http.Responds (http.writeJSON (http.EncServices services))
  end.

Definition GetSystemdServiceDetail (serviceName : string) : http.Served :=
  match service.runGetSystemdServiceDetail sh serviceName with
  | exec.Blocks => http.Waits
  | exec.Returns (service.Panic msg) => http.Panics msg
  | exec.Returns (service.Return (Err err)) =>
      http.Responds
        (http.Error ("Failed to get service detail: " ++ err)
           http.StatusInternalServerError)
  | exec.Returns (service.Return (Ok detail)) =>
      http.Responds (http.writeJSON (http.EncServiceDetail detail))
  end.

Definition serviceAction (verb failed done : string) (serviceName : string)
  : http.Served :=
  match exec.Run sh ["systemctl"; verb; serviceName] with
  | exec.Blocks => http.Waits
  | exec.Returns (Some err) =>
      http.Responds (http.Error (failed ++ err) http.StatusInternalServerError)
  | exec.Returns None =>
      http.Responds
        (http.writeJSON
           (http.EncMap [("status", "success"); ("message", done)]))
  end.

Definition StartSystemdService :=
  serviceAction "start" "Failed to start service: " "Service started".
Definition StopSystemdService :=
  serviceAction "stop" "Failed to stop service: " "Service stopped".
Definition RestartSystemdService :=
  serviceAction "restart" "Failed to restart service: " "Service restarted".
Definition EnableSystemdService :=
  serviceAction "enable" "Failed to enable service: " "Service enabled".
Definition DisableSystemdService :=
  serviceAction "disable" "Failed to disable service: " "Service disabled".

(** the command line of [GetSystemdServiceLogs] *)
Definition logsCommand (serviceName linesParam followParam : string)
  : list string :=
  let lines := if String.eqb linesParam "" then "100" else linesParam in
  let follow := String.eqb followParam "true" in
  if follow then
    ["journalctl"; "-u"; serviceName; "--no-pager"; "-n"; lines; "-f";
     "--output=short"]
  else
    ["journalctl"; "-u"; serviceName; "--no-pager"; "-n"; lines;
     "--output=short"].

Definition GetSystemdServiceLogs (serviceName linesParam followParam : string)
  : http.Served :=
  match exec.Output sh (logsCommand serviceName linesParam followParam) with
  | exec.Blocks => http.Waits
  | exec.Returns output =>
      match exec.checked output with
      | Err err =>
          http.Responds
            (http.Error ("Failed to get service logs: " ++ err)
               http.StatusInternalServerError)
      | Ok out =>
          http.Responds
            {| http.Status := http.StatusOK;
               http.ContentType := Some "text/plain";
               http.Payload := http.Text out |}
      end
  end.

End Systemd.

End api.

(* ================================================================= *)
(** ** internal/api/router.go and main *)

Module router.

(** the request/response routes of [NewRouter], with the path variables
    and query parameters their handlers read; the two streaming routes
    ([/api/system/events] and [/ws]) are the relay loops above *)
Inductive Route :=
| GET_info
| GET_containers
| GET_container (id : string)
| POST_container_start (id : string)
| POST_container_stop (id : string)
| POST_container_restart (id : string)
| GET_container_logs (id tail : string)
| GET_images
| GET_networks
| GET_volumes
| GET_system_stats
| GET_system_host
| GET_services
| GET_service (name : string)
| POST_service_start (name : string)
| POST_service_stop (name : string)
| POST_service_restart (name : string)
| POST_service_enable (name : string)
| POST_service_disable (name : string)
| GET_service_logs (name lines follow : string).

(** what a request finds outside the program *)
Record World := {
  docker  : client.Daemon;
  shell   : exec.Commands;
  host    : platform.Platform;
  (** [sort.Slice] *)
  Slice : forall A : Type, (A -> A -> bool) -> list A -> list A
}.

Definition ServeHTTP (w : World) (r : Route) : http.Served :=
  match r with
  | GET_info => http.Responds (api.GetDockerInfo (docker w))
  | GET_containers => http.Responds (api.GetContainers (docker w))
  | GET_container id => http.Responds (api.GetContainerDetail (docker w) id)
  | POST_container_start id =>
      http.Responds (api.StartContainer (docker w) id)
  | POST_container_stop id => http.Responds (api.StopContainer (docker w) id)
  | POST_container_restart id =>
      http.Responds (api.RestartContainer (docker w) id)
  | GET_container_logs id tail =>
      http.Responds (api.GetContainerLogs (docker w) id tail)
  | GET_images => http.Responds (api.GetImages (docker w))
  | GET_networks => http.Responds (api.GetNetworks (docker w))
  | GET_volumes => http.Responds (api.GetVolumes (docker w))
  | GET_system_stats => http.Responds (api.GetSystemStats (docker w))
  | GET_system_host => http.Responds (api.GetHostSystemInfo (host w))
  | GET_services => api.GetSystemdServices (Slice w) (shell w)
  | GET_service name => api.GetSystemdServiceDetail (shell w) name
  | POST_service_start name => api.StartSystemdService (shell w) name
  | POST_service_stop name => api.StopSystemdService (shell w) name
  | POST_service_restart name => api.RestartSystemdService (shell w) name
  | POST_service_enable name => api.EnableSystemdService (shell w) name
  | POST_service_disable name => api.DisableSystemdService (shell w) name
  | GET_service_logs name lines follow =>
      api.GetSystemdServiceLogs (shell w) name lines follow
  end.

(** the process: still serving, or exited through [log.Fatal] *)
Inductive Process :=
| Serving
| Exited (logged : string).

(** [main]: the client is created, the server listens, and the requests
    that arrive are served, each in the world it finds and in a goroutine
    of its own: a handler that panics or never returns holds up no other
    request.  [newClient] and [listen] are the errors of
    [client.NewClientWithOpts] and [http.ListenAndServe]. *)
Definition main (newClient listen : option error)
  (requests : list (World * Route)) : list http.Served * Process :=
  match service.InitDockerClient newClient with
  | service.Fatal logged => ([], Exited logged)
  | service.Ready =>
      match listen with
      | Some err => ([], Exited err)
      | None => (map (fun '(w, r) => ServeHTTP w r) requests, Serving)
      end
  end.

End router.

(* ================================================================= *)
(** ** The browser application ([class DockerManager]) *)

Module DockerManager.

(** a decoded Docker event, as far as the dispatcher reads it *)
Record EventData := {
  Type_  : string;
  Action : string
}.

(** the fields of [this] that the dispatcher reads or writes; numbers are
    integers well inside the exact range of a JavaScript number *)
Record State := {
  currentTab      : string;
  eventCount      : Z;
  lastRefreshTime : Z;
  refreshCooldown : Z
}.

(** [constructor()] *)
Definition constructor : State :=
  {| currentTab := "dashboard";
     eventCount := 0;
     lastRefreshTime := 0;
     refreshCooldown := 5000 (* 5 seconds cooldown between refreshes *) |}.

(** what a call does besides updating [this] *)
Inductive Effect :=
| SetEventsCountText (n : Z)
| AddEventToStream (eventData : EventData)
| ConsoleLog (message : string)
| LoadContainers
| LoadImages
| LoadNetworks
| LoadVolumes
| FetchSystemStats.

(** [array.includes(x)] on strings *)
Definition includes (xs : list string) (x : string) : bool :=
  existsb (String.eqb x) xs.

(** [refreshDashboardStats()], up to its first [await] *)
Definition refreshDashboardStats (this : State) : list Effect :=
  if String.eqb (currentTab this) "dashboard" then [FetchSystemStats] else [].

Definition handleContainerEvent (this : State) (eventData : EventData)
  : list Effect :=
  let action := Action eventData in
  if includes ["start"; "stop"; "die"; "destroy"; "create"] action then
    ((if String.eqb (currentTab this) "containers" then [LoadContainers] else [])
     ++ refreshDashboardStats this)%list
  else [].

Definition setLastRefreshTime (this : State) (now : Z) : State :=
  {| currentTab := currentTab this;
     eventCount := eventCount this;
     lastRefreshTime := now;
     refreshCooldown := refreshCooldown this |}.

(** [smartRefresh(eventData)]; [now] is what [Date.now()] returns *)
Definition smartRefresh (this : State) (eventData : EventData) (now : Z)
  : State * list Effect :=
  (* Apply cooldown to prevent excessive API calls *)
  if now - lastRefreshTime this <? refreshCooldown this then
    (this, [ConsoleLog "Refresh skipped due to cooldown"])
  else
    let effects :=
      if String.eqb (Type_ eventData) "container" then
        handleContainerEvent this eventData
      else if String.eqb (Type_ eventData) "image" then
        ((if String.eqb (currentTab this) "images" then [LoadImages] else [])
         ++ (if includes ["delete"; "untag"] (Action eventData)
             then refreshDashboardStats this else []))%list
      else if String.eqb (Type_ eventData) "network" then
        (if String.eqb (currentTab this) "networks" then [LoadNetworks] else [])
      else if String.eqb (Type_ eventData) "volume" then
        (if String.eqb (currentTab this) "volumes" then [LoadVolumes] else [])
      else [] in
    (setLastRefreshTime this now, effects).

(** [handleDockerEvent(eventData)]; [hasCounter] tells whether the
    [events-count] element is in the page *)
Definition handleDockerEvent (hasCounter : bool) (this : State)
  (eventData : EventData) (now : Z) : State * list Effect :=
  let this1 :=
    {| currentTab := currentTab this;
       eventCount := eventCount this + 1;
       lastRefreshTime := lastRefreshTime this;
       refreshCooldown := refreshCooldown this |} in
  let counted :=
    if hasCounter then [SetEventsCountText (eventCount this1)] else [] in
  (* Add to events stream if on events tab *)
  let streamed :=
    if String.eqb (currentTab this1) "events"
    then [AddEventToStream eventData] else [] in
  (* Smart refresh with cooldown (only if not on events tab) *)
  if negb (String.eqb (currentTab this1) "events")
     && includes ["container"; "image"; "network"; "volume"] (Type_ eventData)
  then
    let '(this2, refreshed) := smartRefresh this1 eventData now in
    (this2, (counted ++ streamed ++ refreshed)%list)
  else (this1, (counted ++ streamed)%list).

(** the tab the user is on when an event arrives, the event, and the
    clock at that moment *)
Record Arrival := {
  tab   : string;
  event : EventData;
  clock : Z
}.

Definition onTab (this : State) (t : string) : State :=
  {| currentTab := t;
     eventCount := eventCount this;
     lastRefreshTime := lastRefreshTime this;
     refreshCooldown := refreshCooldown this |}.

(** the events of a session, handled in turn; each gives its effects *)
Fixpoint handleAll (hasCounter : bool) (this : State)
  (arrivals : list Arrival) : State * list (list Effect) :=
  match arrivals with
  | [] => (this, [])
  | a :: rest =>
      let '(this1, effects) :=
        handleDockerEvent hasCounter (onTab this (tab a)) (event a) (clock a) in
      let '(this2, more) := handleAll hasCounter this1 rest in
      (this2, effects :: more)
  end.

End DockerManager.


(* ================================================================= *)
(** ** The WebSocket of the browser application *)

(** The browser's [WebSocket] objects, as far as the application touches
    them. *)
Module WebSocket.

Inductive ReadyState := CONNECTING | OPEN | CLOSING | CLOSED.

(** an object: its state and, for each handler property, whether it
    holds a closure of the application ([true]) or [null] *)
Record Object := {
  readyState : ReadyState;
  onopen     : bool;
  onmessage  : bool;
  onerror    : bool;
  onclose    : bool
}.

(** [new WebSocket(url)], when it does not throw *)
Definition new : Object :=
  {| readyState := CONNECTING; onopen := false; onmessage := false;
     onerror := false; onclose := false |}.

Definition setReadyState (r : ReadyState) (s : Object) : Object :=
  {| readyState := r; onopen := onopen s; onmessage := onmessage s;
     onerror := onerror s; onclose := onclose s |}.

(** the four handler properties assigned at once *)
Definition setHandlers (h : bool) (s : Object) : Object :=
  {| readyState := readyState s; onopen := h; onmessage := h;
     onerror := h; onclose := h |}.

(** [close()]: an open or connecting socket starts closing *)
Definition close (s : Object) : Object :=
  match readyState s with
  | CONNECTING | OPEN => setReadyState CLOSING s
  | CLOSING | CLOSED => s
  end.

Definition isOpen (s : Object) : bool :=
  match readyState s with
  | OPEN => true
  | _ => false
  end.

End WebSocket.

(** [setupWebSocket], [closeWebSocket] and [switchTab] of
    [class DockerManager], with the handlers that [setupWebSocket]
    installs. *)
Module Connection.

(** the application object and the sockets it has created; [ws] is the
    index in [sockets] of the object [this.ws] refers to, [reconnects]
    the number of pending [setTimeout(() => this.setupWebSocket(), 5000)] *)
Record Page := {
  app        : DockerManager.State;
  ws         : option nat;
  sockets    : list WebSocket.Object;
  reconnects : nat
}.

(** [constructor()], before the first click *)
Definition constructor : Page :=
  {| app := DockerManager.constructor; ws := None; sockets := [];
     reconnects := O |}.

Inductive Effect :=
| ConsoleLog (message : string)
| ConsoleError (message : string)
| UpdateConnectionStatus (connected : bool)
| LoadTabData (tabName : string)
(** [handleDockerEvent] ran, on the tab given, with these effects *)
| Handled (tab : string) (effects : list DockerManager.Effect).

(** the object at index [i], changed by [f] *)
Fixpoint update (l : list WebSocket.Object) (i : nat)
  (f : WebSocket.Object -> WebSocket.Object) : list WebSocket.Object :=
  match l, i with
  | [], _ => []
  | s :: r, O => f s :: r
  | s :: r, S i' => s :: update r i' f
  end.

(** [this.ws && this.ws.readyState === WebSocket.OPEN] *)
Definition connected (p : Page) : bool :=
  match ws p with
  | Some i =>
      match nth_error (sockets p) i with
      | Some s => WebSocket.isOpen s
      | None => false
      end
  | None => false
  end.

(** [setupWebSocket()]; [constructs] tells whether [new WebSocket(wsUrl)]
    returns ([true]) or throws *)
Definition setupWebSocket (constructs : bool) (p : Page)
  : Page * list Effect :=
  (* Only setup WebSocket if not already connected and on events tab *)
  if connected p then (p, [])
  else if constructs then
    ({| app := app p;
        ws := Some (List.length (sockets p));
        sockets :=
          (sockets p ++ [WebSocket.setHandlers true WebSocket.new])%list;
        reconnects := reconnects p |}, [])
  else
    (p, [ConsoleError "Failed to create WebSocket:";
         UpdateConnectionStatus false]).

(** [closeWebSocket()] *)
Definition closeWebSocket (p : Page) : Page * list Effect :=
  match ws p with
  | Some i =>
      ({| app := app p;
          ws := None;
          sockets :=
            update (sockets p) i
              (fun s =>
                 (* Remove event listeners to prevent reconnection attempts *)
                 let s := WebSocket.setHandlers false s in
                 (* Close the connection *)
                 match WebSocket.readyState s with
                 | WebSocket.OPEN | WebSocket.CONNECTING => WebSocket.close s
                 | _ => s
                 end);
          reconnects := reconnects p |},
       [ConsoleLog "Closing WebSocket connection";
        UpdateConnectionStatus false])
  | None => (p, [])
  end.

Definition setCurrentTab (tabName : string) (p : Page) : Page :=
  {| app := DockerManager.onTab (app p) tabName; ws := ws p;
     sockets := sockets p; reconnects := reconnects p |}.

(** [switchTab(tabName)], for a tab of the page *)
Definition switchTab (tabName : string) (constructs : bool) (p : Page)
  : Page * list Effect :=
  let p := setCurrentTab tabName p in
  (* Handle WebSocket connection based on tab *)
  let '(p, effects) :=
    if String.eqb tabName "events" then setupWebSocket constructs p
    else closeWebSocket p in
  (p, (effects ++ [UpdateConnectionStatus (connected p);
                   LoadTabData tabName])%list).

(** [this.ws.onopen] *)
Definition onopen (p : Page) : Page * list Effect :=
  (p, [ConsoleLog "WebSocket connected"; UpdateConnectionStatus true]).

(** [this.ws.onmessage], for a message that parses *)
Definition onmessage (hasCounter : bool) (eventData : DockerManager.EventData)
  (now : Z) (p : Page) : Page * list Effect :=
  let '(this, effects) :=
    DockerManager.handleDockerEvent hasCounter (app p) eventData now in
  ({| app := this; ws := ws p; sockets := sockets p;
      reconnects := reconnects p |},
   [Handled (DockerManager.currentTab (app p)) effects]).

(** [this.ws.onclose] *)
Definition onclose (p : Page) : Page * list Effect :=
  ((* Only attempt to reconnect if still on events tab *)
   if String.eqb (DockerManager.currentTab (app p)) "events" then
     {| app := app p; ws := ws p; sockets := sockets p;
        reconnects := S (reconnects p) |}
   else p,
   [ConsoleLog "WebSocket disconnected"; UpdateConnectionStatus false]).

(** [this.ws.onerror] *)
Definition onerror (p : Page) : Page * list Effect :=
  (p, [ConsoleError "WebSocket error:"; UpdateConnectionStatus false]).

(** What happens to the page: the user clicks a tab, the browser opens
    or closes a socket or delivers a message on it, a reconnect timer
    fires. *)
Inductive Occurrence :=
| Click (tabName : string) (constructs : bool)
| Opens (i : nat)
| Closes (i : nat)
| Message (i : nat) (eventData : DockerManager.EventData) (now : Z)
| Timeout (constructs : bool).

Definition setSockets (l : list WebSocket.Object) (p : Page) : Page :=
  {| app := app p; ws := ws p; sockets := l; reconnects := reconnects p |}.

(** One occurrence.  The browser moves a connecting socket to [OPEN] and
    fires [open], moves a socket that is not closed to [CLOSED] and fires
    [close], and fires [message] on an open socket; an event reaches the
    application when the handler property holds a closure. *)
Definition step (hasCounter : bool) (p : Page) (o : Occurrence)
  : Page * list Effect :=
  match o with
  | Click tabName constructs => switchTab tabName constructs p
  | Opens i =>
      match nth_error (sockets p) i with
      | Some s =>
          match WebSocket.readyState s with
          | WebSocket.CONNECTING =>
              let p :=
                setSockets
                  (update (sockets p) i
                     (WebSocket.setReadyState WebSocket.OPEN)) p in
              if WebSocket.onopen s then onopen p else (p, [])
          | _ => (p, [])
          end
      | None => (p, [])
      end
  | Closes i =>
      match nth_error (sockets p) i with
      | Some s =>
          match WebSocket.readyState s with
          | WebSocket.CLOSED => (p, [])
          | _ =>
              let p :=
                setSockets
                  (update (sockets p) i
                     (WebSocket.setReadyState WebSocket.CLOSED)) p in
              if WebSocket.onclose s then onclose p else (p, [])
          end
      | None => (p, [])
      end
  | Message i eventData now =>
      match nth_error (sockets p) i with
      | Some s =>
          if WebSocket.isOpen s && WebSocket.onmessage s
          then onmessage hasCounter eventData now p
          else (p, [])
      | None => (p, [])
      end
  | Timeout constructs =>
      match reconnects p with
      | S n =>
          setupWebSocket constructs
            {| app := app p; ws := ws p; sockets := sockets p;
               reconnects := n |}
      | O => (p, [])
      end
  end.

(** the occurrences of a session in turn *)
Fixpoint run (hasCounter : bool) (p : Page) (session : list Occurrence)
  : Page * list Effect :=
  match session with
  | [] => (p, [])
  | o :: rest =>
      let '(p1, effects) := step hasCounter p o in
      let '(p2, more) := run hasCounter p1 rest in
      (p2, (effects ++ more)%list)
  end.

End Connection.
(* ================================================================= *)
(** * Vocabulary of the properties *)

Import GoInt.

(** ** Container states *)

Definition isRunning (c : types.Container) : bool :=
  String.eqb (types.State c) "running".
Definition isPaused (c : types.Container) : bool :=
  String.eqb (types.State c) "paused".
Definition isOther (c : types.Container) : bool :=
  negb (isRunning c) && negb (isPaused c).

Definition countIf {A} (p : A -> bool) (l : list A) : Z :=
  len (filter p l).

Definition sampleDaemon : client.Daemon :=
  {| client.Info := Ok {| types.InfoName := "host" |};
     client.ServerVersion := Ok {| types.VersionString := "24.0" |};
     client.ContainerList :=
       Ok [ {| types.ID := "c1"; types.State := "running" |};
            {| types.ID := "c2"; types.State := "exited" |};
            {| types.ID := "c3"; types.State := "paused" |};
            {| types.ID := "c4"; types.State := "created" |};
            {| types.ID := "c5"; types.State := "running" |} ];
     client.ImageList := Ok [ {| types.ImageID := "i1"; types.Size := 1000 |} ];
     client.NetworkList := Ok [ {| types.NetworkName := "bridge" |} ];
     client.VolumeList := Ok {| types.Volumes := ["v1"; "v2"] |};
     client.DiskUsage := Ok {| types.LayersSize := 1000 |};
     client.ContainerInspect := fun id =>
       if String.eqb id "c1"
       then Ok {| types.InspectID := id; types.StateRunning := true |}
       else if String.eqb id "c2"
       then Ok {| types.InspectID := id; types.StateRunning := false |}
       else Err ("Error: No such container: " ++ id);
     client.ContainerStats := fun id =>
       Err "context deadline exceeded";
     client.ContainerStart := fun _ => None;
     client.ContainerStop := fun _ _ => None;
     client.ContainerRestart := fun _ _ => None;
     client.ContainerLogs := fun _ _ => Ok [] |}.

(** ** Orders given by three-way comparisons *)

(** a three-way comparison that is a strict total order on its keys *)
Class CmpOrder {K : Type} (cmp : K -> K -> comparison) : Prop := {
  cmp_eq : forall x y, cmp x y = Eq <-> x = y;
  cmp_antisym : forall x y, cmp x y = CompOpp (cmp y x);
  cmp_lt_trans : forall x y z, cmp x y = Lt -> cmp y z = Lt -> cmp x z = Lt
}.

(** compare the first components, the second ones on a tie *)
Definition lexCmp {K1 K2 : Type} (c1 : K1 -> K1 -> comparison)
  (c2 : K2 -> K2 -> comparison) (p q : K1 * K2) : comparison :=
  match c1 (fst p) (fst q) with
  | Eq => c2 (snd p) (snd q)
  | r => r
  end.

(** sub states: "running" ahead of every other, the others as strings *)
Definition subCmp (x y : string) : comparison :=
  if String.eqb x "running" then
    if String.eqb y "running" then Eq else Lt
  else if String.eqb y "running" then Gt
  else String.compare x y.

(** what the listing is ordered by *)
Definition svcKey (s : models.SystemdService) : string * string :=
  (models.SubState s, models.Name s).

Definition svcCmp (a b : models.SystemdService) : comparison :=
  lexCmp subCmp String.compare (svcKey a) (svcKey b).

(** the keys in the order of the listing *)
Definition keyLess (k1 k2 : string * string) : bool :=
  match lexCmp subCmp String.compare k1 k2 with
  | Lt => true
  | _ => false
  end.

(** the order of a listing, as far as it can be told from what the
    listing is ordered by *)
Definition outputOrder (l : list models.SystemdService)
  : list (string * string) :=
  map svcKey l.

(** [a] comes somewhere before [b] in [l] *)
Definition precedes {A : Type} (l : list A) (a b : A) : Prop :=
  exists l1 l2 l3, l = (l1 ++ a :: l2 ++ b :: l3)%list.

(** records that agree on sub state and name are the same record *)
Definition keyedBy {A K : Type} (key : A -> K) (l : list A) : Prop :=
  forall a b, In a l -> In b l -> key a = key b -> a = b.

Definition unit_ (name sub : string) : models.SystemdService :=
  {| models.Name := name; models.LoadState := "loaded";
     models.ActiveState := "active"; models.SubState := sub;
     models.Description := ""; models.Unit := name ++ ".service";
     models.Type_ := ""; models.MainPID := ""; models.Memory := "";
     models.Tasks := "" |}.

(** the order the listing promises between a record [a] and a later
    record [b]: running before the rest, then by sub state, then by name *)
Definition inListingOrder (a b : models.SystemdService) : Prop :=
  (models.SubState b = "running" -> models.SubState a = "running") /\
  ((models.SubState a = "running" <-> models.SubState b = "running") ->
     String.leb (models.SubState a) (models.SubState b) = true) /\
  (models.SubState a = models.SubState b ->
     String.leb (models.Name a) (models.Name b) = true).

Definition unitsExample : list models.SystemdService :=
  [unit_ "b" "exited"; unit_ "a" "running"; unit_ "c" "exited"].

Definition unitsExampleSorted : list models.SystemdService :=
  [unit_ "a" "running"; unit_ "b" "exited"; unit_ "c" "exited"].

(** ** Words and lines *)

Fixpoint noSpace (s : string) : bool :=
  match s with
  | EmptyString => true
  | String c s' => negb (strings.asciiSpace c) && noSpace s'
  end.

(** a non-empty run of bytes none of which is white space *)
Definition isWord (s : string) : Prop := s <> "" /\ noSpace s = true.

(** the text is already laid out as words one space apart *)
Definition singleSpaced (s : string) : Prop :=
  strings.Join (strings.Fields s) " " = s.

Definition unitLinePrefix : string := "a.service loaded active running ".

(** ** The host snapshot, by source file *)

(** the fields written from [/proc/uptime] *)
Definition uptimeFields (h : models.HostSystemInfo) : string * Z :=
  (models.Uptime h, models.UptimeSeconds h).

(** the fields written from [/proc/loadavg] *)
Definition loadFields (h : models.HostSystemInfo) : float * float * float :=
  (models.LoadAverage1 h, models.LoadAverage5 h, models.LoadAverage15 h).

(** the fields written from [/proc/meminfo] *)
Definition memFields (h : models.HostSystemInfo) : Z * Z * Z * float :=
  (models.MemoryTotal h, models.MemoryUsed h, models.MemoryAvailable h,
   models.MemoryUsedPct h).

(** the field written from [/proc/net/tcp] *)
Definition netFields (h : models.HostSystemInfo) : Z :=
  models.NetworkConnections h.

(** the same library conversions on both platforms *)
Definition sameConversions (P Q : platform.Platform) : Prop :=
  platform.ParseFloat P = platform.ParseFloat Q /\
  platform.int64OfFloat P = platform.int64OfFloat Q.

(** the number a [/proc/meminfo] line carries: its second field *)
Definition meminfoValue (line : string) : option Z :=
  match strings.Fields line with
  | _ :: v :: _ => strconv.ParseInt v
  | _ => None
  end.

(** some scanned line starts with [key], and every line that does
    carries [v] *)
Definition meminfoCarries (data key : string) (v : Z) : Prop :=
  (exists line, In line (bufio.ScanLines data) /\
                strings.HasPrefix line key = true) /\
  (forall line, In line (bufio.ScanLines data) ->
                strings.HasPrefix line key = true ->
                meminfoValue line = Some v).

(** a platform on which only [/proc/meminfo] can be read *)
Definition meminfoOnly (data : string) : platform.Platform :=
  {| platform.ReadFile := fun path =>
       if String.eqb path "/proc/meminfo" then Ok data
       else Err ("open " ++ path ++ ": no such file or directory");
     platform.NumCPU := 1;
     platform.ParseFloat := fun _ => None;
     platform.int64OfFloat := fun _ => 0 |}.

Definition meminfoLines (total avail : string) : string :=
  "MemTotal:       " ++ total ++ " kB" ++ String strings.lf
  ("MemFree:        " ++ "17" ++ " kB" ++ String strings.lf
  ("MemAvailable:   " ++ avail ++ " kB" ++ String strings.lf "")).

(** a platform with every file but [/proc/net/tcp] *)
Definition noNetTcp : platform.Platform :=
  {| platform.ReadFile := fun path =>
       if String.eqb path "/proc/uptime" then Ok "93784.12 180000.00"
       else if String.eqb path "/proc/loadavg"
            then Ok "0.50 0.25 0.75 1/100 4242"
       else if String.eqb path "/proc/meminfo"
            then Ok (meminfoLines "1000" "400")
       else Err ("open " ++ path ++ ": permission denied");
     platform.NumCPU := 4;
     platform.ParseFloat := fun s =>
       if String.eqb s "93784.12" then Some 93784.125%float
       else if String.eqb s "0.50" then Some 0.5%float
       else if String.eqb s "0.25" then Some 0.25%float
       else if String.eqb s "0.75" then Some 0.75%float
       else None;
     platform.int64OfFloat := fun f =>
       if PrimFloat.eqb f 93784.125%float then 93784 else 0 |}.

(** [path] cannot be read *)
Definition unreadable (P : platform.Platform) (path : string) : Prop :=
  exists e, platform.ReadFile P path = Err e.

(** [noNetTcp] with a readable three-line [/proc/net/tcp] *)
Definition withNetTcp : platform.Platform :=
  {| platform.ReadFile := fun path =>
       if String.eqb path "/proc/net/tcp"
       then Ok ("  sl  local_address rem_address" ++ String strings.lf
                ("   0: 0100007F:0035 00000000:0000" ++ String strings.lf
                ("   1: 0100007F:1F90 00000000:0000" ++ String strings.lf "")))
       else platform.ReadFile noNetTcp path;
     platform.NumCPU := platform.NumCPU noNetTcp;
     platform.ParseFloat := platform.ParseFloat noNetTcp;
     platform.int64OfFloat := platform.int64OfFloat noNetTcp |}.

(** the double nearest to [100 * (T - A) / T] *)
Definition percentUsed (T A : Z) : float :=
  (float64 (100 * (T - A)) / float64 T)%float.

Definition isMemTotal (line : string) : bool :=
  strings.HasPrefix line "MemTotal:".
Definition isMemAvailable (line : string) : bool :=
  strings.HasPrefix line "MemAvailable:".

(** ** Failing requests *)

Definition errorOf {A : Type} (r : result A) : option error :=
  match r with
  | Err e => Some e
  | Ok _ => None
  end.

Fixpoint firstError (l : list (option error)) : option error :=
  match l with
  | [] => None
  | Some e :: _ => Some e
  | None :: r => firstError r
  end.

Definition orDefault (v default : string) : string :=
  if String.eqb v "" then default else v.

(** the error of a command that was waited for *)
Definition outputError (o : exec.Wait exec.Captured) : option error :=
  match o with
  | exec.Returns c => exec.Failure c
  | exec.Blocks => None
  end.

Definition runError (o : exec.Wait (option error)) : option error :=
  match o with
  | exec.Returns err => err
  | exec.Blocks => None
  end.

(** the error of the Docker call or subprocess that fails first among
    those whose error the handler of the route looks at.  Three calls
    are not among them, their errors being dropped: the stats call
    behind [GET_container], and [systemctl show] and [journalctl] behind
    [GET_service]. *)
Definition failure (w : router.World) (r : router.Route) : option error :=
  let d := router.docker w in
  let sh := router.shell w in
  match r with
  | router.GET_info =>
      firstError [errorOf (client.Info d); errorOf (client.ServerVersion d);
                  errorOf (client.ContainerList d);
                  errorOf (client.ImageList d);
                  errorOf (client.NetworkList d);
                  errorOf (client.VolumeList d);
                  errorOf (client.DiskUsage d)]
  | router.GET_containers => errorOf (client.ContainerList d)
  | router.GET_container id => errorOf (client.ContainerInspect d id)
  | router.POST_container_start id => client.ContainerStart d id
  | router.POST_container_stop id => client.ContainerStop d id 10
  | router.POST_container_restart id => client.ContainerRestart d id 10
  | router.GET_container_logs id tail =>
      errorOf (client.ContainerLogs d id (orDefault tail "100"))
  | router.GET_images => errorOf (client.ImageList d)
  | router.GET_networks => errorOf (client.NetworkList d)
  | router.GET_volumes => errorOf (client.VolumeList d)
  | router.GET_system_stats =>
      firstError [errorOf (client.ContainerList d);
                  errorOf (client.ImageList d);
                  errorOf (client.NetworkList d);
                  errorOf (client.VolumeList d)]
  | router.GET_system_host => None
  | router.GET_services =>
      outputError
        (exec.Output sh ["systemctl"; "list-units"; "--type=service";
                         "--all"; "--no-pager"; "--no-legend"])
  | router.GET_service name =>
      outputError
        (exec.Output sh ["systemctl"; "status"; name; "--no-pager";
                         "--lines=0"])
  | router.POST_service_start name =>
      runError (exec.Run sh ["systemctl"; "start"; name])
  | router.POST_service_stop name =>
      runError (exec.Run sh ["systemctl"; "stop"; name])
  | router.POST_service_restart name =>
      runError (exec.Run sh ["systemctl"; "restart"; name])
  | router.POST_service_enable name =>
      runError (exec.Run sh ["systemctl"; "enable"; name])
  | router.POST_service_disable name =>
      runError (exec.Run sh ["systemctl"; "disable"; name])
  | router.GET_service_logs name lines follow =>
      outputError
        (exec.Output sh
           (["journalctl"; "-u"; name; "--no-pager"; "-n";
             orDefault lines "100"]
            ++ (if String.eqb follow "true" then ["-f"] else [])
            ++ ["--output=short"])%list)
  end.

(** what the handler of the route puts in front of the error's text *)
Definition failurePrefix (r : router.Route) : string :=
  match r with
  | router.GET_system_host => "Failed to get host info: "
  | router.GET_services => "Failed to get services: "
  | router.GET_service _ => "Failed to get service detail: "
  | router.POST_service_start _ => "Failed to start service: "
  | router.POST_service_stop _ => "Failed to stop service: "
  | router.POST_service_restart _ => "Failed to restart service: "
  | router.POST_service_enable _ => "Failed to enable service: "
  | router.POST_service_disable _ => "Failed to disable service: "
  | router.GET_service_logs _ _ _ => "Failed to get service logs: "
  | _ => ""
  end.

(** a command that exits with status 1, nothing written *)
Definition exitStatus1 : exec.Captured :=
  {| exec.Stdout := None; exec.Failure := Some "exit status 1" |}.

(** a command that exits with status 0 after writing [out] *)
Definition prints (out : string) : exec.Captured :=
  {| exec.Stdout := Some out; exec.Failure := None |}.

(** a host on which [systemctl] and [journalctl] fail *)
Definition noSystemd : router.World :=
  {| router.docker := sampleDaemon;
     router.shell :=
       {| exec.Output := fun _ => exec.Returns exitStatus1;
          exec.Run := fun _ => exec.Returns (Some "exit status 1") |};
     router.host := noNetTcp;
     router.Slice := sort.insertionSort |}.

Definition sshStatus : string :=
  "ssh.service - OpenBSD Secure Shell server" ++ String strings.lf
  ("     Loaded: loaded (/lib/systemd/system/ssh.service; enabled)"
   ++ String strings.lf
  ("     Active: active (running) since Mon 2024-01-01" ++ String strings.lf
  ("   Main PID: 812 (sshd)" ++ String strings.lf ""))).

(** a host on which [systemctl status] succeeds with the output
    [status], [systemctl show] and [journalctl] fail, and
    [journalctl -f] never exits *)
Definition statusOnly (status : string) : router.World :=
  {| router.docker := sampleDaemon;
     router.shell :=
       {| exec.Output := fun cmd =>
            match cmd with
            | "systemctl" :: "status" :: _ => exec.Returns (prints status)
            | ["journalctl"; "-u"; _; "--no-pager"; "-n"; _; "-f"; _] =>
                exec.Blocks
            | _ => exec.Returns exitStatus1
            end;
          exec.Run := fun _ => exec.Returns (Some "exit status 1") |};
     router.host := noNetTcp;
     router.Slice := sort.insertionSort |}.


(** ** Relay loops *)

Definition lostClient : list client.Selected :=
  [client.RecvEvent {| types.MsgType := "container"; types.MsgAction := "start";
                       types.MsgActor := "c1" |} (Some "write: broken pipe");
   client.RecvEvent {| types.MsgType := "container"; types.MsgAction := "die";
                       types.MsgActor := "c1" |} (Some "write: broken pipe")].

(** a subscription whose client is gone: every write fails *)
Definition lostClientEvents : client.Events := fun _ => lostClient.

(** only events were received *)
Definition onlyEvents (received : list client.Selected) : Prop :=
  Forall (fun s => exists e w, s = client.RecvEvent e w) received.

(** what the stream loop writes for the events of [received] *)
Fixpoint encodedEvents (isFlusher : bool) (received : list client.Selected)
  : list service.SinkOp :=
  match received with
  | [] => []
  | client.RecvEvent e _ :: rest =>
      service.Encode e :: (if isFlusher then [service.Flush] else [])
      ++ encodedEvents isFlusher rest
  | _ :: rest => encodedEvents isFlusher rest
  end%list.

(** ** Container detail *)

(** the stats a detail can hold: those of a running container whose
    stats call answers with a body that decodes *)
Definition statsOf (d : client.Daemon) (id : string)
  (c : types.ContainerJSON) : option types.StatsJSON :=
  if types.StateRunning c then
    match client.ContainerStats d id with
    | Ok body =>
        match types.Decode body with
        | Ok s => Some s
        | Err _ => None
        end
    | Err _ => None
    end
  else None.

(** ** The cooldown gate *)

(** the events that can ask for a refresh *)
Definition qualifying (e : DockerManager.EventData) : bool :=
  DockerManager.includes ["container"; "image"; "network"; "volume"]
    (DockerManager.Type_ e).

(** the event was dropped at the gate *)
Definition skipped (effects : list DockerManager.Effect) : bool :=
  existsb (fun x =>
             match x with
             | DockerManager.ConsoleLog "Refresh skipped due to cooldown" => true
             | _ => false
             end) effects.

(** The gate as the specification words it: an event is dropped when it
    comes less than 5 seconds (5000 ms) after the last event that passed;
    [last] is the clock of that event, if there was one. *)
Fixpoint gateDrops (last : option Z) (clocks : list Z) : list bool :=
  match clocks with
  | [] => []
  | t :: rest =>
      match last with
      | Some l =>
          if t - l <? 5000 then true :: gateDrops last rest
          else false :: gateDrops (Some t) rest
      | None => false :: gateDrops (Some t) rest
      end
  end.

(** the arrivals the property is about: off the events tab, qualifying, and
    with a clock past the first five seconds of 1970 *)
Definition offEventsTab (a : DockerManager.Arrival) : Prop :=
  DockerManager.tab a <> "events" /\
  qualifying (DockerManager.event a) = true /\
  5000 <= DockerManager.clock a.

(** the calls that re-fetch data from the server *)
Definition isRefreshCall (x : DockerManager.Effect) : bool :=
  match x with
  | DockerManager.LoadContainers | DockerManager.LoadImages
  | DockerManager.LoadNetworks | DockerManager.LoadVolumes
  | DockerManager.FetchSystemStats => true
  | _ => false
  end.

Definition refreshCalls (effects : list DockerManager.Effect)
  : list DockerManager.Effect :=
  filter isRefreshCall effects.

(** the number of refresh calls an event made *)
Definition refreshCount (effects : list DockerManager.Effect) : nat :=
  List.length (refreshCalls effects).

(** the number of refresh calls the events of a session made *)
Definition totalRefreshCount (handled : list (list DockerManager.Effect))
  : nat :=
  List.length (concat (map refreshCalls handled)).

(** the event bears on what the tab shows: a container that starts,
    stops, dies, is destroyed or created, on the containers tab or the
    dashboard; an image event on the images tab, or an image deleted or
    untagged on the dashboard; a network event on the networks tab; a
    volume event on the volumes tab *)
Definition reloads (a : DockerManager.Arrival) : bool :=
  let e := DockerManager.event a in
  let t := DockerManager.tab a in
  if String.eqb (DockerManager.Type_ e) "container" then
    DockerManager.includes ["start"; "stop"; "die"; "destroy"; "create"]
      (DockerManager.Action e)
    && (String.eqb t "containers" || String.eqb t "dashboard")
  else if String.eqb (DockerManager.Type_ e) "image" then
    String.eqb t "images"
    || (DockerManager.includes ["delete"; "untag"] (DockerManager.Action e)
        && String.eqb t "dashboard")
  else if String.eqb (DockerManager.Type_ e) "network" then
    String.eqb t "networks"
  else if String.eqb (DockerManager.Type_ e) "volume" then
    String.eqb t "volumes"
  else false.

(** a network connecting, seen from the dashboard *)
Definition connectAt (t : Z) : DockerManager.Arrival :=
  {| DockerManager.tab := "dashboard";
     DockerManager.event :=
       {| DockerManager.Type_ := "network";
          DockerManager.Action := "connect" |};
     DockerManager.clock := t |}.

Definition containerStart : DockerManager.EventData :=
  {| DockerManager.Type_ := "container"; DockerManager.Action := "start" |}.

Definition arrivalAt (t : Z) : DockerManager.Arrival :=
  {| DockerManager.tab := "dashboard";
     DockerManager.event := containerStart;
     DockerManager.clock := t |}.

(** the value of [lastRefreshTime] when [last] is the clock of the last
    event that passed the gate: 0 until an event passes *)
Definition stamp (last : option Z) : Z :=
  match last with
  | Some l => l
  | None => 0
  end.

(* ================================================================= *)
(** * Vocabulary of the further properties *)

(** ** Decimal numerals *)

(** the value of the digits of [u] read after the value [acc] *)
Fixpoint uintValue (acc : Z) (u : Decimal.uint) : Z :=
  match u with
  | Decimal.Nil => acc
  | Decimal.D0 l => uintValue (acc * 10 + 0) l
  | Decimal.D1 l => uintValue (acc * 10 + 1) l
  | Decimal.D2 l => uintValue (acc * 10 + 2) l
  | Decimal.D3 l => uintValue (acc * 10 + 3) l
  | Decimal.D4 l => uintValue (acc * 10 + 4) l
  | Decimal.D5 l => uintValue (acc * 10 + 5) l
  | Decimal.D6 l => uintValue (acc * 10 + 6) l
  | Decimal.D7 l => uintValue (acc * 10 + 7) l
  | Decimal.D8 l => uintValue (acc * 10 + 8) l
  | Decimal.D9 l => uintValue (acc * 10 + 9) l
  end.

(** ** Host metrics *)

(** the uptime string for [d] days, [h] hours and [m] minutes *)
Definition uptimeText (d h m : Z) : string :=
  if d >? 0 then
    strconv.FormatInt d ++ "d " ++ strconv.FormatInt h ++ "h "
      ++ strconv.FormatInt m ++ "m"
  else if h >? 0 then
    strconv.FormatInt h ++ "h " ++ strconv.FormatInt m ++ "m"
  else strconv.FormatInt m ++ "m".

(** the value carried by the last line of [lines] that has the key and a
    second field that parses; [cur] when there is none *)
Fixpoint lastCarried (isKey : string -> bool) (lines : list string)
  (cur : option Z) : option Z :=
  match lines with
  | [] => cur
  | l :: r =>
      lastCarried isKey r
        (if isKey l then
           match meminfoValue l with
           | Some v => Some v
           | None => cur
           end
         else cur)
  end.

Definition kilobytes (v : option Z) : Z :=
  match v with
  | Some k => mul64 k 1024
  | None => 0
  end.

(** no line feed in the text *)
Fixpoint noLF (s : string) : bool :=
  match s with
  | EmptyString => true
  | String c s' => negb (Ascii.eqb c strings.lf) && noLF s'
  end.

(** the lines, each ended by a line feed *)
Fixpoint unlines (ls : list string) : string :=
  match ls with
  | [] => ""
  | l :: r => l ++ String strings.lf (unlines r)
  end.

(** a platform on which only [/proc/net/tcp] can be read *)
Definition netTcpOnly (data : string) : platform.Platform :=
  {| platform.ReadFile := fun path =>
       if String.eqb path "/proc/net/tcp" then Ok data
       else Err ("open " ++ path ++ ": no such file or directory");
     platform.NumCPU := 1;
     platform.ParseFloat := fun _ => None;
     platform.int64OfFloat := fun _ => 0 |}.

(** the scanned line has the four columns of a unit *)
Definition hasUnitColumns (line : string) : bool :=
  4 <=? len (strings.Fields line).

(** the text ends with the suffix *)
Definition endsWith (s suffix : string) : Prop :=
  exists p, s = p ++ suffix.

(** what every parsed record looks like *)
Definition unitRecord (s : models.SystemdService) : Prop :=
  isWord (models.Unit s) /\ isWord (models.LoadState s) /\
  isWord (models.ActiveState s) /\ isWord (models.SubState s) /\
  (models.Unit s = models.Name s ++ ".service" \/
   (models.Name s = models.Unit s /\
    ~ endsWith (models.Unit s) ".service")) /\
  models.Type_ s = "" /\ models.MainPID s = "" /\
  models.Memory s = "" /\ models.Tasks s = "".


(** ** The detail of a service *)

(** nothing but white space *)
Fixpoint isBlank (s : string) : bool :=
  match s with
  | EmptyString => true
  | String c s' => strings.asciiSpace c && isBlank s'
  end.

(** a status line on which the load state cannot be read: it holds
    "Loaded:", and up to its first ";" it is blank once a leading
    "Loaded:" is taken off *)
Definition panicLine (rawLine : string) : bool :=
  let line := strings.TrimSpace rawLine in
  strings.Contains line "Loaded:"
  && isBlank (strings.TrimPrefix (hd "" (strings.Split line ";")) "Loaded:").

(** the fields of a service that come from [systemctl show] *)
Definition shownFields (s : models.SystemdService)
  : string * string * string * string :=
  (models.Description s, models.Type_ s, models.Memory s, models.Tasks s).

(** the fields of a service that the status lines leave alone *)
Definition unreadFields (s : models.SystemdService)
  : string * string * (string * string * string * string) :=
  (models.Name s, models.Unit s, shownFields s).

(** the value of the last assignment to [k] *)
Fixpoint lastValue (k : string) (kvs : list (string * string))
  : option string :=
  match kvs with
  | [] => None
  | (k', v) :: r =>
      match lastValue k r with
      | Some v' => Some v'
      | None => if String.eqb k' k then Some v else None
      end
  end.

Fixpoint noByte (b : ascii) (s : string) : bool :=
  match s with
  | EmptyString => true
  | String c s' => negb (Ascii.eqb c b) && noByte b s'
  end.

(** one line of [systemctl show] *)
Definition assignment (kv : string * string) : string :=
  fst kv ++ "=" ++ snd kv.

(** a line that the scanner hands over as it is: no line feed in it, no
    carriage return at its end, and short enough for the buffer *)
Definition scannable (l : string) : Prop :=
  noLF l = true /\ bufio.dropCR l = l /\
  Z.of_nat (String.length l) < bufio.MaxScanTokenSize.

Definition orEmpty (v : option string) : string :=
  match v with
  | Some s => s
  | None => ""
  end.

(** an assignment that reads back: no "=" in the key, and the line goes
    through the scanner unchanged *)
Definition readable (kv : string * string) : Prop :=
  noByte "=" (fst kv) = true /\ scannable (assignment kv).

(** *** The layout of [systemctl status] *)

(** the text ends here or goes on with white space *)
Definition breaks (rest : string) : bool :=
  match rest with
  | EmptyString => true
  | String c _ => strings.asciiSpace c
  end.

(** the text ends here or goes on with white space or a semicolon *)
Definition breaksLoaded (rest : string) : bool :=
  match rest with
  | EmptyString => true
  | String c _ => strings.asciiSpace c || Ascii.eqb c ";"
  end.

(** the trimmed line holds the marker *)
Definition mentions (line marker : string) : bool :=
  strings.Contains (strings.TrimSpace line) marker.

(** a line that holds none of the three markers *)
Definition plainLine (line : string) : Prop :=
  mentions line "Loaded:" = false /\ mentions line "Active:" = false /\
  mentions line "Main PID:" = false.

Definition loadedLine (indent state rest : string) : string :=
  indent ++ "Loaded: " ++ state ++ rest.

Definition activeLine (indent active sub rest : string) : string :=
  indent ++ "Active: " ++ active ++ " (" ++ sub ++ ")" ++ rest.

Definition pidLine (indent pid rest : string) : string :=
  indent ++ "Main PID: " ++ pid ++ rest.

Definition wellLoaded (indent state rest : string) : Prop :=
  isBlank indent = true /\ isWord state /\ noByte ";" state = true /\
  breaksLoaded rest = true.

Definition wellActive (indent active sub rest : string) : Prop :=
  isBlank indent = true /\ isWord active /\ isWord sub /\
  noByte "(" sub = true /\ noByte ")" sub = true /\ breaks rest = true /\
  mentions (activeLine indent active sub rest) "Loaded:" = false.

Definition wellPid (indent pid rest : string) : Prop :=
  isBlank indent = true /\ isWord pid /\ breaks rest = true /\
  mentions (pidLine indent pid rest) "Loaded:" = false /\
  mentions (pidLine indent pid rest) "Active:" = false.

(** the fields of a service that the status lines write *)
Definition statusFields (s : models.SystemdService)
  : string * string * string * string :=
  (models.LoadState s, models.ActiveState s, models.SubState s,
   models.MainPID s).

(** ** Docker snapshots *)

(** the sizes of the images added up as integers *)
Definition totalSize (images : list types.ImageSummary) : Z :=
  fold_right (fun img acc => types.Size img + acc) 0 images.

(** the errors of the seven calls of [GetDockerInfo], in call order *)
Definition infoCalls (d : client.Daemon) : list (option error) :=
  [errorOf (client.Info d); errorOf (client.ServerVersion d);
   errorOf (client.ContainerList d); errorOf (client.ImageList d);
   errorOf (client.NetworkList d); errorOf (client.VolumeList d);
   errorOf (client.DiskUsage d)].

(** ** Handlers *)

(** reads of a log stream that report no error *)
Definition cleanReads (chunks : list string) : list types.LogRead :=
  map (fun chunk => (chunk, None)) chunks.

(** what ends the WebSocket loop: a failed write or a non-nil error *)
Definition ends (s : client.Selected) : bool :=
  match s with
  | client.RecvEvent _ (Some _) => true
  | client.RecvErr (Some _) => true
  | _ => false
  end.

(** the frames written for the events of [received] *)
Fixpoint frames (received : list client.Selected) : list service.SinkOp :=
  match received with
  | [] => []
  | client.RecvEvent e _ :: rest => service.WriteJSON e :: frames rest
  | _ :: rest => frames rest
  end.

(** the line logged for what ended the loop *)
Definition endLog (s : client.Selected) : list service.SinkOp :=
  match s with
  | client.RecvEvent _ (Some err) =>
      [service.LogPrintln "WebSocket write error:" err]
  | client.RecvErr (Some err) =>
      [service.LogPrintln "Docker events error:" err]
  | _ => []
  end.


(** a daemon whose log stream gives two reads and then the end of the
    stream together with a last chunk *)
Definition loggingDaemon : client.Daemon :=
  {| client.Info := client.Info sampleDaemon;
     client.ServerVersion := client.ServerVersion sampleDaemon;
     client.ContainerList := client.ContainerList sampleDaemon;
     client.ImageList := client.ImageList sampleDaemon;
     client.NetworkList := client.NetworkList sampleDaemon;
     client.VolumeList := client.VolumeList sampleDaemon;
     client.DiskUsage := client.DiskUsage sampleDaemon;
     client.ContainerInspect := client.ContainerInspect sampleDaemon;
     client.ContainerStats := client.ContainerStats sampleDaemon;
     client.ContainerStart := client.ContainerStart sampleDaemon;
     client.ContainerStop := client.ContainerStop sampleDaemon;
     client.ContainerRestart := client.ContainerRestart sampleDaemon;
     client.ContainerLogs := fun _ tail =>
       if String.eqb tail "100"
       then Ok [("line 1 ", None); ("line 2 ", None); ("line 3", Some "EOF")]
       else Ok [] |}.

(** a subscription that delivers an event, a nil error, another event,
    and then an event whose frame cannot be written *)
Definition flakyEvents : client.Events := fun _ =>
  [client.RecvEvent {| types.MsgType := "container";
                       types.MsgAction := "start";
                       types.MsgActor := "c1" |} None;
   client.RecvErr None;
   client.RecvEvent {| types.MsgType := "container";
                       types.MsgAction := "die";
                       types.MsgActor := "c1" |} None;
   client.RecvEvent {| types.MsgType := "image";
                       types.MsgAction := "pull";
                       types.MsgActor := "i1" |} (Some "write: broken pipe");
   client.RecvEvent {| types.MsgType := "image";
                       types.MsgAction := "tag";
                       types.MsgActor := "i1" |} None].

(** ** The event dispatcher *)

(** the counts written to the counter element *)
Fixpoint counterTexts (effects : list DockerManager.Effect) : list Z :=
  match effects with
  | [] => []
  | DockerManager.SetEventsCountText n :: rest => n :: counterTexts rest
  | _ :: rest => counterTexts rest
  end.

(** the events added to the stream of the events tab *)
Fixpoint streamed (effects : list DockerManager.Effect)
  : list DockerManager.EventData :=
  match effects with
  | [] => []
  | DockerManager.AddEventToStream e :: rest => e :: streamed rest
  | _ :: rest => streamed rest
  end.

(** the counts [c + 1], ..., [c + n] *)
Fixpoint countsFrom (c : Z) (n : nat) : list Z :=
  match n with
  | O => []
  | S n' => (c + 1) :: countsFrom (c + 1) n'
  end.

(** the refresh call reloads what the tab shows *)
Definition onScreen (tab : string) (x : DockerManager.Effect) : Prop :=
  match x with
  | DockerManager.LoadContainers => tab = "containers"
  | DockerManager.LoadImages => tab = "images"
  | DockerManager.LoadNetworks => tab = "networks"
  | DockerManager.LoadVolumes => tab = "volumes"
  | DockerManager.FetchSystemStats => tab = "dashboard"
  | _ => True
  end.

(** the tabs whose content events can reload *)
Definition liveTabs : list string :=
  ["dashboard"; "containers"; "images"; "networks"; "volumes"].

Definition networkConnect : DockerManager.EventData :=
  {| DockerManager.Type_ := "network"; DockerManager.Action := "connect" |}.

(** an arrival that can refresh nothing: it comes on the events tab, or
    its type is none of the four that refresh *)
Definition inert (a : DockerManager.Arrival) : Prop :=
  DockerManager.tab a = "events" \/
  qualifying (DockerManager.event a) = false.

(** an event off the events tab that goes through the gate and reloads
    nothing: a network or volume event away from its tab, or a container
    event whose action is none of the five that refresh *)
Definition idle (a : DockerManager.Arrival) : Prop :=
  DockerManager.tab a <> "events" /\
  ((DockerManager.Type_ (DockerManager.event a) = "network" /\
    DockerManager.tab a <> "networks") \/
   (DockerManager.Type_ (DockerManager.event a) = "volume" /\
    DockerManager.tab a <> "volumes") \/
   (DockerManager.Type_ (DockerManager.event a) = "container" /\
    DockerManager.includes ["start"; "stop"; "die"; "destroy"; "create"]
      (DockerManager.Action (DockerManager.event a)) = false)).

(** ** The WebSocket of the page *)

(** the socket can still hand a message to the application *)
Definition listening (s : WebSocket.Object) : bool :=
  WebSocket.onmessage s
  && match WebSocket.readyState s with
     | WebSocket.CONNECTING | WebSocket.OPEN => true
     | _ => false
     end.

(** the one socket that listens, if any, is [this.ws], and there is a
    socket in [this.ws] on the events tab only *)
Definition orderlyPage (p : Connection.Page) : Prop :=
  (forall i s, nth_error (Connection.sockets p) i = Some s ->
               listening s = true -> Connection.ws p = Some i) /\
  (Connection.ws p <> None ->
   DockerManager.currentTab (Connection.app p) = "events").

(** the socket in [this.ws], if any, is not in the middle of connecting *)
Definition settled (p : Connection.Page) : bool :=
  match Connection.ws p with
  | Some i =>
      match nth_error (Connection.sockets p) i with
      | Some s =>
          match WebSocket.readyState s with
          | WebSocket.CONNECTING => false
          | _ => true
          end
      | None => true
      end
  | None => true
  end.

(** the occurrences of an orderly session: the events tab is clicked,
    and a reconnect timer fires, only when the socket is settled, and a
    timer fires only while the events tab is shown *)
Definition allowed (p : Connection.Page) (o : Connection.Occurrence) : bool :=
  match o with
  | Connection.Click tabName _ =>
      if String.eqb tabName "events" then settled p else true
  | Connection.Timeout _ =>
      match Connection.reconnects p with
      | O => true
      | S _ =>
          String.eqb (DockerManager.currentTab (Connection.app p)) "events"
          && settled p
      end
  | _ => true
  end.

Fixpoint orderly (hasCounter : bool) (p : Connection.Page)
  (session : list Connection.Occurrence) : bool :=
  match session with
  | [] => true
  | o :: rest =>
      allowed p o
      && orderly hasCounter (fst (Connection.step hasCounter p o)) rest
  end.

(** an event was handled on the events tab, and refreshed nothing *)
Definition handledOnEventsTab (x : Connection.Effect) : Prop :=
  match x with
  | Connection.Handled tab effects =>
      tab = "events" /\ refreshCalls effects = []
  | _ => True
  end.

(** the tabs on which events were handled *)
Fixpoint handledTabs (effects : list Connection.Effect) : list string :=
  match effects with
  | [] => []
  | Connection.Handled tab _ :: rest => tab :: handledTabs rest
  | _ :: rest => handledTabs rest
  end.

(** a visit to the events tab, a look at the dashboard, and a second
    visit, each socket opening before anything else happens *)
Definition twoVisits : list Connection.Occurrence :=
  [Connection.Click "events" true; Connection.Opens 0;
   Connection.Message 0 containerStart 1700000000000;
   Connection.Click "dashboard" true;
   Connection.Message 0 containerStart 1700000009000;
   Connection.Click "events" true; Connection.Opens 1;
   Connection.Message 1 containerStart 1700000020000].

(** the events handled, each with the tab it was handled on and what
    handling it did *)
Fixpoint handlings (effects : list Connection.Effect)
  : list (string * list DockerManager.Effect) :=
  match effects with
  | [] => []
  | Connection.Handled tab done :: rest => (tab, done) :: handlings rest
  | _ :: rest => handlings rest
  end.

(** the state a socket is left in by [closeWebSocket] *)
Definition closedFrom (r : WebSocket.ReadyState) : WebSocket.ReadyState :=
  match r with
  | WebSocket.CONNECTING | WebSocket.OPEN => WebSocket.CLOSING
  | _ => r
  end.

(** the page after a visit to the events tab whose socket the server
    closed, and a click on the dashboard before the reconnect timer
    fired *)
Definition leftEarly : Connection.Page :=
  fst (Connection.run true Connection.constructor
         [Connection.Click "events" true; Connection.Opens 0;
          Connection.Closes 0; Connection.Click "dashboard" true]).
(* ================================================================= *)
(** * Properties *)

(** ** The embedding on small inputs *)

Example Fields_splits_on_runs :
  strings.Fields ("  a.service loaded   active" ++ String strings.tab
                  "running  My  svc ") =
  ["a.service"; "loaded"; "active"; "running"; "My"; "svc"].
Proof. reflexivity. Qed.

Example TrimSpace_both_ends : strings.TrimSpace "  a b  " = "a b".
Proof. reflexivity. Qed.

Example TrimSuffix_once :
  strings.TrimSuffix "a.service" ".service" = "a" /\
  strings.TrimSuffix "a.servic" ".service" = "a.servic" /\
  strings.TrimSuffix ".service.service" ".service" = ".service".
Proof. repeat split; reflexivity. Qed.

Example Split_keeps_empty_pieces :
  strings.Split "a  b" " "%char = ["a"; ""; "b"] /\
  strings.Split "" " "%char = [""].
Proof. split; reflexivity. Qed.

Example ScanLines_tokens :
  bufio.ScanLines ("a" ++ String strings.cr (String strings.lf "")
                   ++ String strings.lf "b") = ["a"; ""; "b"] /\
  bufio.ScanLines ("a" ++ String strings.lf "") = ["a"] /\
  bufio.ScanLines "" = [].
Proof. repeat split; reflexivity. Qed.

Example ParseInt_cases :
  strconv.ParseInt "1000" = Some 1000 /\
  strconv.ParseInt "-12" = Some (-12) /\
  strconv.ParseInt "" = None /\
  strconv.ParseInt "+" = None /\
  strconv.ParseInt "12a" = None /\
  strconv.ParseInt "9223372036854775808" = None /\
  strconv.ParseInt "-9223372036854775808" = Some (-9223372036854775808).
Proof. repeat split; reflexivity. Qed.

Example formatUptime_cases :
  service.formatUptime 93784 = "1d 2h 3m" /\
  service.formatUptime 7380 = "2h 3m" /\
  service.formatUptime 59 = "0m".
Proof. repeat split; reflexivity. Qed.

Example parseUnitLine_collapses :
  option_map models.Description
    (service.parseUnitLine "a.service loaded active running My  service")
  = Some "My service".
Proof. reflexivity. Qed.

Example GetHostSystemInfo_without_net_tcp :
  service.GetHostSystemInfo noNetTcp =
  ({| models.Uptime := "1d 2h 3m"; models.UptimeSeconds := 93784;
      models.LoadAverage1 := 0.5%float; models.LoadAverage5 := 0.25%float;
      models.LoadAverage15 := 0.75%float;
      models.MemoryTotal := 1024000; models.MemoryUsed := 614400;
      models.MemoryAvailable := 409600; models.MemoryUsedPct := 60%float;
      models.NetworkConnections := 0; models.CPUCores := 4 |}, None).
Proof. vm_compute. reflexivity. Qed.

Example handleAll_three_starts :
  snd (DockerManager.handleAll true DockerManager.constructor
         [arrivalAt 1700000000000; arrivalAt 1700000001000;
          arrivalAt 1700000006000]) =
  [[DockerManager.SetEventsCountText 1; DockerManager.FetchSystemStats];
   [DockerManager.SetEventsCountText 2;
    DockerManager.ConsoleLog "Refresh skipped due to cooldown"];
   [DockerManager.SetEventsCountText 3; DockerManager.FetchSystemStats]].
Proof. vm_compute. reflexivity. Qed.

Lemma wrap64_small z : inInt64 z -> wrap64 z = z.
Proof.
  unfold inInt64, minInt64, maxInt64, wrap64. intros H.
  rewrite Z.mod_small; lia.
Qed.

(** ** Container counting *)

Lemma countIf_cons {A} (p : A -> bool) a l :
  countIf p (a :: l) = (if p a then 1 else 0) + countIf p l.
Proof.
  unfold countIf, len. simpl. destruct (p a); simpl length; lia.
Qed.

Lemma len_cons {A} (a : A) l : len (a :: l) = 1 + len l.
Proof. unfold len. simpl length. lia. Qed.

Lemma countState_fold :
  forall cs r p s t,
    0 <= r -> 0 <= p -> 0 <= s ->
    r + p + s + len cs <= maxInt64 ->
    fold_left service.countState cs
      {| models.Running := r; models.Paused := p; models.Stopped := s;
         models.Total := t |}
    = {| models.Running := r + countIf isRunning cs;
         models.Paused  := p + countIf isPaused cs;
         models.Stopped := s + countIf isOther cs;
         models.Total   := t |}.
Proof.
  induction cs as [|c cs IH]; intros r p s t Hr Hp Hs Hb.
  - unfold countIf, len. simpl. repeat rewrite Z.add_0_r. reflexivity.
  - rewrite len_cons in Hb. pose proof (Zle_0_nat (length cs)) as Hl.
    fold (len cs) in Hl.
    simpl fold_left. rewrite !countIf_cons.
    unfold service.countState, isOther, isRunning, isPaused.
    simpl models.Running; simpl models.Paused; simpl models.Stopped;
      simpl models.Total.
    unfold maxInt64 in Hb.
    destruct (String.eqb (types.State c) "running") eqn:E1.
    + assert (E2 : String.eqb (types.State c) "paused" = false).
      { apply String.eqb_eq in E1. rewrite E1. reflexivity. }
      rewrite E2. simpl andb. cbv iota.
      unfold add64. rewrite wrap64_small
        by (unfold inInt64, minInt64, maxInt64; lia).
      rewrite IH by (unfold maxInt64; lia).
      unfold isOther, isRunning, isPaused. f_equal; lia.
    + destruct (String.eqb (types.State c) "paused") eqn:E2;
        simpl andb; cbv iota;
        unfold add64; rewrite wrap64_small
          by (unfold inInt64, minInt64, maxInt64; lia);
        rewrite IH by (unfold maxInt64; lia);
        unfold isOther, isRunning, isPaused; f_equal; lia.
Qed.

Lemma partition_counts (cs : list types.Container) :
  countIf isRunning cs + countIf isPaused cs + countIf isOther cs = len cs.
Proof.
  induction cs as [|c cs IH].
  - reflexivity.
  - rewrite !countIf_cons, len_cons.
    assert (Ho : isOther c = negb (isRunning c) && negb (isPaused c))
      by reflexivity.
    rewrite Ho.
    destruct (isRunning c) eqn:E1; destruct (isPaused c) eqn:E2;
      cbn [negb andb]; try lia.
    unfold isRunning, isPaused in E1, E2.
    apply String.eqb_eq in E1. rewrite E1 in E2. discriminate.
Qed.

(** C1: when the daemon answers the four list calls, the snapshot counts
    each container once, under Running for state "running", under Paused
    for state "paused" and under Stopped for any other state, Total is the
    length of the container list and Running + Paused + Stopped = Total. *)
Theorem GetSystemStats_partition :
  forall (d : client.Daemon) containers images networks volumes,
    client.ContainerList d = Ok containers ->
    client.ImageList d = Ok images ->
    client.NetworkList d = Ok networks ->
    client.VolumeList d = Ok volumes ->
    len containers <= maxInt64 ->
    exists stats,
      service.GetSystemStats d = Ok stats /\
      let c := models.Containers stats in
      models.Running c = countIf isRunning containers /\
      models.Paused c = countIf isPaused containers /\
      models.Stopped c = countIf isOther containers /\
      models.Total c = len containers /\
      models.Running c + models.Paused c + models.Stopped c = models.Total c.
Proof.
  intros d cs imgs nets vols Hc Hi Hn Hv Hlen.
  unfold service.GetSystemStats. rewrite Hc, Hi, Hn, Hv.
  eexists. split; [reflexivity|].
  cbv zeta. simpl models.Containers. unfold service.countContainers.
  rewrite countState_fold by (unfold maxInt64 in *; lia).
  simpl. pose proof (partition_counts cs). repeat split; lia.
Qed.

Lemma GetSystemStats_partition_witness :
  exists stats,
    service.GetSystemStats sampleDaemon = Ok stats /\
    models.Running (models.Containers stats) = 2 /\
    models.Paused (models.Containers stats) = 1 /\
    models.Stopped (models.Containers stats) = 2 /\
    models.Total (models.Containers stats) = 5.
Proof.
  destruct (GetSystemStats_partition sampleDaemon _ _ _ _
              eq_refl eq_refl eq_refl eq_refl) as [st [H1 H2]].
  - vm_compute. discriminate.
  - exists st. split; [exact H1|].
    cbv zeta in H2. destruct H2 as (Hr & Hp & Hs & Ht & _).
    rewrite Hr, Hp, Hs, Ht. vm_compute. repeat split; reflexivity.
Defined.

(* ----------------------------------------------------------------- *)
(** ** Ordering of the service listing *)

Lemma ascii_compare_N a b :
  Ascii.compare a b = N.compare (N_of_ascii a) (N_of_ascii b).
Proof. reflexivity. Qed.

Lemma ascii_compare_refl a : Ascii.compare a a = Eq.
Proof. rewrite ascii_compare_N. apply N.compare_refl. Qed.

Lemma string_compare_refl s : String.compare s s = Eq.
Proof.
  induction s as [|c s IH]; simpl; [reflexivity|].
  now rewrite ascii_compare_refl.
Qed.

Lemma string_compare_lt_trans x : forall y z,
  String.compare x y = Lt -> String.compare y z = Lt ->
  String.compare x z = Lt.
Proof.
  induction x as [|a x IH]; intros [|b y] [|c z]; simpl; try discriminate;
    try reflexivity.
  rewrite !ascii_compare_N.
  destruct (N.compare_spec (N_of_ascii a) (N_of_ascii b)) as [E1|L1|G1];
    try discriminate;
  destruct (N.compare_spec (N_of_ascii b) (N_of_ascii c)) as [E2|L2|G2];
    try discriminate; intros H1 H2.
  - rewrite E1, E2, N.compare_refl. eauto.
  - rewrite E1. now apply N.compare_lt_iff in L2 as ->.
  - rewrite <- E2. now apply N.compare_lt_iff in L1 as ->.
  - assert (L : (N_of_ascii a < N_of_ascii c)%N) by lia.
    now apply N.compare_lt_iff in L as ->.
Qed.

#[export] Instance string_CmpOrder : CmpOrder String.compare.
Proof.
  split.
  - intros x y. split.
    + apply String.compare_eq_iff.
    + intros ->. apply string_compare_refl.
  - apply String.compare_antisym.
  - apply string_compare_lt_trans.
Qed.

Section CmpFacts.
Context {K : Type} (cmp : K -> K -> comparison) `{!CmpOrder cmp}.

Lemma cmp_refl x : cmp x x = Eq.
Proof. now apply cmp_eq. Qed.

Lemma cmp_gt_lt x y : cmp x y = Gt <-> cmp y x = Lt.
Proof.
  rewrite (cmp_antisym x y). destruct (cmp y x); simpl; split; congruence.
Qed.

Lemma cmp_not_lt_trans x y z :
  cmp x y <> Lt -> cmp y z <> Lt -> cmp x z <> Lt.
Proof.
  intros H1 H2 H3.
  destruct (cmp x y) eqn:E1; [| congruence |].
  - apply cmp_eq in E1. subst y. contradiction.
  - destruct (cmp y z) eqn:E2; [| congruence |].
    + apply cmp_eq in E2. subst z. congruence.
    + apply cmp_gt_lt in E1, E2.
      pose proof (cmp_lt_trans _ _ _ E2 E1) as E.
      apply cmp_gt_lt in E. congruence.
Qed.

End CmpFacts.

#[export] Instance lex_CmpOrder {K1 K2 : Type}
  (c1 : K1 -> K1 -> comparison) (c2 : K2 -> K2 -> comparison)
  `{!CmpOrder c1} `{!CmpOrder c2} : CmpOrder (lexCmp c1 c2).
Proof.
  split.
  - intros [x1 x2] [y1 y2]. unfold lexCmp. simpl. split.
    + destruct (c1 x1 y1) eqn:E1; try discriminate.
      intros E2. apply cmp_eq in E1, E2. congruence.
    + intros [= -> ->]. now rewrite !cmp_refl.
  - intros [x1 x2] [y1 y2]. unfold lexCmp. simpl.
    rewrite (cmp_antisym x1 y1). destruct (c1 y1 x1); simpl; try reflexivity.
    apply cmp_antisym.
  - intros [x1 x2] [y1 y2] [z1 z2]. unfold lexCmp. simpl.
    destruct (c1 x1 y1) eqn:E1; try discriminate.
    + apply cmp_eq in E1. subst y1. destruct (c1 x1 z1); try discriminate;
        try reflexivity. apply cmp_lt_trans.
    + intros _. destruct (c1 y1 z1) eqn:E2; try discriminate.
      * apply cmp_eq in E2. subst z1. now rewrite E1.
      * intros _. now rewrite (cmp_lt_trans _ _ _ E1 E2).
Qed.

Lemma eqb_running_neq x :
  String.eqb x "running" = false -> x <> "running".
Proof. now intros H ->. Qed.

#[export] Instance sub_CmpOrder : CmpOrder subCmp.
Proof.
  split.
  - intros x y. unfold subCmp.
    destruct (String.eqb x "running") eqn:Ex;
      destruct (String.eqb y "running") eqn:Ey.
    + apply String.eqb_eq in Ex, Ey. subst. tauto.
    + apply String.eqb_eq in Ex. apply eqb_running_neq in Ey.
      split; [discriminate | congruence].
    + apply String.eqb_eq in Ey. apply eqb_running_neq in Ex.
      split; [discriminate | congruence].
    + apply cmp_eq.
  - intros x y. unfold subCmp.
    destruct (String.eqb x "running"), (String.eqb y "running");
      try reflexivity. apply cmp_antisym.
  - intros x y z. unfold subCmp.
    destruct (String.eqb x "running"), (String.eqb y "running"),
      (String.eqb z "running"); try discriminate; try reflexivity.
    apply cmp_lt_trans.
Qed.

#[export] Instance svcKey_CmpOrder : CmpOrder (lexCmp subCmp String.compare).
Proof. apply lex_CmpOrder; typeclasses eauto. Qed.

Lemma string_ltb_compare x y :
  String.ltb x y = true <-> String.compare x y = Lt.
Proof.
  unfold String.ltb. destruct (String.compare x y); split; congruence.
Qed.

Lemma servicesLess_svcCmp a b :
  service.servicesLess a b = true <-> svcCmp a b = Lt.
Proof.
  unfold service.servicesLess, svcCmp, lexCmp, svcKey, subCmp. simpl.
  destruct (String.eqb (models.SubState a) "running") eqn:Ea;
    destruct (String.eqb (models.SubState b) "running") eqn:Eb; simpl.
  - apply String.eqb_eq in Ea, Eb. rewrite Ea, Eb. simpl.
    apply string_ltb_compare.
  - tauto.
  - split; discriminate.
  - destruct (String.eqb (models.SubState a) (models.SubState b)) eqn:E.
    + apply String.eqb_eq in E. rewrite E, string_compare_refl.
      apply string_ltb_compare.
    + rewrite string_ltb_compare.
      destruct (String.compare (models.SubState a) (models.SubState b)) eqn:C;
        try (split; congruence).
      apply String.compare_eq_iff in C. rewrite C, String.eqb_refl in E.
      discriminate.
Qed.

Lemma servicesLess_false a b :
  service.servicesLess a b = false <-> svcCmp a b <> Lt.
Proof.
  rewrite <- servicesLess_svcCmp.
  destruct (service.servicesLess a b); split; congruence.
Qed.

Lemma servicesLess_ordering : sort.LessOrdering service.servicesLess.
Proof.
  split.
  - intros a. apply servicesLess_false. unfold svcCmp.
    rewrite cmp_refl by typeclasses eauto. discriminate.
  - intros a b c. rewrite !servicesLess_svcCmp. unfold svcCmp.
    apply cmp_lt_trans.
  - intros a b c. rewrite !servicesLess_false. unfold svcCmp.
    apply cmp_not_lt_trans. typeclasses eauto.
Qed.

(** the records that [servicesLess] ties agree on sub state and name *)
Lemma tied_same_key a b :
  service.servicesLess a b = false -> service.servicesLess b a = false ->
  svcKey a = svcKey b.
Proof.
  rewrite !servicesLess_false. unfold svcCmp. intros H1 H2.
  apply (cmp_eq (cmp := lexCmp subCmp String.compare)).
  destruct (lexCmp subCmp String.compare (svcKey a) (svcKey b)) eqn:E;
    [reflexivity | congruence |].
  apply cmp_gt_lt in E; [congruence | typeclasses eauto].
Qed.

(** *** Sorted rearrangements *)

Section SortFacts.
Context {A : Type} (less : A -> A -> bool) (HO : sort.LessOrdering less).

Lemma notAfter_trans a b c :
  sort.notAfter less a b -> sort.notAfter less b c -> sort.notAfter less a c.
Proof.
  unfold sort.notAfter. intros Hab Hbc.
  exact (sort.less_negtrans less HO c b a Hbc Hab).
Qed.

Lemma IsSorted_strongly l :
  sort.IsSorted less l -> StronglySorted (sort.notAfter less) l.
Proof.
  apply Sorted_StronglySorted. intros a b c. apply notAfter_trans.
Qed.

Lemma strongly_precedes (R : A -> A -> Prop) l a b :
  StronglySorted R l -> precedes l a b -> R a b.
Proof.
  intros HS (l1 & l2 & l3 & ->).
  induction l1 as [|x l1 IH]; simpl in HS.
  - apply StronglySorted_inv in HS as [_ HF].
    rewrite Forall_forall in HF. apply HF.
    apply in_or_app. right. now left.
  - apply StronglySorted_inv in HS as [HS _]. auto.
Qed.

(** a sorted rearrangement is unique as soon as tied elements are equal *)
Lemma sorted_perm_unique : forall l1 l2,
  StronglySorted (sort.notAfter less) l1 ->
  StronglySorted (sort.notAfter less) l2 ->
  Permutation l1 l2 ->
  (forall a b, In a l1 -> In b l1 ->
     less a b = false -> less b a = false -> a = b) ->
  l1 = l2.
Proof.
  induction l1 as [|a l1 IH]; intros l2 H1 H2 HP Htie.
  - apply Permutation_nil in HP. now subst.
  - destruct l2 as [|b l2].
    + apply Permutation_sym, Permutation_nil in HP. discriminate.
    + apply StronglySorted_inv in H1 as [H1 F1].
      apply StronglySorted_inv in H2 as [H2 F2].
      rewrite Forall_forall in F1, F2.
      assert (Hab : a = b).
      { assert (Ia : In a (b :: l2))
          by (eapply Permutation_in; [exact HP | now left]).
        assert (Ib : In b (a :: l1))
          by (eapply Permutation_in;
              [apply Permutation_sym; exact HP | now left]).
        destruct Ia as [->|Ia]; [reflexivity|].
        destruct Ib as [->|Ib]; [reflexivity|].
        apply Htie; [now left | now right | |].
        - apply (F2 a Ia).
        - apply (F1 b Ib). }
      subst b. f_equal. apply IH; auto.
      * eapply Permutation_cons_inv; exact HP.
      * intros x y Hx Hy. apply Htie; now right.
Qed.

Lemma insertAhead_perm a l : Permutation (a :: l) (sort.insertAhead less a l).
Proof.
  induction l as [|b l IH]; simpl; [apply Permutation_refl|].
  destruct (less b a); [|apply Permutation_refl].
  eapply perm_trans; [apply perm_swap|]. now apply perm_skip.
Qed.

Lemma less_asym a b : less a b = true -> less b a = false.
Proof.
  intros H. destruct (less b a) eqn:E; [|reflexivity].
  pose proof (sort.less_trans less HO _ _ _ H E) as C.
  rewrite (sort.less_irrefl less HO) in C. discriminate.
Qed.

Lemma insertAhead_sorted a l :
  sort.IsSorted less l -> sort.IsSorted less (sort.insertAhead less a l).
Proof.
  unfold sort.IsSorted.
  induction l as [|b l IH]; simpl; intros HS.
  - repeat constructor.
  - destruct (less b a) eqn:E.
    + apply Sorted_inv in HS as [HS Hd]. constructor; [auto|].
      destruct l as [|c l]; simpl.
      * constructor. now apply less_asym.
      * destruct (less c a); constructor.
        -- now apply HdRel_inv in Hd.
        -- now apply less_asym.
    + constructor; [exact HS|]. constructor. exact E.
Qed.

End SortFacts.

Lemma insertionSort_contract : sort.SliceContract sort.insertionSort.
Proof.
  intros A less x HO. unfold sort.insertionSort.
  induction x as [|a x [IHp IHs]]; simpl.
  - split; [constructor | constructor].
  - split.
    + eapply perm_trans; [apply perm_skip; exact IHp|].
      apply insertAhead_perm.
    + now apply insertAhead_sorted.
Qed.

(** *** The listing *)

Lemma string_leb_compare x y :
  String.leb x y = true <-> String.compare x y <> Gt.
Proof.
  unfold String.leb. destruct (String.compare x y); split; congruence.
Qed.

Lemma notAfter_inListingOrder a b :
  sort.notAfter service.servicesLess a b -> inListingOrder a b.
Proof.
  unfold sort.notAfter. rewrite servicesLess_false.
  unfold svcCmp, lexCmp, svcKey, subCmp, inListingOrder. simpl.
  rewrite !string_leb_compare.
  rewrite (String.compare_antisym (models.SubState a) (models.SubState b)).
  rewrite (String.compare_antisym (models.Name a) (models.Name b)).
  destruct (String.eqb (models.SubState a) "running") eqn:Ea;
    destruct (String.eqb (models.SubState b) "running") eqn:Eb.
  - apply String.eqb_eq in Ea, Eb. rewrite Ea, Eb. simpl.
    intros H. repeat split; auto; try discriminate.
    intros _. destruct (String.compare (models.Name b) (models.Name a));
      simpl; congruence.
  - apply String.eqb_eq in Ea. apply eqb_running_neq in Eb.
    intros _. repeat split.
    + congruence.
    + intros [H _]. exfalso. auto.
    + congruence.
  - intros H. exfalso. now apply H.
  - apply eqb_running_neq in Ea, Eb. intros H. repeat split.
    + congruence.
    + intros _.
      destruct (String.compare (models.SubState b) (models.SubState a));
        simpl; congruence.
    + intros E. rewrite E, string_compare_refl in H.
      destruct (String.compare (models.Name b) (models.Name a));
        simpl; congruence.
Qed.

Lemma keyedBy_perm {A K} (key : A -> K) l l' :
  Permutation l l' -> keyedBy key l -> keyedBy key l'.
Proof.
  intros HP HK a b Ia Ib.
  apply HK; (eapply Permutation_in; [apply Permutation_sym; exact HP|]);
    assumption.
Qed.

Lemma unitsExample_keyed : keyedBy svcKey unitsExample.
Proof.
  intros a b Ia Ib. simpl in Ia, Ib.
  repeat destruct Ia as [<-|Ia]; try contradiction;
    repeat destruct Ib as [<-|Ib]; try contradiction;
    try reflexivity; discriminate.
Qed.

Lemma unitsExampleSorted_sorted :
  StronglySorted (sort.notAfter service.servicesLess) unitsExampleSorted.
Proof.
  repeat constructor.
Qed.

Lemma keyLess_svcCmp a b :
  keyLess (svcKey a) (svcKey b) = service.servicesLess a b.
Proof.
  unfold keyLess. fold (svcCmp a b).
  destruct (service.servicesLess a b) eqn:E.
  - apply servicesLess_svcCmp in E. now rewrite E.
  - apply servicesLess_false in E. destruct (svcCmp a b); congruence.
Qed.

Lemma keyLess_false k1 k2 :
  keyLess k1 k2 = false <-> lexCmp subCmp String.compare k1 k2 <> Lt.
Proof.
  unfold keyLess.
  destruct (lexCmp subCmp String.compare k1 k2); split; congruence.
Qed.

Lemma keyLess_ordering : sort.LessOrdering keyLess.
Proof.
  split.
  - intros a. apply keyLess_false.
    rewrite cmp_refl by typeclasses eauto. discriminate.
  - intros a b c. unfold keyLess.
    destruct (lexCmp subCmp String.compare a b) eqn:E1; try discriminate.
    destruct (lexCmp subCmp String.compare b c) eqn:E2; try discriminate.
    now rewrite (cmp_lt_trans _ _ _ E1 E2).
  - intros a b c. rewrite !keyLess_false.
    apply cmp_not_lt_trans. typeclasses eauto.
Qed.

(** tied keys are the same key *)
Lemma keyLess_tied k1 k2 :
  keyLess k1 k2 = false -> keyLess k2 k1 = false -> k1 = k2.
Proof.
  rewrite !keyLess_false. intros H1 H2.
  apply (cmp_eq (cmp := lexCmp subCmp String.compare)).
  destruct (lexCmp subCmp String.compare k1 k2) eqn:E;
    [reflexivity | congruence |].
  apply cmp_gt_lt in E; [congruence | typeclasses eauto].
Qed.

Lemma outputOrder_strongly l :
  StronglySorted (sort.notAfter service.servicesLess) l ->
  StronglySorted (sort.notAfter keyLess) (outputOrder l).
Proof.
  induction 1 as [|a l HS IH HF]; simpl; constructor; [exact IH|].
  rewrite Forall_forall in *. intros k Hk.
  apply in_map_iff in Hk as (b & <- & Hb).
  unfold sort.notAfter. rewrite keyLess_svcCmp. now apply HF.
Qed.

Section Listing.
Variable Slice : forall A : Type, (A -> A -> bool) -> list A -> list A.
Hypothesis Slice_ok : sort.SliceContract Slice.

Lemma sortServices_perm services :
  Permutation services (service.sortServices Slice services).
Proof. apply Slice_ok, servicesLess_ordering. Qed.

Lemma sortServices_strongly services :
  StronglySorted (sort.notAfter service.servicesLess)
    (service.sortServices Slice services).
Proof.
  apply IsSorted_strongly; [apply servicesLess_ordering|].
  apply Slice_ok, servicesLess_ordering.
Qed.

(** whatever list is a sorted rearrangement of the input is the output *)
Lemma sortServices_unique services sorted :
  keyedBy svcKey services ->
  Permutation services sorted ->
  StronglySorted (sort.notAfter service.servicesLess) sorted ->
  service.sortServices Slice services = sorted.
Proof.
  intros HK HP HS.
  apply (sorted_perm_unique service.servicesLess).
  - apply sortServices_strongly.
  - exact HS.
  - eapply perm_trans; [apply Permutation_sym, sortServices_perm | exact HP].
  - intros a b Ia Ib L1 L2.
    apply (keyedBy_perm svcKey _ _ (sortServices_perm services) HK); auto.
    now apply tied_same_key.
Qed.

(** the keys of the output are those of any sorted rearrangement *)
Lemma sortServices_order services sorted :
  Permutation services sorted ->
  StronglySorted (sort.notAfter service.servicesLess) sorted ->
  outputOrder (service.sortServices Slice services) = outputOrder sorted.
Proof.
  intros HP HS.
  apply (sorted_perm_unique keyLess).
  - apply outputOrder_strongly, sortServices_strongly.
  - now apply outputOrder_strongly.
  - apply Permutation_map.
    eapply perm_trans; [apply Permutation_sym, sortServices_perm | exact HP].
  - intros a b _ _. apply keyLess_tied.
Qed.

End Listing.

(** C2: for every list of parsed service records and every sort meeting
    the contract of [sort.Slice], the listing is a rearrangement of the
    records in which running services come before all others, then
    smaller sub states first, then smaller names first.  The output order
    is settled by the input: the sub states and names come out in one
    sequence, whatever the conforming sort and whatever the arrangement
    of the records in the input, and so do the records themselves as soon
    as no two of them share sub state and name; the units b(exited),
    a(running), c(exited) come out as a, b, c. *)
Theorem sortServices_listing_order :
  forall Slice, sort.SliceContract Slice ->
  forall services : list models.SystemdService,
    Permutation services (service.sortServices Slice services) /\
    (forall a b, precedes (service.sortServices Slice services) a b ->
                 inListingOrder a b) /\
    (forall Slice' services',
        sort.SliceContract Slice' ->
        Permutation services services' ->
        outputOrder (service.sortServices Slice' services') =
        outputOrder (service.sortServices Slice services)) /\
    (forall Slice' services',
        sort.SliceContract Slice' ->
        Permutation services services' ->
        keyedBy svcKey services ->
        service.sortServices Slice' services' =
        service.sortServices Slice services) /\
    service.sortServices Slice unitsExample = unitsExampleSorted.
Proof.
  intros Slice HS services. split; [|split; [|split; [|split]]].
  - now apply sortServices_perm.
  - intros a b Hp. apply notAfter_inListingOrder.
    eapply strongly_precedes; [|exact Hp].
    now apply sortServices_strongly.
  - intros Slice' services' HS' HP.
    apply sortServices_order; auto.
    + eapply perm_trans; [apply Permutation_sym; exact HP|].
      now apply sortServices_perm.
    + now apply sortServices_strongly.
  - intros Slice' services' HS' HP HK.
    apply sortServices_unique; auto.
    + eapply keyedBy_perm; eauto.
    + eapply perm_trans; [apply Permutation_sym; exact HP|].
      now apply sortServices_perm.
    + now apply sortServices_strongly.
  - apply sortServices_unique; auto.
    + apply unitsExample_keyed.
    + unfold unitsExample, unitsExampleSorted. apply perm_swap.
    + apply unitsExampleSorted_sorted.
Qed.

Lemma sortServices_listing_order_witness :
  service.sortServices sort.insertionSort unitsExample = unitsExampleSorted /\
  service.GetSystemdServices sort.insertionSort
    (Ok ("b.service loaded active exited" ++ String strings.lf
         "a.service loaded active running" ++ String strings.lf
         "c.service loaded active exited" ++ String strings.lf ""))
  = Ok unitsExampleSorted.
Proof.
  split.
  - exact (proj2 (proj2 (proj2 (proj2
      (sortServices_listing_order sort.insertionSort
         insertionSort_contract unitsExample))))).
  - vm_compute. reflexivity.
Defined.

(* ----------------------------------------------------------------- *)
(** ** Parsing a unit line *)

Lemma append_nil_r s : s ++ "" = s.
Proof. induction s; simpl; congruence. Qed.

Lemma append_assoc (a b c : string) : (a ++ b) ++ c = a ++ (b ++ c).
Proof. induction a; simpl; congruence. Qed.

Lemma noSpace_app a b :
  noSpace (a ++ b) = noSpace a && noSpace b.
Proof.
  induction a as [|c a IH]; simpl; [reflexivity|].
  now rewrite IH, andb_assoc.
Qed.

(** every field is a word *)
Lemma fieldsFrom_words s : forall cur,
  noSpace cur = true -> Forall isWord (strings.fieldsFrom cur s).
Proof.
  induction s as [|c s IH]; intros cur Hc; simpl.
  - destruct cur; constructor; [|constructor].
    split; [discriminate | exact Hc].
  - destruct (strings.asciiSpace c) eqn:E.
    + destruct cur.
      * now apply IH.
      * constructor; [split; [discriminate | exact Hc]|]. now apply IH.
    + apply IH. rewrite noSpace_app, Hc. simpl. now rewrite E.
Qed.

Lemma Fields_words s : Forall isWord (strings.Fields s).
Proof. now apply fieldsFrom_words. Qed.

(** a word is read into the open field whole *)
Lemma fieldsFrom_word w : forall cur rest,
  noSpace w = true ->
  strings.fieldsFrom cur (w ++ rest) = strings.fieldsFrom (cur ++ w) rest.
Proof.
  induction w as [|c w IH]; intros cur rest Hw; simpl.
  - now rewrite append_nil_r.
  - simpl in Hw. apply andb_true_iff in Hw as [Hc Hw].
    apply negb_true_iff in Hc. rewrite Hc, IH by exact Hw.
    now rewrite append_assoc.
Qed.

Lemma concat_cons2 sep (w w' : string) ws :
  String.concat sep (w :: w' :: ws) = w ++ sep ++ String.concat sep (w' :: ws).
Proof. reflexivity. Qed.

Lemma fieldsFrom_sep (w rest : string) :
  w <> "" ->
  strings.fieldsFrom w (" " ++ rest) = w :: strings.fieldsFrom "" rest.
Proof. intros H. simpl. destruct w; [contradiction | reflexivity]. Qed.

Lemma Fields_Join_words ws :
  Forall isWord ws -> strings.Fields (strings.Join ws " ") = ws.
Proof.
  unfold strings.Fields, strings.Join.
  induction 1 as [|w ws [Hne Hw] HF IH]; [reflexivity|].
  destruct ws as [|w' ws].
  - simpl String.concat.
    rewrite <- (append_nil_r w) at 1. rewrite fieldsFrom_word by exact Hw.
    simpl. destruct w; [contradiction | reflexivity].
  - rewrite concat_cons2, fieldsFrom_word by exact Hw.
    change ("" ++ w) with w. rewrite fieldsFrom_sep by exact Hne.
    now rewrite IH.
Qed.

(** the fields of a text, joined by one space, are single-spaced *)
Lemma Join_Fields_singleSpaced ws :
  Forall isWord ws -> singleSpaced (strings.Join ws " ").
Proof.
  intros H. unfold singleSpaced. now rewrite Fields_Join_words.
Qed.

Lemma fieldsFrom_cons cur c s :
  strings.fieldsFrom cur (String c s) =
  if strings.asciiSpace c then
    match cur with
    | EmptyString => strings.fieldsFrom EmptyString s
    | _ => cur :: strings.fieldsFrom EmptyString s
    end
  else strings.fieldsFrom (cur ++ String c EmptyString) s.
Proof. reflexivity. Qed.

Lemma TrimRightSpace_cons c s :
  strings.TrimRightSpace (String c s) =
  match strings.TrimRightSpace s with
  | EmptyString =>
      if strings.asciiSpace c then EmptyString else String c EmptyString
  | t => String c t
  end.
Proof. reflexivity. Qed.

(** trimming first changes nothing for [Fields] *)
Lemma fieldsFrom_TrimRightSpace s : forall cur,
  strings.fieldsFrom cur (strings.TrimRightSpace s) = strings.fieldsFrom cur s.
Proof.
  induction s as [|c s IH]; intros cur; [reflexivity|].
  rewrite TrimRightSpace_cons, (fieldsFrom_cons cur c s).
  destruct (strings.TrimRightSpace s) as [|d t] eqn:Et.
  - destruct (strings.asciiSpace c) eqn:E.
    + rewrite <- (IH ""). simpl. now destruct cur.
    + rewrite fieldsFrom_cons, E. apply IH.
  - rewrite (fieldsFrom_cons cur c (String d t)).
    destruct (strings.asciiSpace c); [destruct cur|]; now rewrite IH.
Qed.

Lemma Fields_TrimLeftSpace s :
  strings.Fields (strings.TrimLeftSpace s) = strings.Fields s.
Proof.
  unfold strings.Fields. induction s as [|c s IH]; [reflexivity|].
  simpl. destruct (strings.asciiSpace c) eqn:E; [exact IH|].
  simpl. now rewrite E.
Qed.

Lemma Fields_TrimSpace s :
  strings.Fields (strings.TrimSpace s) = strings.Fields s.
Proof.
  unfold strings.TrimSpace, strings.Fields.
  rewrite fieldsFrom_TrimRightSpace. apply Fields_TrimLeftSpace.
Qed.

Lemma TrimSpace_empty_Fields s :
  strings.TrimSpace s = "" -> strings.Fields s = [].
Proof. intros H. now rewrite <- Fields_TrimSpace, H. Qed.

(** the parser, read off the fields of the untrimmed line *)
Lemma parseUnitLine_Fields text :
  service.parseUnitLine text =
  match strings.Fields text with
  | f0 :: f1 :: f2 :: f3 :: rest =>
      Some {| models.Unit := f0;
              models.Name := strings.TrimSuffix f0 ".service";
              models.LoadState := f1; models.ActiveState := f2;
              models.SubState := f3;
              models.Description := strings.Join rest " ";
              models.Type_ := ""; models.MainPID := "";
              models.Memory := ""; models.Tasks := "" |}
  | _ => None
  end.
Proof.
  unfold service.parseUnitLine. cbv zeta.
  destruct (String.eqb (strings.TrimSpace text) "") eqn:E.
  - apply String.eqb_eq in E. now rewrite (TrimSpace_empty_Fields _ E).
  - rewrite Fields_TrimSpace.
    destruct (strings.Fields text) as [|f0 [|f1 [|f2 [|f3 rest]]]];
      try reflexivity.
    now destruct rest.
Qed.

Lemma Forall_skipn {A} (P : A -> Prop) n l :
  Forall P l -> Forall P (skipn n l).
Proof.
  revert l. induction n as [|n IH]; intros l H; simpl; [exact H|].
  destruct H; [constructor | now apply IH].
Qed.

(** C3 (as amended): for every ASCII line of [systemctl list-units]
    output, the parser accepts the line exactly when it splits into at
    least four white-space separated fields, takes unit, load, active and
    sub from the first four and joins the fields past the fourth with one
    space each as the description.  The description is therefore always
    single-spaced: a line whose words are one space apart keeps its
    description verbatim, any other run of white space comes out as one
    space. *)
Theorem parseUnitLine_description :
  forall text, strings.isASCII text = true ->
    ((exists svc, service.parseUnitLine text = Some svc) <->
     (4 <= List.length (strings.Fields text))%nat) /\
    (forall svc, service.parseUnitLine text = Some svc ->
       exists f0 f1 f2 f3 rest,
         strings.Fields text = f0 :: f1 :: f2 :: f3 :: rest /\
         models.Unit svc = f0 /\
         models.Name svc = strings.TrimSuffix f0 ".service" /\
         models.LoadState svc = f1 /\
         models.ActiveState svc = f2 /\
         models.SubState svc = f3 /\
         models.Description svc = strings.Join rest " " /\
         singleSpaced (models.Description svc)) /\
    (forall ws, Forall isWord ws -> (4 <= List.length ws)%nat ->
       text = strings.Join ws " " ->
       exists svc, service.parseUnitLine text = Some svc /\
         models.Description svc = strings.Join (skipn 4 ws) " ").
Proof.
  intros text _. rewrite parseUnitLine_Fields.
  split; [|split].
  - destruct (strings.Fields text) as [|f0 [|f1 [|f2 [|f3 rest]]]]; simpl;
      (split; [intros [svc H]; try discriminate; lia
              | intros H; try lia; eauto]).
  - intros svc H.
    pose proof (Fields_words text) as HW.
    destruct (strings.Fields text) as [|f0 [|f1 [|f2 [|f3 rest]]]];
      try discriminate.
    injection H as <-. exists f0, f1, f2, f3, rest. simpl.
    repeat split; try reflexivity.
    apply Join_Fields_singleSpaced.
    now apply (Forall_skipn isWord 4) in HW.
  - intros ws HW Hlen ->. rewrite Fields_Join_words by exact HW.
    destruct ws as [|f0 [|f1 [|f2 [|f3 rest]]]]; simpl in Hlen; try lia.
    eexists. split; reflexivity.
Qed.

Lemma parseUnitLine_description_witness :
  exists svc,
    service.parseUnitLine "cron.service loaded active running Regular background jobs"
    = Some svc /\
    models.Description svc = "Regular background jobs".
Proof.
  destruct (parseUnitLine_description
              "cron.service loaded active running Regular background jobs"
              eq_refl) as (_ & _ & H).
  destruct (H ["cron.service"; "loaded"; "active"; "running";
               "Regular"; "background"; "jobs"]) as (svc & H1 & H2).
  - repeat constructor; discriminate.
  - simpl. lia.
  - reflexivity.
  - exists svc. split; [exact H1|]. rewrite H2. reflexivity.
Defined.

(** C3, as the specification words it: a description with two spaces
    between its words is not kept verbatim; the record holds it with one
    space. *)
Lemma description_not_verbatim :
  ~ (forall desc svc,
       service.parseUnitLine (unitLinePrefix ++ desc) = Some svc ->
       models.Description svc = desc).
Proof.
  intros H.
  specialize (H "My  service" _ eq_refl). vm_compute in H. discriminate H.
Qed.

(* ----------------------------------------------------------------- *)
(** ** The host snapshot *)

(** *** Each block writes its own fields only *)

Ltac frame_block :=
  repeat match goal with
         | |- context [match ?x with _ => _ end] => destruct x
         | |- context [if ?x then _ else _] => destruct x
         end; repeat apply conj; reflexivity.

Lemma memLine_frame h line :
  uptimeFields (service.memLine h line) = uptimeFields h /\
  loadFields (service.memLine h line) = loadFields h /\
  netFields (service.memLine h line) = netFields h /\
  models.CPUCores (service.memLine h line) = models.CPUCores h.
Proof. unfold service.memLine. frame_block. Qed.

Lemma fold_memLine_frame lines : forall h,
  uptimeFields (fold_left service.memLine lines h) = uptimeFields h /\
  loadFields (fold_left service.memLine lines h) = loadFields h /\
  netFields (fold_left service.memLine lines h) = netFields h /\
  models.CPUCores (fold_left service.memLine lines h) = models.CPUCores h.
Proof.
  induction lines as [|l lines IH]; intros h; simpl; [auto|].
  destruct (IH (service.memLine h l)) as (-> & -> & -> & ->).
  apply memLine_frame.
Qed.

Section Frames.
Variable P : platform.Platform.

Lemma readUptime_frame h :
  loadFields (service.readUptime P h) = loadFields h /\
  memFields (service.readUptime P h) = memFields h /\
  netFields (service.readUptime P h) = netFields h.
Proof. unfold service.readUptime. frame_block. Qed.

Lemma readLoadavg_frame h :
  uptimeFields (service.readLoadavg P h) = uptimeFields h /\
  memFields (service.readLoadavg P h) = memFields h /\
  netFields (service.readLoadavg P h) = netFields h.
Proof. unfold service.readLoadavg. cbv zeta. frame_block. Qed.

Lemma readMeminfo_frame h :
  uptimeFields (service.readMeminfo P h) = uptimeFields h /\
  loadFields (service.readMeminfo P h) = loadFields h /\
  netFields (service.readMeminfo P h) = netFields h.
Proof.
  unfold service.readMeminfo.
  destruct (platform.ReadFile P "/proc/meminfo") as [data|e]; [|auto].
  cbv zeta.
  destruct (fold_memLine_frame (bufio.ScanLines data) h) as (Hu & Hl & Hn & _).
  rewrite <- Hu, <- Hl, <- Hn.
  destruct (_ >? 0); repeat split; reflexivity.
Qed.

Lemma readNetTcp_frame h :
  uptimeFields (service.readNetTcp P h) = uptimeFields h /\
  loadFields (service.readNetTcp P h) = loadFields h /\
  memFields (service.readNetTcp P h) = memFields h.
Proof. unfold service.readNetTcp. cbv zeta. frame_block. Qed.

(** *** Each block reads its own fields only *)

Lemma readUptime_own h h' :
  uptimeFields h = uptimeFields h' ->
  uptimeFields (service.readUptime P h) = uptimeFields (service.readUptime P h').
Proof.
  unfold service.readUptime. intros H.
  destruct (platform.ReadFile P "/proc/uptime"); [|exact H].
  cbv zeta. destruct (strings.Split _ _); [exact H|].
  destruct (platform.ParseFloat P _); [reflexivity | exact H].
Qed.

Lemma readLoadavg_own h h' :
  loadFields h = loadFields h' ->
  loadFields (service.readLoadavg P h) = loadFields (service.readLoadavg P h').
Proof.
  unfold service.readLoadavg, loadFields. intros [= H1 H5 H15].
  destruct (platform.ReadFile P "/proc/loadavg"); [|congruence].
  cbv zeta. destruct (strings.Split _ _) as [|p0 [|p1 [|p2 r]]];
    try congruence.
  destruct (platform.ParseFloat P p0), (platform.ParseFloat P p1),
    (platform.ParseFloat P p2); simpl; congruence.
Qed.

Lemma memLine_own h h' line :
  memFields h = memFields h' ->
  memFields (service.memLine h line) = memFields (service.memLine h' line).
Proof.
  unfold service.memLine, memFields. intros [= Ht Hu Ha Hp].
  repeat match goal with
         | |- context [match ?x with _ => _ end] => destruct x
         | |- context [if ?x then _ else _] => destruct x
         end; simpl; congruence.
Qed.

Lemma fold_memLine_own lines : forall h h',
  memFields h = memFields h' ->
  memFields (fold_left service.memLine lines h) =
  memFields (fold_left service.memLine lines h').
Proof.
  induction lines as [|l lines IH]; intros h h' H; simpl; [exact H|].
  apply IH. now apply memLine_own.
Qed.

Lemma readMeminfo_own h h' :
  memFields h = memFields h' ->
  memFields (service.readMeminfo P h) = memFields (service.readMeminfo P h').
Proof.
  unfold service.readMeminfo. intros H.
  destruct (platform.ReadFile P "/proc/meminfo") as [data|e]; [|exact H].
  cbv zeta.
  pose proof (fold_memLine_own (bufio.ScanLines data) h h' H) as HF.
  unfold memFields in HF. injection HF as Ht Hu Ha Hp.
  simpl models.MemoryTotal. rewrite Ht, Ha.
  destruct (_ >? 0); unfold memFields; simpl; congruence.
Qed.

Lemma readNetTcp_own h h' :
  netFields h = netFields h' ->
  netFields (service.readNetTcp P h) = netFields (service.readNetTcp P h').
Proof.
  unfold service.readNetTcp. intros H.
  destruct (platform.ReadFile P "/proc/net/tcp"); [|exact H].
  cbv zeta. simpl models.NetworkConnections.
  destruct (_ <? 0); reflexivity.
Qed.

Lemma readNetTcp_cores h :
  models.CPUCores (service.readNetTcp P h) = models.CPUCores h.
Proof. unfold service.readNetTcp. cbv zeta. frame_block. Qed.

(** the snapshot, field group by field group: each group is what its own
    block makes of an all-zero record *)
Lemma GetHostSystemInfo_groups :
  let h := fst (service.GetHostSystemInfo P) in
  uptimeFields h = uptimeFields (service.readUptime P models.zeroHostSystemInfo) /\
  loadFields h = loadFields (service.readLoadavg P models.zeroHostSystemInfo) /\
  memFields h = memFields (service.readMeminfo P models.zeroHostSystemInfo) /\
  netFields h = netFields (service.readNetTcp P models.zeroHostSystemInfo) /\
  models.CPUCores h = platform.NumCPU P.
Proof.
  unfold service.GetHostSystemInfo. cbv zeta. simpl fst.
  set (z := models.zeroHostSystemInfo).
  set (h1 := service.readUptime P z).
  set (h2 := service.readLoadavg P h1).
  set (h3 := service.readMeminfo P h2).
  set (h4 := models.setCPUCores (platform.NumCPU P) h3).
  destruct (readUptime_frame z) as (U1 & U2 & U3). fold h1 in U1, U2, U3.
  destruct (readLoadavg_frame h1) as (L1 & L2 & L3). fold h2 in L1, L2, L3.
  destruct (readMeminfo_frame h2) as (M1 & M2 & M3). fold h3 in M1, M2, M3.
  destruct (readNetTcp_frame h4) as (N1 & N2 & N3).
  repeat apply conj.
  - rewrite N1. change (uptimeFields h4) with (uptimeFields h3).
    now rewrite M1, L1.
  - rewrite N2. change (loadFields h4) with (loadFields h3).
    rewrite M2. apply readLoadavg_own. exact U1.
  - rewrite N3. change (memFields h4) with (memFields h3).
    apply readMeminfo_own. now rewrite L2, U2.
  - apply readNetTcp_own. change (netFields h4) with (netFields h3).
    now rewrite M3, L3, U3.
  - now rewrite readNetTcp_cores.
Qed.

End Frames.

(** *** Partial results *)

Lemma readUptime_same P Q h :
  sameConversions P Q ->
  platform.ReadFile P "/proc/uptime" = platform.ReadFile Q "/proc/uptime" ->
  service.readUptime P h = service.readUptime Q h.
Proof.
  intros [Hp Hi] Hf. unfold service.readUptime. now rewrite Hf, Hp, Hi.
Qed.

Lemma readLoadavg_same P Q h :
  sameConversions P Q ->
  platform.ReadFile P "/proc/loadavg" = platform.ReadFile Q "/proc/loadavg" ->
  service.readLoadavg P h = service.readLoadavg Q h.
Proof.
  intros [Hp Hi] Hf. unfold service.readLoadavg. now rewrite Hf, Hp.
Qed.

Lemma readMeminfo_same P Q h :
  platform.ReadFile P "/proc/meminfo" = platform.ReadFile Q "/proc/meminfo" ->
  service.readMeminfo P h = service.readMeminfo Q h.
Proof. intros Hf. unfold service.readMeminfo. now rewrite Hf. Qed.

Lemma readNetTcp_same P Q h :
  platform.ReadFile P "/proc/net/tcp" = platform.ReadFile Q "/proc/net/tcp" ->
  service.readNetTcp P h = service.readNetTcp Q h.
Proof. intros Hf. unfold service.readNetTcp. now rewrite Hf. Qed.

(** C5: whatever files can be read, [GetHostSystemInfo] returns a
    snapshot and no error.  The fields of a file that cannot be read are
    zero; the fields of each file are those the same file gives on any
    other platform, readable or not the other files may be; the
    connection count of a readable [/proc/net/tcp] is its line count less
    two, floored at zero.  Without [/proc/net/tcp] the count is 0 and
    uptime, load averages and memory are as with it. *)
Theorem GetHostSystemInfo_partial :
  forall P : platform.Platform,
    let h := fst (service.GetHostSystemInfo P) in
    snd (service.GetHostSystemInfo P) = None /\
    (unreadable P "/proc/uptime" -> uptimeFields h = ("", 0)) /\
    (unreadable P "/proc/loadavg" ->
       loadFields h = (0%float, 0%float, 0%float)) /\
    (unreadable P "/proc/meminfo" -> memFields h = (0, 0, 0, 0%float)) /\
    (unreadable P "/proc/net/tcp" -> models.NetworkConnections h = 0) /\
    (forall data, platform.ReadFile P "/proc/net/tcp" = Ok data ->
       models.NetworkConnections h =
       Z.max 0 (sub64 (len (strings.Split data strings.lf)) 2)) /\
    (forall Q, sameConversions P Q ->
       let k := fst (service.GetHostSystemInfo Q) in
       (platform.ReadFile P "/proc/uptime" = platform.ReadFile Q "/proc/uptime" ->
        uptimeFields h = uptimeFields k) /\
       (platform.ReadFile P "/proc/loadavg" = platform.ReadFile Q "/proc/loadavg" ->
        loadFields h = loadFields k) /\
       (platform.ReadFile P "/proc/meminfo" = platform.ReadFile Q "/proc/meminfo" ->
        memFields h = memFields k) /\
       (platform.ReadFile P "/proc/net/tcp" = platform.ReadFile Q "/proc/net/tcp" ->
        netFields h = netFields k)) /\
    (models.NetworkConnections (fst (service.GetHostSystemInfo noNetTcp)) = 0 /\
     models.NetworkConnections (fst (service.GetHostSystemInfo withNetTcp)) = 2 /\
     uptimeFields (fst (service.GetHostSystemInfo noNetTcp)) = ("1d 2h 3m", 93784) /\
     loadFields (fst (service.GetHostSystemInfo noNetTcp)) =
       (0.5%float, 0.25%float, 0.75%float) /\
     memFields (fst (service.GetHostSystemInfo noNetTcp)) =
       (1024000, 614400, 409600, 60%float)).
Proof.
  intros P h.
  destruct (GetHostSystemInfo_groups P) as (GU & GL & GM & GN & _).
  fold h in GU, GL, GM, GN.
  split; [reflexivity|].
  split; [|split; [|split; [|split; [|split; [|split]]]]].
  - intros [e He]. rewrite GU. unfold service.readUptime. now rewrite He.
  - intros [e He]. rewrite GL. unfold service.readLoadavg. now rewrite He.
  - intros [e He]. rewrite GM. unfold service.readMeminfo. now rewrite He.
  - intros [e He]. change (netFields h = 0). rewrite GN.
    unfold service.readNetTcp. now rewrite He.
  - intros data Hd. change (models.NetworkConnections h) with (netFields h).
    rewrite GN. unfold service.readNetTcp. rewrite Hd. cbv zeta.
    simpl models.NetworkConnections.
    destruct (Z.ltb_spec (sub64 (len (strings.Split data strings.lf)) 2) 0);
      unfold netFields; simpl; lia.
  - intros Q HC k.
    destruct (GetHostSystemInfo_groups Q) as (QU & QL & QM & QN & _).
    fold k in QU, QL, QM, QN.
    repeat apply conj; intros Hf.
    + now rewrite GU, QU, (readUptime_same P Q _ HC Hf).
    + now rewrite GL, QL, (readLoadavg_same P Q _ HC Hf).
    + now rewrite GM, QM, (readMeminfo_same P Q _ Hf).
    + now rewrite GN, QN, (readNetTcp_same P Q _ Hf).
  - vm_compute. repeat apply conj; reflexivity.
Qed.

(** C9: [GetHostSystemInfo] returns a nil error for every state of the
    platform, so the handler of [/api/system/host] never takes its 500
    branch: it answers 200 and hands the snapshot to the JSON encoder. *)
Theorem GetHostSystemInfo_no_error :
  forall P : platform.Platform,
    snd (service.GetHostSystemInfo P) = None /\
    http.Status (api.GetHostSystemInfo P) = http.StatusOK /\
    http.Status (api.GetHostSystemInfo P) <> http.StatusInternalServerError /\
    api.GetHostSystemInfo P =
      http.writeJSON (http.EncHostSystemInfo (fst (service.GetHostSystemInfo P))).
Proof.
  intros P. unfold api.GetHostSystemInfo.
  destruct (service.GetHostSystemInfo P) as [h err] eqn:E.
  assert (Herr : err = None).
  { unfold service.GetHostSystemInfo in E. cbv zeta in E.
    now injection E as _ <-. }
  subst err. simpl. repeat apply conj; try reflexivity.
  unfold http.StatusOK, http.StatusInternalServerError. lia.
Qed.

(* ----------------------------------------------------------------- *)
(** ** Memory figures *)

Lemma MemTotal_not_MemAvailable line :
  isMemTotal line = true -> isMemAvailable line = false.
Proof.
  unfold isMemTotal, isMemAvailable, strings.HasPrefix.
  destruct line as [|c1 [|c2 [|c3 [|c4 line]]]];
    cbn [String.prefix];
    repeat match goal with
           | |- context [ascii_dec ?a ?b] => destruct (ascii_dec a b)
           end;
    intros H; try discriminate H; try reflexivity.
  subst. congruence.
Qed.

Lemma memLine_total h line T :
  isMemTotal line = true -> meminfoValue line = Some T ->
  service.memLine h line = models.setMemoryTotal (mul64 T 1024) h.
Proof.
  unfold isMemTotal, meminfoValue, service.memLine. intros -> H.
  destruct (strings.Fields line) as [|f0 [|f1 r]]; try discriminate.
  now rewrite H.
Qed.

Lemma memLine_available h line A :
  isMemAvailable line = true -> meminfoValue line = Some A ->
  service.memLine h line = models.setMemoryAvailable (mul64 A 1024) h.
Proof.
  intros Ha H. unfold service.memLine.
  destruct (strings.HasPrefix line "MemTotal:") eqn:Et.
  - apply MemTotal_not_MemAvailable in Et. congruence.
  - unfold isMemAvailable in Ha. rewrite Ha. unfold meminfoValue in H.
    destruct (strings.Fields line) as [|f0 [|f1 r]]; try discriminate.
    now rewrite H.
Qed.

Lemma memLine_other h line :
  isMemTotal line = false -> isMemAvailable line = false ->
  service.memLine h line = h.
Proof.
  unfold isMemTotal, isMemAvailable, service.memLine. now intros -> ->.
Qed.

(** after the scan, each of the two fields holds the value of the last
    line with its key, or what it held before *)
Lemma fold_memLine_values T A lines : forall h,
  (forall line, In line lines -> isMemTotal line = true ->
                meminfoValue line = Some T) ->
  (forall line, In line lines -> isMemAvailable line = true ->
                meminfoValue line = Some A) ->
  let h' := fold_left service.memLine lines h in
  models.MemoryTotal h' =
    (if existsb isMemTotal lines then mul64 T 1024 else models.MemoryTotal h) /\
  models.MemoryAvailable h' =
    (if existsb isMemAvailable lines then mul64 A 1024
     else models.MemoryAvailable h).
Proof.
  induction lines as [|l lines IH]; intros h HT HA; [split; reflexivity|].
  simpl fold_left. cbv zeta.
  assert (HT' : forall line, In line lines -> isMemTotal line = true ->
                             meminfoValue line = Some T)
    by (intros; apply HT; [now right | assumption]).
  assert (HA' : forall line, In line lines -> isMemAvailable line = true ->
                             meminfoValue line = Some A)
    by (intros; apply HA; [now right | assumption]).
  destruct (IH (service.memLine h l) HT' HA') as [IT IA].
  rewrite IT, IA. simpl existsb.
  destruct (isMemTotal l) eqn:Et.
  - rewrite (MemTotal_not_MemAvailable _ Et).
    rewrite (memLine_total h l T Et (HT l (or_introl eq_refl) Et)).
    simpl. split; [now destruct (existsb isMemTotal lines) | reflexivity].
  - destruct (isMemAvailable l) eqn:Ea.
    + rewrite (memLine_available h l A Ea (HA l (or_introl eq_refl) Ea)).
      simpl. split; [reflexivity | now destruct (existsb isMemAvailable lines)].
    + rewrite (memLine_other h l Et Ea). split; reflexivity.
Qed.

Lemma fold_memLine_pct lines : forall h,
  models.MemoryUsedPct (fold_left service.memLine lines h) =
  models.MemoryUsedPct h.
Proof.
  induction lines as [|l lines IH]; intros h; simpl; [reflexivity|].
  rewrite IH. unfold service.memLine. frame_block.
Qed.

Lemma carries_existsb data key v :
  meminfoCarries data key v ->
  existsb (fun l => strings.HasPrefix l key) (bufio.ScanLines data) = true.
Proof.
  intros [(line & Hin & Hp) _]. apply existsb_exists. eauto.
Qed.

Lemma mul64_1024_exact T :
  Z.abs T < 2 ^ 52 -> mul64 T 1024 = T * 1024.
Proof.
  intros H. unfold mul64. apply wrap64_small.
  unfold inInt64, minInt64, maxInt64. lia.
Qed.

(** the memory fields of the snapshot, given what the file carries *)
Lemma readMeminfo_values P data T A :
  platform.ReadFile P "/proc/meminfo" = Ok data ->
  meminfoCarries data "MemTotal:" T ->
  meminfoCarries data "MemAvailable:" A ->
  let total := mul64 T 1024 in
  let avail := mul64 A 1024 in
  let used := sub64 total avail in
  memFields (fst (service.GetHostSystemInfo P)) =
    (total, used, avail,
     if total >? 0 then (float64 used / float64 total * 100)%float
     else 0%float).
Proof.
  intros Hd CT CA total avail used.
  destruct (GetHostSystemInfo_groups P) as (_ & _ & -> & _).
  unfold service.readMeminfo. rewrite Hd. cbv zeta.
  destruct (fold_memLine_values T A (bufio.ScanLines data)
              models.zeroHostSystemInfo (proj2 CT) (proj2 CA)) as [HT HA].
  assert (ET : existsb isMemTotal (bufio.ScanLines data) = true)
    by exact (carries_existsb _ _ _ CT).
  assert (EA : existsb isMemAvailable (bufio.ScanLines data) = true)
    by exact (carries_existsb _ _ _ CA).
  rewrite ET in HT. rewrite EA in HA.
  simpl models.MemoryTotal. rewrite HT, HA.
  fold total avail used.
  destruct (total >? 0); unfold memFields; simpl; rewrite HT, HA;
    [reflexivity | now rewrite fold_memLine_pct].
Qed.

(** C4 (as amended): for every readable ASCII [/proc/meminfo] whose
    MemTotal lines carry [T] and whose MemAvailable lines carry [A],
    MemoryTotal is [T*1024] and MemoryAvailable [A*1024] in 64-bit
    arithmetic, MemoryUsed is their difference, and MemoryUsedPct is the
    float64 product [float64(MemoryUsed)/float64(MemoryTotal)*100] when
    MemoryTotal is positive and 0 otherwise.  Below 2^52 kilobytes the
    three integers are exactly [T*1024], [A*1024] and [(T-A)*1024]; with
    1000 and 400 kilobytes MemoryUsed is 614400 and MemoryUsedPct is
    60.0. *)
Theorem GetHostSystemInfo_memory :
  forall (P : platform.Platform) (data : string) (T A : Z),
    platform.ReadFile P "/proc/meminfo" = Ok data ->
    strings.isASCII data = true ->
    meminfoCarries data "MemTotal:" T ->
    meminfoCarries data "MemAvailable:" A ->
    let h := fst (service.GetHostSystemInfo P) in
    models.MemoryTotal h = mul64 T 1024 /\
    models.MemoryAvailable h = mul64 A 1024 /\
    models.MemoryUsed h =
      sub64 (models.MemoryTotal h) (models.MemoryAvailable h) /\
    (0 < models.MemoryTotal h ->
       models.MemoryUsedPct h =
       (float64 (models.MemoryUsed h) / float64 (models.MemoryTotal h)
        * 100)%float) /\
    (models.MemoryTotal h <= 0 -> models.MemoryUsedPct h = 0%float) /\
    (Z.abs T < 2 ^ 52 -> Z.abs A < 2 ^ 52 ->
       models.MemoryTotal h = T * 1024 /\
       models.MemoryAvailable h = A * 1024 /\
       models.MemoryUsed h = (T - A) * 1024) /\
    (T = 1000 -> A = 400 ->
       models.MemoryUsed h = 614400 /\ models.MemoryUsedPct h = 60%float).
Proof.
  intros P data T A Hd _ CT CA h.
  pose proof (readMeminfo_values P data T A Hd CT CA) as HM.
  cbv zeta in HM. fold h in HM. unfold memFields in HM.
  injection HM as Ht Hu Ha Hp.
  assert (Hused : models.MemoryUsed h =
                  sub64 (models.MemoryTotal h) (models.MemoryAvailable h))
    by now rewrite Hu, Ht, Ha.
  repeat apply conj; try assumption.
  - intros Hpos. rewrite Hp, Hu, Ht.
    destruct (Z.gtb_spec (mul64 T 1024) 0) as [_|Hle]; [reflexivity|].
    rewrite Ht in Hpos. lia.
  - intros Hle. rewrite Hp.
    destruct (Z.gtb_spec (mul64 T 1024) 0) as [Hgt|_]; [|reflexivity].
    rewrite Ht in Hle. lia.
  - intros HT HA. repeat apply conj.
    + now rewrite Ht, mul64_1024_exact.
    + now rewrite Ha, mul64_1024_exact.
    + rewrite Hused, Ht, Ha, !mul64_1024_exact by assumption.
      unfold sub64. rewrite wrap64_small; [lia|].
      unfold inInt64, minInt64, maxInt64. lia.
  - intros -> ->. split; [now rewrite Hu | now rewrite Hp].
Qed.

Ltac carries_concrete :=
  split;
  [ apply (proj1 (existsb_exists _ _)); vm_compute; reflexivity
  | intros line Hin Hp; vm_compute in Hin;
    repeat (destruct Hin as [<-|Hin]; [solve [reflexivity | discriminate Hp]|]);
    contradiction ].

Lemma meminfo_1000_400_carries :
  meminfoCarries (meminfoLines "1000" "400") "MemTotal:" 1000 /\
  meminfoCarries (meminfoLines "1000" "400") "MemAvailable:" 400.
Proof. split; carries_concrete. Qed.

Lemma meminfo_100_93_carries :
  meminfoCarries (meminfoLines "100" "93") "MemTotal:" 100 /\
  meminfoCarries (meminfoLines "100" "93") "MemAvailable:" 93.
Proof. split; carries_concrete. Qed.

Lemma GetHostSystemInfo_memory_witness :
  let h := fst (service.GetHostSystemInfo
                  (meminfoOnly (meminfoLines "1000" "400"))) in
  models.MemoryTotal h = 1024000 /\
  models.MemoryAvailable h = 409600 /\
  models.MemoryUsed h = 614400 /\
  models.MemoryUsedPct h = 60%float.
Proof.
  destruct (GetHostSystemInfo_memory
              (meminfoOnly (meminfoLines "1000" "400"))
              (meminfoLines "1000" "400") 1000 400
              eq_refl eq_refl
              (proj1 meminfo_1000_400_carries)
              (proj2 meminfo_1000_400_carries))
    as (_ & _ & _ & _ & _ & Hex & Hp).
  destruct Hex as (Ht & Ha & _); [vm_compute; reflexivity ..|].
  destruct (Hp eq_refl eq_refl) as [Hu Hpct].
  cbv zeta. repeat apply conj; assumption.
Defined.

(** C4, as the specification words it: with 100 kilobytes in total and
    93 available the percentage returned is not the double nearest to
    100*(100-93)/100 = 7; the division is rounded before the product. *)
Lemma MemoryUsedPct_not_exact :
  ~ (forall (P : platform.Platform) (data : string) (T A : Z),
       platform.ReadFile P "/proc/meminfo" = Ok data ->
       meminfoCarries data "MemTotal:" T ->
       meminfoCarries data "MemAvailable:" A ->
       0 < T ->
       models.MemoryUsedPct (fst (service.GetHostSystemInfo P)) =
       percentUsed T A).
Proof.
  intros H.
  specialize (H (meminfoOnly (meminfoLines "100" "93"))
                (meminfoLines "100" "93") 100 93 eq_refl
                (proj1 meminfo_100_93_carries)
                (proj2 meminfo_100_93_carries) eq_refl).
  assert (E : PrimFloat.eqb
                (models.MemoryUsedPct
                   (fst (service.GetHostSystemInfo
                           (meminfoOnly (meminfoLines "100" "93")))))
                (percentUsed 100 93) = false)
    by (vm_compute; reflexivity).
  rewrite H in E. vm_compute in E. discriminate E.
Qed.

(* ----------------------------------------------------------------- *)
(** ** Container detail *)

Lemma GetContainerDetail_inspected d id c :
  client.ContainerInspect d id = Ok c ->
  fst (service.GetContainerDetail d id) =
    Ok {| models.Container := c; models.Stats := statsOf d id c |} /\
  snd (service.GetContainerDetail d id) =
    (client.CallContainerInspect id ::
     if types.StateRunning c then
       client.CallContainerStats id ::
       match client.ContainerStats d id with
       | Ok _ => [client.CallBodyClose]
       | Err _ => []
       end
     else [])%list.
Proof.
  intros Hc. unfold service.GetContainerDetail, statsOf. rewrite Hc. cbv zeta.
  destruct (types.StateRunning c); [|split; reflexivity].
  destruct (client.ContainerStats d id) as [body|e]; [|split; reflexivity].
  destruct (types.Decode body); split; reflexivity.
Qed.

(** C10: when the inspection succeeds, [GetContainerDetail] returns the
    detail with a nil error.  Stats are there exactly when the container
    runs, the stats call answers and its body decodes; a failing call or
    a failing decode leaves [Stats] nil.  The stats call is made exactly
    when the inspected state reports Running, and the handler answers
    200. *)
Theorem GetContainerDetail_stats_optional :
  forall (d : client.Daemon) (id : string) (c : types.ContainerJSON),
    client.ContainerInspect d id = Ok c ->
    exists detail,
      fst (service.GetContainerDetail d id) = Ok detail /\
      models.Container detail = c /\
      (forall s, models.Stats detail = Some s <->
         types.StateRunning c = true /\
         exists body, client.ContainerStats d id = Ok body /\
                      types.Decode body = Ok s) /\
      ((exists e, client.ContainerStats d id = Err e) ->
         models.Stats detail = None) /\
      ((exists body e, client.ContainerStats d id = Ok body /\
                       types.Decode body = Err e) ->
         models.Stats detail = None) /\
      (In (client.CallContainerStats id) (snd (service.GetContainerDetail d id))
         <-> types.StateRunning c = true) /\
      api.GetContainerDetail d id =
        http.writeJSON (http.EncContainerDetail detail).
Proof.
  intros d id c Hc.
  destruct (GetContainerDetail_inspected d id c Hc) as [Hd Hcalls].
  exists {| models.Container := c; models.Stats := statsOf d id c |}.
  split; [exact Hd|]. split; [reflexivity|]. simpl models.Stats.
  split; [|split; [|split; [|split]]].
  - intros s. unfold statsOf. split.
    + destruct (types.StateRunning c); [|discriminate].
      destruct (client.ContainerStats d id) as [body|e]; [|discriminate].
      destruct (types.Decode body) as [s'|e] eqn:Hs; [|discriminate].
      intros [= <-]. split; [reflexivity|]. now exists body.
    + intros (-> & body & -> & ->). reflexivity.
  - intros (e & He). unfold statsOf. rewrite He.
    now destruct (types.StateRunning c).
  - intros (body & e & Hb & He). unfold statsOf. rewrite Hb, He.
    now destruct (types.StateRunning c).
  - rewrite Hcalls. destruct (types.StateRunning c); split.
    + reflexivity.
    + intros _. right. now left.
    + intros [H|[]]. discriminate H.
    + discriminate.
  - unfold api.GetContainerDetail. now rewrite Hd.
Qed.

Lemma GetContainerDetail_stats_optional_witness :
  exists detail,
    fst (service.GetContainerDetail sampleDaemon "c1") = Ok detail /\
    models.Stats detail = None /\
    http.Status (api.GetContainerDetail sampleDaemon "c1") = http.StatusOK.
Proof.
  destruct (GetContainerDetail_stats_optional sampleDaemon "c1" _ eq_refl)
    as (detail & H1 & _ & _ & H2 & _ & _ & H3).
  exists detail. repeat apply conj.
  - exact H1.
  - apply H2. now eexists.
  - rewrite H3. reflexivity.
Defined.

(* ----------------------------------------------------------------- *)
(** ** Relay loops *)

Lemma streamLoop_events ctx isFlusher pre : forall rest done,
  onlyEvents pre ->
  service.streamLoop ctx isFlusher (pre ++ rest) done =
  service.streamLoop ctx isFlusher rest
    (done ++ encodedEvents isFlusher pre).
Proof.
  induction pre as [|s pre IH]; intros rest done H; simpl.
  - now rewrite app_nil_r.
  - inversion H as [|? ? (e & w & ->) Hpre]; subst. simpl.
    rewrite IH by exact Hpre. now rewrite <- app_assoc.
Qed.

Lemma StreamSystemEvents_blocked events ctx since until isFlusher :
  let received := events {| types.Since := service.eventsOption since;
                            types.Until := service.eventsOption until |} in
  onlyEvents received ->
  service.StreamSystemEvents events ctx since until isFlusher =
  (encodedEvents isFlusher received, service.Blocked).
Proof.
  intros received H. unfold service.StreamSystemEvents. cbv zeta.
  fold received. rewrite <- (app_nil_r received) at 1.
  now rewrite streamLoop_events.
Qed.

Lemma StreamSystemEvents_errs events ctx since until isFlusher pre err rest :
  events {| types.Since := service.eventsOption since;
            types.Until := service.eventsOption until |}
    = (pre ++ client.RecvErr err :: rest)%list ->
  onlyEvents pre ->
  service.StreamSystemEvents events ctx since until isFlusher =
  (encodedEvents isFlusher pre, service.Returned err).
Proof.
  intros E H. unfold service.StreamSystemEvents. cbv zeta. rewrite E.
  now rewrite streamLoop_events.
Qed.

Lemma StreamSystemEvents_done events since until isFlusher pre rest :
  events {| types.Since := service.eventsOption since;
            types.Until := service.eventsOption until |}
    = (pre ++ client.CtxDone :: rest)%list ->
  onlyEvents pre ->
  service.StreamSystemEvents events client.Cancellable since until isFlusher =
  (encodedEvents isFlusher pre, service.Returned None).
Proof.
  intros E H. unfold service.StreamSystemEvents. cbv zeta. rewrite E.
  now rewrite streamLoop_events.
Qed.

Lemma lostClient_onlyEvents : onlyEvents lostClient.
Proof. repeat constructor; eauto. Qed.

(** C6: the loop of [StreamSystemEvents] returns what the error channel
    yields and returns nil when its context is done, after encoding and
    flushing every event received before.  A failed write does not end
    it: as long as only events arrive the loop encodes each of them and
    waits again, whatever the writes returned, while the loop of
    [HandleWebSocket] logs the first failed write and returns. *)
Theorem StreamSystemEvents_write_failure :
  (forall events ctx since until isFlusher,
     let received := events {| types.Since := service.eventsOption since;
                               types.Until := service.eventsOption until |} in
     onlyEvents received ->
     service.StreamSystemEvents events ctx since until isFlusher =
     (encodedEvents isFlusher received, service.Blocked)) /\
  (forall events ctx since until isFlusher pre err rest,
     events {| types.Since := service.eventsOption since;
               types.Until := service.eventsOption until |}
       = (pre ++ client.RecvErr err :: rest)%list ->
     onlyEvents pre ->
     service.StreamSystemEvents events ctx since until isFlusher =
     (encodedEvents isFlusher pre, service.Returned err)) /\
  (forall events since until isFlusher pre rest,
     events {| types.Since := service.eventsOption since;
               types.Until := service.eventsOption until |}
       = (pre ++ client.CtxDone :: rest)%list ->
     onlyEvents pre ->
     service.StreamSystemEvents events client.Cancellable since until isFlusher =
     (encodedEvents isFlusher pre, service.Returned None)) /\
  (forall event err rest done,
     api.webSocketLoop (client.RecvEvent event (Some err) :: rest) done =
     ((done ++ [service.LogPrintln "WebSocket write error:" err])%list,
      service.Returned tt)) /\
  snd (service.StreamSystemEvents lostClientEvents client.Cancellable "" ""
         true) = service.Blocked /\
  List.length (fst (service.StreamSystemEvents lostClientEvents
                      client.Cancellable "" "" true)) = 4%nat /\
  snd (api.GetSystemEvents lostClientEvents "" "" true) = service.Blocked /\
  api.HandleWebSocket None lostClientEvents =
    ([service.LogPrintln "WebSocket write error:" "write: broken pipe"],
     service.Returned tt).
Proof.
  split; [exact StreamSystemEvents_blocked|].
  split; [exact StreamSystemEvents_errs|].
  split; [exact StreamSystemEvents_done|].
  split; [reflexivity|].
  unfold api.GetSystemEvents.
  rewrite (StreamSystemEvents_blocked lostClientEvents client.Cancellable
             "" "" true lostClient_onlyEvents).
  rewrite (StreamSystemEvents_blocked lostClientEvents client.Background
             "" "" true lostClient_onlyEvents).
  repeat split.
Qed.

Lemma StreamSystemEvents_write_failure_witness :
  service.StreamSystemEvents lostClientEvents client.Background "" "" false =
  (encodedEvents false lostClient, service.Blocked).
Proof.
  exact (proj1 StreamSystemEvents_write_failure lostClientEvents
           client.Background "" "" false lostClient_onlyEvents).
Defined.

(* ----------------------------------------------------------------- *)
(** ** Failing requests *)

Ltac find_failure :=
  repeat match goal with
         | H : Some _ = Some _ |- _ => injection H as ->
         | H : None = Some _ |- _ => discriminate H
         | H : Some _ = None |- _ => discriminate H
         | H : context [errorOf ?x] |- _ =>
             let E := fresh "E" in destruct x eqn:E; simpl in H
         end.

Ltac use_answers :=
  repeat match goal with
         | E : ?x = _ |- context [?x] => rewrite E
         end.

(** a command that failed, as its caller sees it *)
Lemma outputError_checked o e :
  outputError o = Some e ->
  exists c, o = exec.Returns c /\ exec.checked c = Err e.
Proof.
  destruct o as [c|]; simpl; [|discriminate].
  intros H. exists c. split; [reflexivity|].
  unfold exec.checked. now rewrite H.
Qed.


Lemma runError_returns o e :
  runError o = Some e -> o = exec.Returns (Some e).
Proof. destruct o as [[e'|]|]; simpl; congruence. Qed.

Lemma logsCommand_spelled name lines follow :
  api.logsCommand name lines follow =
  (["journalctl"; "-u"; name; "--no-pager"; "-n"; orDefault lines "100"]
   ++ (if String.eqb follow "true" then ["-f"] else [])
   ++ ["--output=short"])%list.
Proof.
  unfold api.logsCommand, orDefault. cbv zeta.
  destruct (String.eqb follow "true"); reflexivity.
Qed.

(** the answer of every route one of whose checked calls fails *)
Lemma ServeHTTP_failure w r e :
  failure w r = Some e ->
  router.ServeHTTP w r =
  http.Responds
    (http.Error (failurePrefix r ++ e) http.StatusInternalServerError).
Proof.
  intros H. destruct r; simpl in H; unfold orDefault in H;
    simpl router.ServeHTTP; simpl failurePrefix.
  - find_failure; unfold api.GetDockerInfo, service.GetDockerInfo;
      use_answers; reflexivity.
  - find_failure; unfold api.GetContainers; use_answers; reflexivity.
  - find_failure. unfold api.GetContainerDetail, service.GetContainerDetail.
    use_answers. reflexivity.
  - unfold api.StartContainer, service.StartContainer. now rewrite H.
  - unfold api.StopContainer, service.StopContainer. cbv zeta. now rewrite H.
  - unfold api.RestartContainer, service.RestartContainer. cbv zeta.
    now rewrite H.
  - find_failure. unfold api.GetContainerLogs. cbv zeta. use_answers.
    reflexivity.
  - find_failure; unfold api.GetImages; use_answers; reflexivity.
  - find_failure; unfold api.GetNetworks; use_answers; reflexivity.
  - find_failure; unfold api.GetVolumes; use_answers; reflexivity.
  - find_failure; unfold api.GetSystemStats, service.GetSystemStats;
      use_answers; reflexivity.
  - discriminate H.
  - apply outputError_checked in H as (c & Hc & He).
    unfold api.GetSystemdServices, service.runGetSystemdServices,
      service.listUnitsCommand.
    rewrite Hc, He. reflexivity.
  - apply outputError_checked in H as (c & Hc & He).
    unfold api.GetSystemdServiceDetail, service.runGetSystemdServiceDetail,
      service.statusCommand.
    rewrite Hc, He. reflexivity.
  - apply runError_returns in H.
    unfold api.StartSystemdService, api.serviceAction. now rewrite H.
  - apply runError_returns in H.
    unfold api.StopSystemdService, api.serviceAction. now rewrite H.
  - apply runError_returns in H.
    unfold api.RestartSystemdService, api.serviceAction. now rewrite H.
  - apply runError_returns in H.
    unfold api.EnableSystemdService, api.serviceAction. now rewrite H.
  - apply runError_returns in H.
    unfold api.DisableSystemdService, api.serviceAction. now rewrite H.
  - apply outputError_checked in H as (c & Hc & He).
    unfold api.GetSystemdServiceLogs.
    rewrite logsCommand_spelled. unfold orDefault. cbn [app].
    rewrite Hc, He. reflexivity.
Qed.

(** the container detail when the stats call fails *)
Lemma GetContainerDetail_stats_dropped d id c e :
  client.ContainerInspect d id = Ok c ->
  client.ContainerStats d id = Err e ->
  api.GetContainerDetail d id =
  http.writeJSON
    (http.EncContainerDetail
       {| models.Container := c; models.Stats := None |}).
Proof.
  intros HI HS.
  unfold api.GetContainerDetail, service.GetContainerDetail.
  rewrite HI. cbv zeta. destruct (types.StateRunning c); [|reflexivity].
  now rewrite HS.
Qed.

(** the service detail once [systemctl status] has succeeded and the
    three commands have returned: what [GetSystemdServiceDetail] makes of
    the three outputs, the errors of the last two not being looked at *)
Lemma ServeHTTP_service_detail w name status show journal :
  exec.Output (router.shell w) (service.statusCommand name)
    = exec.Returns status ->
  exec.Failure status = None ->
  exec.Output (router.shell w) (service.showCommand name)
    = exec.Returns show ->
  exec.Output (router.shell w) (service.journalCommand name)
    = exec.Returns journal ->
  router.ServeHTTP w (router.GET_service name) =
  match service.GetSystemdServiceDetail name
          (Ok (exec.text (exec.Stdout status))) (exec.checked show)
          (exec.Stdout journal) with
  | service.Panic msg => http.Panics msg
  | service.Return (Ok detail) =>
      http.Responds (http.writeJSON (http.EncServiceDetail detail))
  | service.Return (Err err) =>
      http.Responds
        (http.Error ("Failed to get service detail: " ++ err)
           http.StatusInternalServerError)
  end.
Proof.
  intros H1 F1 H2 H3.
  simpl router.ServeHTTP.
  unfold api.GetSystemdServiceDetail, service.runGetSystemdServiceDetail.
  assert (E : exec.checked status = Ok (exec.text (exec.Stdout status)))
    by (unfold exec.checked; now rewrite F1).
  rewrite H1. cbv zeta. rewrite E.
  unfold service.GetSystemdServiceDetail.
  destruct (service.statusLines _ _) as [s|]; [|reflexivity].
  rewrite H2, H3. reflexivity.
Qed.

(** C8 (as amended): for every request to a request/response route one
    of whose Docker calls or subprocesses fails, among those whose error
    the handler looks at, the handler answers with status 500 and a
    plain-text body holding the text of the error followed by a line
    feed, after "Failed to <action>: " on the systemd routes and with
    nothing in front on the Docker routes; there is no structured error
    code.  Three calls are not looked at, and their failure leaves the
    answer at 200: the stats call of the container detail, whose stats
    are then left out, and [systemctl show] and [journalctl] of the
    service detail, which is then what [GetSystemdServiceDetail] makes of
    the status output alone.  The process goes on serving whatever the
    requests come to: none of them makes it exit. *)
Theorem failing_request_answered_500 :
  (forall (w : router.World) (r : router.Route) (e : error),
     failure w r = Some e ->
     exists resp,
       router.ServeHTTP w r = http.Responds resp /\
       http.Status resp = http.StatusInternalServerError /\
       http.ContentType resp = Some "text/plain; charset=utf-8" /\
       http.Payload resp =
         http.Text (failurePrefix r ++ e ++ String strings.lf "")) /\
  (forall (w : router.World) (id : string) (c : types.ContainerJSON)
          (e : error),
     client.ContainerInspect (router.docker w) id = Ok c ->
     types.StateRunning c = true ->
     client.ContainerStats (router.docker w) id = Err e ->
     exists resp,
       router.ServeHTTP w (router.GET_container id) = http.Responds resp /\
       http.Status resp = http.StatusOK /\
       http.Payload resp =
         http.JSON
           (http.EncContainerDetail
              {| models.Container := c; models.Stats := None |})) /\
  (forall (w : router.World) (name : string)
          (status show journal : exec.Captured)
          (detail : models.SystemdServiceDetail),
     exec.Output (router.shell w) (service.statusCommand name)
       = exec.Returns status ->
     exec.Failure status = None ->
     exec.Output (router.shell w) (service.showCommand name)
       = exec.Returns show ->
     exec.Output (router.shell w) (service.journalCommand name)
       = exec.Returns journal ->
     exec.Failure show <> None \/ exec.Failure journal <> None ->
     service.GetSystemdServiceDetail name
       (Ok (exec.text (exec.Stdout status))) (exec.checked show)
       (exec.Stdout journal) = service.Return (Ok detail) ->
     exists resp,
       router.ServeHTTP w (router.GET_service name) = http.Responds resp /\
       http.Status resp = http.StatusOK /\
       http.Payload resp = http.JSON (http.EncServiceDetail detail)) /\
  (forall (requests : list (router.World * router.Route)),
     router.main None None requests =
     (map (fun '(w, r) => router.ServeHTTP w r) requests, router.Serving)).
Proof.
  split; [|split; [|split]].
  - intros w r e H. rewrite (ServeHTTP_failure w r e H).
    eexists. split; [reflexivity|].
    unfold http.Error. simpl. rewrite append_assoc.
    repeat apply conj; reflexivity.
  - intros w id c e HI _ HS. simpl router.ServeHTTP.
    rewrite (GetContainerDetail_stats_dropped _ _ _ _ HI HS).
    eexists. repeat apply conj; reflexivity.
  - intros w name status show journal detail H1 F1 H2 H3 _ HD.
    rewrite (ServeHTTP_service_detail w name status show journal H1 F1 H2 H3).
    rewrite HD. eexists. repeat apply conj; reflexivity.
  - intros requests. reflexivity.
Qed.

Lemma failing_request_answered_500_witness :
  (exists resp,
     router.ServeHTTP noSystemd router.GET_services = http.Responds resp /\
     http.Status resp = 500 /\
     http.Payload resp =
       http.Text ("Failed to get services: exit status 1"
                  ++ String strings.lf "")) /\
  (exists resp,
     router.ServeHTTP noSystemd (router.GET_container "nope")
       = http.Responds resp /\
     http.Payload resp =
       http.Text ("Error: No such container: nope" ++ String strings.lf "")) /\
  (exists resp,
     router.ServeHTTP noSystemd (router.GET_container "c1")
       = http.Responds resp /\
     http.Status resp = 200) /\
  (exists resp,
     router.ServeHTTP (statusOnly sshStatus) (router.GET_service "ssh")
       = http.Responds resp /\
     http.Status resp = 200).
Proof.
  destruct failing_request_answered_500 as (H500 & Hstats & Hdetail & _).
  split; [|split; [|split]].
  - destruct (H500 noSystemd router.GET_services "exit status 1" eq_refl)
      as (resp & H1 & H2 & _ & H3).
    exists resp. repeat apply conj; assumption.
  - destruct (H500 noSystemd (router.GET_container "nope")
                "Error: No such container: nope" eq_refl)
      as (resp & H1 & _ & _ & H3).
    exists resp. split; assumption.
  - destruct (Hstats noSystemd "c1" _ "context deadline exceeded"
                eq_refl eq_refl eq_refl) as (resp & H1 & H2 & _).
    exists resp. split; assumption.
  - assert (HF : exec.Failure exitStatus1 <> None \/
                 exec.Failure exitStatus1 <> None) by (left; discriminate).
    destruct (Hdetail (statusOnly sshStatus) "ssh" (prints sshStatus)
                exitStatus1 exitStatus1 _ eq_refl eq_refl eq_refl eq_refl
                HF eq_refl) as (resp & H1 & H2 & _).
    exists resp. split; assumption.
Defined.

(** C8, as the specification words it: a failing call is not always
    answered 500, and the body of a 500 is not always the text of the
    error.  When [systemctl list-units] fails with "exit status 1" the
    handler puts "Failed to get services: " in front of that text; when
    the stats call of a running container fails the answer is 200. *)
Lemma failure_body_not_raw :
  ~ (forall (w : router.World) (r : router.Route) (e : error)
            (resp : http.Response),
       failure w r = Some e ->
       router.ServeHTTP w r = http.Responds resp ->
       http.Status resp = http.StatusInternalServerError /\
       http.Payload resp = http.Text e) /\
  ~ (forall (w : router.World) (id : string) (c : types.ContainerJSON)
            (e : error) (resp : http.Response),
       client.ContainerInspect (router.docker w) id = Ok c ->
       types.StateRunning c = true ->
       client.ContainerStats (router.docker w) id = Err e ->
       router.ServeHTTP w (router.GET_container id) = http.Responds resp ->
       http.Status resp = http.StatusInternalServerError).
Proof.
  split.
  - intros H.
    destruct (H noSystemd router.GET_services "exit status 1" _
                eq_refl eq_refl) as [_ Hbody].
    vm_compute in Hbody. discriminate Hbody.
  - intros H.
    specialize (H noSystemd "c1" _ "context deadline exceeded" _
                  eq_refl eq_refl eq_refl eq_refl).
    vm_compute in H. discriminate H.
Qed.

(* ----------------------------------------------------------------- *)
(** ** The cooldown gate of the event dispatcher *)

Ltac split_ifs :=
  repeat match goal with
         | |- context [if ?c then _ else _] => destruct c
         end.

(** the refresh calls of an event that passes are never the skip
    message *)
Lemma smartRefresh_gate this e now :
  DockerManager.smartRefresh this e now =
  if now - DockerManager.lastRefreshTime this
     <? DockerManager.refreshCooldown this
  then (this, [DockerManager.ConsoleLog "Refresh skipped due to cooldown"])
  else (DockerManager.setLastRefreshTime this now,
        snd (DockerManager.smartRefresh this e now)) .
Proof.
  unfold DockerManager.smartRefresh.
  destruct (_ <? _); reflexivity.
Qed.

Lemma smartRefresh_pass_not_skipped this e now :
  (now - DockerManager.lastRefreshTime this
   <? DockerManager.refreshCooldown this) = false ->
  skipped (snd (DockerManager.smartRefresh this e now)) = false.
Proof.
  intros H. unfold DockerManager.smartRefresh. rewrite H. simpl snd.
  unfold DockerManager.handleContainerEvent,
    DockerManager.refreshDashboardStats.
  cbv zeta. split_ifs; reflexivity.
Qed.

Lemma skipped_app a b : skipped (a ++ b) = skipped a || skipped b.
Proof. unfold skipped. apply existsb_app. Qed.

(** one event off the events tab: counted, then dropped or passed on the
    difference between the clock and [lastRefreshTime] alone *)
Lemma handleDockerEvent_gate hasCounter this a :
  DockerManager.tab a <> "events" ->
  qualifying (DockerManager.event a) = true ->
  let r := DockerManager.handleDockerEvent hasCounter
             (DockerManager.onTab this (DockerManager.tab a))
             (DockerManager.event a) (DockerManager.clock a) in
  DockerManager.refreshCooldown (fst r) = DockerManager.refreshCooldown this /\
  DockerManager.eventCount (fst r) = DockerManager.eventCount this + 1 /\
  if DockerManager.clock a - DockerManager.lastRefreshTime this
     <? DockerManager.refreshCooldown this
  then skipped (snd r) = true /\
       refreshCalls (snd r) = [] /\
       DockerManager.lastRefreshTime (fst r) =
       DockerManager.lastRefreshTime this
  else skipped (snd r) = false /\
       DockerManager.lastRefreshTime (fst r) = DockerManager.clock a.
Proof.
  intros Htab Hq. cbv zeta.
  unfold DockerManager.handleDockerEvent. cbv zeta.
  simpl DockerManager.currentTab.
  assert (Et : String.eqb (DockerManager.tab a) "events" = false)
    by now apply String.eqb_neq.
  rewrite Et. unfold qualifying in Hq. rewrite Hq. simpl negb. simpl andb.
  cbv iota.
  set (this1 := {| DockerManager.currentTab := DockerManager.tab a;
                   DockerManager.eventCount := _;
                   DockerManager.lastRefreshTime := _;
                   DockerManager.refreshCooldown := _ |}).
  destruct (DockerManager.smartRefresh this1 (DockerManager.event a)
              (DockerManager.clock a)) as [this2 refreshed] eqn:E.
  rewrite smartRefresh_gate in E. simpl fst. simpl snd.
  change (DockerManager.lastRefreshTime this1)
    with (DockerManager.lastRefreshTime this) in E.
  change (DockerManager.refreshCooldown this1)
    with (DockerManager.refreshCooldown this) in E.
  destruct (_ <? _) eqn:G.
  - injection E as <- <-. repeat apply conj; try reflexivity.
    + rewrite !skipped_app. simpl. apply orb_true_r.
    + now destruct hasCounter.
  - injection E as <- <-. repeat apply conj; try reflexivity.
    rewrite !skipped_app.
    rewrite (smartRefresh_pass_not_skipped this1 _ _ G).
    now destruct hasCounter.
Qed.

(** the dispatcher's gate against the gate of the specification *)
Lemma handleAll_gate hasCounter arrivals : forall this last,
  DockerManager.refreshCooldown this = 5000 ->
  DockerManager.lastRefreshTime this = stamp last ->
  Forall offEventsTab arrivals ->
  map skipped (snd (DockerManager.handleAll hasCounter this arrivals)) =
  gateDrops last (map DockerManager.clock arrivals).
Proof.
  induction arrivals as [|a rest IH]; intros this last Hc Hl HF;
    [reflexivity|].
  inversion HF as [|? ? (Htab & Hq & Hclock) HF']; subst.
  simpl DockerManager.handleAll.
  pose proof (handleDockerEvent_gate hasCounter this a Htab Hq) as HG.
  cbv zeta in HG.
  destruct (DockerManager.handleDockerEvent hasCounter
              (DockerManager.onTab this (DockerManager.tab a))
              (DockerManager.event a) (DockerManager.clock a))
    as [this1 effects].
  simpl fst in HG. simpl snd in HG. destruct HG as (Hc1 & _ & HG).
  rewrite Hc, Hl in HG. rewrite Hc in Hc1.
  destruct (DockerManager.handleAll hasCounter this1 rest)
    as [this2 more] eqn:E.
  simpl snd. simpl map.
  destruct last as [l|]; simpl stamp in HG; simpl gateDrops.
  - destruct (DockerManager.clock a - l <? 5000).
    + destruct HG as (-> & _ & Hl1). f_equal.
      specialize (IH this1 (Some l) Hc1 Hl1 HF'). now rewrite E in IH.
    + destruct HG as [-> Hl1]. f_equal.
      specialize (IH this1 (Some (DockerManager.clock a)) Hc1 Hl1 HF').
      now rewrite E in IH.
  - destruct (Z.ltb_spec (DockerManager.clock a - 0) 5000) as [Hlt|_];
      [lia|].
    destruct HG as [-> Hl1]. f_equal.
    specialize (IH this1 (Some (DockerManager.clock a)) Hc1 Hl1 HF').
    now rewrite E in IH.
Qed.

(** an event dropped at the gate re-fetches nothing *)
Lemma handleAll_dropped_quiet hasCounter arrivals : forall this,
  Forall offEventsTab arrivals ->
  Forall (fun effects => skipped effects = true -> refreshCalls effects = [])
    (snd (DockerManager.handleAll hasCounter this arrivals)).
Proof.
  induction arrivals as [|a rest IH]; intros this HF; [constructor|].
  inversion HF as [|? ? (Htab & Hq & Hclock) HF']; subst.
  simpl DockerManager.handleAll.
  pose proof (handleDockerEvent_gate hasCounter this a Htab Hq) as HG.
  cbv zeta in HG.
  destruct (DockerManager.handleDockerEvent hasCounter
              (DockerManager.onTab this (DockerManager.tab a))
              (DockerManager.event a) (DockerManager.clock a))
    as [this1 effects].
  simpl fst in HG. simpl snd in HG. destruct HG as (_ & _ & HG).
  specialize (IH this1 HF').
  destruct (DockerManager.handleAll hasCounter this1 rest) as [this2 more].
  simpl snd in *. constructor; [|exact IH].
  destruct (_ <? _).
  - intros _. apply HG.
  - destruct HG as [-> _]. discriminate.
Qed.

(** an event that passes the gate makes one refresh call when it bears
    on what the tab shows, and none otherwise *)
Lemma smartRefresh_calls this e now :
  (now - DockerManager.lastRefreshTime this
   <? DockerManager.refreshCooldown this) = false ->
  refreshCount (snd (DockerManager.smartRefresh this e now)) =
  if reloads {| DockerManager.tab := DockerManager.currentTab this;
                DockerManager.event := e;
                DockerManager.clock := now |}
  then 1%nat else 0%nat.
Proof.
  intros H. unfold DockerManager.smartRefresh. rewrite H.
  destruct this as [t n l c]. destruct e as [type action].
  unfold reloads, refreshCount, DockerManager.handleContainerEvent,
    DockerManager.refreshDashboardStats.
  cbn [snd DockerManager.tab DockerManager.event DockerManager.Type_
       DockerManager.Action DockerManager.currentTab].
  destruct (String.eqb type "container").
  { destruct (DockerManager.includes _ action); [|reflexivity].
    destruct (String.eqb_spec t "containers") as [->|_]; [reflexivity|].
    destruct (String.eqb t "dashboard"); reflexivity. }
  destruct (String.eqb type "image").
  { destruct (String.eqb_spec t "images") as [->|_].
    - destruct (DockerManager.includes _ action); reflexivity.
    - destruct (DockerManager.includes _ action); [|reflexivity].
      destruct (String.eqb t "dashboard"); reflexivity. }
  destruct (String.eqb type "network").
  { destruct (String.eqb t "networks"); reflexivity. }
  destruct (String.eqb type "volume"); [|reflexivity].
  destruct (String.eqb t "volumes"); reflexivity.
Qed.

(** the refresh calls of one event off the events tab *)
Lemma handleDockerEvent_calls hasCounter this a :
  DockerManager.tab a <> "events" ->
  qualifying (DockerManager.event a) = true ->
  let r := DockerManager.handleDockerEvent hasCounter
             (DockerManager.onTab this (DockerManager.tab a))
             (DockerManager.event a) (DockerManager.clock a) in
  refreshCount (snd r) =
  if skipped (snd r) then 0%nat
  else if reloads a then 1%nat else 0%nat.
Proof.
  intros Htab Hq.
  pose proof (handleDockerEvent_gate hasCounter this a Htab Hq) as HG.
  cbv zeta in HG |- *. destruct HG as (_ & _ & HG).
  destruct (_ <? _) eqn:G in HG.
  - destruct HG as (-> & HR & _). unfold refreshCount. now rewrite HR.
  - destruct HG as [-> _].
    unfold DockerManager.handleDockerEvent. cbv zeta.
    simpl DockerManager.currentTab.
    assert (Et : String.eqb (DockerManager.tab a) "events" = false)
      by now apply String.eqb_neq.
    rewrite Et. unfold qualifying in Hq. rewrite Hq. simpl negb.
    simpl andb. cbv iota.
    set (this1 := {| DockerManager.currentTab := DockerManager.tab a;
                     DockerManager.eventCount := _;
                     DockerManager.lastRefreshTime := _;
                     DockerManager.refreshCooldown := _ |}).
    pose proof (smartRefresh_calls this1 (DockerManager.event a)
                  (DockerManager.clock a) G) as HC.
    destruct (DockerManager.smartRefresh this1 (DockerManager.event a)
                (DockerManager.clock a)) as [this2 refreshed].
    simpl snd in *. unfold refreshCount in *.
    unfold refreshCalls. rewrite !filter_app.
    fold (refreshCalls refreshed). simpl (filter _ []).
    fold (refreshCalls
            (if hasCounter
             then [DockerManager.SetEventsCountText
                     (DockerManager.eventCount this + 1)]
             else [])).
    assert (E : forall n,
               refreshCalls
                 (if hasCounter
                  then [DockerManager.SetEventsCountText n]
                  else []) = []) by (intros n; now destruct hasCounter).
    rewrite E. simpl app. rewrite HC.
    now destruct a.
Qed.

(** the refresh calls of a session, event by event *)
Lemma handleAll_calls hasCounter arrivals : forall this,
  Forall offEventsTab arrivals ->
  Forall2 (fun a effects =>
             refreshCount effects =
             if skipped effects then 0%nat
             else if reloads a then 1%nat else 0%nat)
    arrivals (snd (DockerManager.handleAll hasCounter this arrivals)).
Proof.
  induction arrivals as [|a rest IH]; intros this HF; [constructor|].
  inversion HF as [|? ? (Htab & Hq & Hclock) HF']; subst.
  simpl DockerManager.handleAll.
  pose proof (handleDockerEvent_calls hasCounter this a Htab Hq) as HC.
  cbv zeta in HC.
  destruct (DockerManager.handleDockerEvent hasCounter
              (DockerManager.onTab this (DockerManager.tab a))
              (DockerManager.event a) (DockerManager.clock a))
    as [this1 effects].
  simpl snd in HC. specialize (IH this1 HF').
  destruct (DockerManager.handleAll hasCounter this1 rest) as [this2 more].
  simpl snd in *. now constructor.
Qed.

(** C7 (as amended): for every sequence of qualifying events handled off
    the events tab, with clocks past the first five seconds of 1970, the
    dispatcher drops an event exactly when the gate of the specification
    does: when it comes less than 5000 ms after the last event that
    passed.  A dropped event makes no refresh call; an event that passes
    makes one refresh call when it bears on what the tab shows, and none
    otherwise.  So of two events one second apart the second makes no
    call and the first makes one only if it bears on the tab, and a third
    event six seconds after the first passes the gate again and makes
    one call on the same condition; on the dashboard, with container
    starts, the calls are the fetches of the system stats. *)
Theorem cooldown_gate :
  forall (hasCounter : bool) (arrivals : list DockerManager.Arrival),
    Forall offEventsTab arrivals ->
    let handled :=
      snd (DockerManager.handleAll hasCounter DockerManager.constructor
             arrivals) in
    map skipped handled = gateDrops None (map DockerManager.clock arrivals) /\
    Forall (fun effects => skipped effects = true -> refreshCalls effects = [])
      handled /\
    Forall2 (fun a effects =>
               refreshCount effects =
               if skipped effects then 0%nat
               else if reloads a then 1%nat else 0%nat)
      arrivals handled /\
    (forall a1 a2,
       arrivals = [a1; a2] ->
       DockerManager.clock a2 = DockerManager.clock a1 + 1000 ->
       map skipped handled = [false; true] /\
       map refreshCount handled = [if reloads a1 then 1%nat else 0%nat;
                                   0%nat] /\
       totalRefreshCount handled = if reloads a1 then 1%nat else 0%nat) /\
    (forall a1 a2 a3,
       arrivals = [a1; a2; a3] ->
       DockerManager.clock a2 = DockerManager.clock a1 + 1000 ->
       DockerManager.clock a3 = DockerManager.clock a1 + 6000 ->
       map skipped handled = [false; true; false] /\
       map refreshCount handled = [if reloads a1 then 1%nat else 0%nat;
                                   0%nat;
                                   if reloads a3 then 1%nat else 0%nat]) /\
    (forall t,
       arrivals = [arrivalAt t; arrivalAt (t + 1000); arrivalAt (t + 6000)] ->
       map refreshCalls handled =
       [[DockerManager.FetchSystemStats]; [];
        [DockerManager.FetchSystemStats]]).
Proof.
  intros hasCounter arrivals HF handled.
  assert (HG : map skipped handled =
               gateDrops None (map DockerManager.clock arrivals))
    by (apply handleAll_gate; [reflexivity | reflexivity | exact HF]).
  assert (HC := handleAll_calls hasCounter arrivals DockerManager.constructor
                  HF).
  fold handled in HC.
  split; [exact HG|].
  split; [now apply handleAll_dropped_quiet|].
  split; [exact HC|]. split; [|split].
  - intros a1 a2 E H2. rewrite E in HG, HC. simpl in HG. rewrite H2 in HG.
    destruct (Z.ltb_spec (DockerManager.clock a1 + 1000
                          - DockerManager.clock a1) 5000); [|lia].
    split; [exact HG|].
    destruct handled as [|e1 [|e2 [|e3 rest]]]; try discriminate HG.
    injection HG as G1 G2.
    inversion HC as [|? ? ? ? C1 HC1]; subst.
    inversion HC1 as [|? ? ? ? C2 _]; subst.
    rewrite G1 in C1. rewrite G2 in C2.
    unfold totalRefreshCount. unfold refreshCount in *. simpl.
    rewrite app_nil_r, length_app, C1, C2. split; [reflexivity|].
    now destruct (reloads a1).
  - intros a1 a2 a3 E H2 H3. rewrite E in HG, HC. simpl in HG.
    rewrite H2, H3 in HG.
    destruct (Z.ltb_spec (DockerManager.clock a1 + 1000
                          - DockerManager.clock a1) 5000); [|lia].
    destruct (Z.ltb_spec (DockerManager.clock a1 + 6000
                          - DockerManager.clock a1) 5000); [lia|].
    split; [exact HG|].
    destruct handled as [|e1 [|e2 [|e3 [|e4 rest]]]]; try discriminate HG.
    injection HG as G1 G2 G3.
    inversion HC as [|? ? ? ? C1 HC1]; subst.
    inversion HC1 as [|? ? ? ? C2 HC2]; subst.
    inversion HC2 as [|? ? ? ? C3 _]; subst.
    rewrite G1 in C1. rewrite G2 in C2. rewrite G3 in C3.
    simpl. now rewrite C1, C2, C3.
  - intros t ->. subst handled.
    inversion HF as [|? ? (_ & _ & Ht) _]; subst. simpl in Ht.
    unfold DockerManager.handleAll, DockerManager.handleDockerEvent,
      DockerManager.smartRefresh, DockerManager.constructor, arrivalAt.
    simpl.
    destruct (Z.ltb_spec (t - 0) 5000); [lia|]. simpl.
    destruct (Z.ltb_spec (t + 1000 - t) 5000); [|lia]. simpl.
    destruct (Z.ltb_spec (t + 6000 - t) 5000); [lia|]. simpl.
    now destruct hasCounter.
Qed.

Lemma cooldown_gate_witness :
  map skipped
    (snd (DockerManager.handleAll true DockerManager.constructor
            [arrivalAt 1700000000000; arrivalAt 1700000001000;
             arrivalAt 1700000006000])) = [false; true; false] /\
  map refreshCount
    (snd (DockerManager.handleAll true DockerManager.constructor
            [arrivalAt 1700000000000; arrivalAt 1700000001000;
             arrivalAt 1700000006000])) = [1%nat; 0%nat; 1%nat].
Proof.
  assert (HF : Forall offEventsTab
                 [arrivalAt 1700000000000; arrivalAt 1700000001000;
                  arrivalAt 1700000006000]).
  { repeat constructor; try discriminate; simpl; lia. }
  destruct (cooldown_gate true _ HF) as (_ & _ & _ & _ & H3 & _).
  exact (H3 _ _ _ eq_refl eq_refl eq_refl).
Defined.

(** C7, as the specification words it: two qualifying events one second
    apart do not always make exactly one refresh call.  A network
    connecting, seen from the dashboard, passes the gate and re-fetches
    nothing; the container that starts a second later is dropped at the
    gate: no refresh call at all. *)
Lemma cooldown_pass_without_refresh :
  ~ (forall (hasCounter : bool) (a1 a2 : DockerManager.Arrival),
       offEventsTab a1 -> offEventsTab a2 ->
       DockerManager.clock a2 = DockerManager.clock a1 + 1000 ->
       totalRefreshCount
         (snd (DockerManager.handleAll hasCounter DockerManager.constructor
                 [a1; a2])) = 1%nat).
Proof.
  intros H.
  specialize (H true (connectAt 1700000000000) (arrivalAt 1700000001000)).
  assert (H1 : offEventsTab (connectAt 1700000000000))
    by (repeat split; try discriminate; simpl; lia).
  assert (H2 : offEventsTab (arrivalAt 1700000001000))
    by (repeat split; try discriminate; simpl; lia).
  specialize (H H1 H2 eq_refl).
  vm_compute in H. discriminate H.
Qed.

(* ================================================================= *)
(** * Further properties *)

(** ** Decimal round trip *)

Lemma parseDigits_string_of_uint u : forall acc,
  strconv.parseDigits acc (NilEmpty.string_of_uint u) = Some (uintValue acc u).
Proof.
  induction u; intros acc; simpl; try reflexivity; apply IHu.
Qed.

Lemma uintValue_acc u : forall p : positive,
  uintValue (Z.pos p) u = Z.pos (Pos.of_uint_acc u p).
Proof.
  induction u; intros p; cbn [uintValue Pos.of_uint_acc];
    try reflexivity; rewrite <- IHu; f_equal; lia.
Qed.

Lemma uintValue_of_uint u : uintValue 0 u = Z.of_N (Pos.of_uint u).
Proof.
  induction u; cbn [uintValue Pos.of_uint]; try reflexivity;
    try exact IHu; cbn [Z.of_N]; rewrite <- uintValue_acc; reflexivity.
Qed.

Lemma string_of_uint_nonempty u :
  u <> Decimal.Nil -> NilEmpty.string_of_uint u <> "".
Proof. destruct u; simpl; congruence. Qed.

Lemma parseUnsigned_to_uint (n : N) :
  strconv.parseUnsigned (NilEmpty.string_of_uint (N.to_uint n)) =
  Some (Z.of_N n).
Proof.
  assert (Hn : N.to_uint n <> Decimal.Nil).
  { destruct n; simpl; [discriminate|].
    apply DecimalPos.Unsigned.to_uint_nonnil. }
  unfold strconv.parseUnsigned.
  destruct (NilEmpty.string_of_uint (N.to_uint n)) eqn:E.
  - now apply string_of_uint_nonempty in E.
  - rewrite <- E, parseDigits_string_of_uint, uintValue_of_uint.
    f_equal. f_equal. apply DecimalN.Unsigned.of_to.
Qed.

Lemma ParseInt_digits u :
  u <> Decimal.Nil ->
  strconv.ParseInt (NilEmpty.string_of_uint u) =
  match strconv.parseUnsigned (NilEmpty.string_of_uint u) with
  | Some v => if (minInt64 <=? v) && (v <=? maxInt64) then Some v else None
  | None => None
  end.
Proof. destruct u; [congruence | reflexivity ..]. Qed.

Lemma inInt64_check v :
  inInt64 v -> (minInt64 <=? v) && (v <=? maxInt64) = true.
Proof.
  intros [H1 H2]. apply andb_true_iff. split; now apply Z.leb_le.
Qed.

Lemma ParseInt_range s v : strconv.ParseInt s = Some v -> inInt64 v.
Proof.
  unfold strconv.ParseInt. cbv zeta.
  destruct (match s with
            | String "+"%char r => strconv.parseUnsigned r
            | String "-"%char r => option_map Z.opp (strconv.parseUnsigned r)
            | _ => strconv.parseUnsigned s
            end) as [w|]; [|discriminate].
  destruct ((minInt64 <=? w) && (w <=? maxInt64)) eqn:E; [|discriminate].
  intros [= <-]. apply andb_true_iff in E as [H1 H2].
  split; now apply Z.leb_le.
Qed.

(** what [FormatInt] prints, [ParseInt] reads back *)
Lemma ParseInt_FormatInt i :
  inInt64 i -> strconv.ParseInt (strconv.FormatInt i) = Some i.
Proof.
  intros Hi. unfold strconv.FormatInt. destruct i as [|p|p].
  - reflexivity.
  - cbn [Z.to_int NilEmpty.string_of_int].
    rewrite ParseInt_digits by apply DecimalPos.Unsigned.to_uint_nonnil.
    change (Pos.to_uint p) with (N.to_uint (N.pos p)).
    rewrite parseUnsigned_to_uint. cbn [Z.of_N].
    now rewrite inInt64_check.
  - cbn [Z.to_int NilEmpty.string_of_int].
    change (strconv.ParseInt
              (String "-" (NilEmpty.string_of_uint (Pos.to_uint p))))
      with (match option_map Z.opp
                    (strconv.parseUnsigned
                       (NilEmpty.string_of_uint (N.to_uint (N.pos p)))) with
            | Some v =>
                if (minInt64 <=? v) && (v <=? maxInt64) then Some v else None
            | None => None
            end).
    rewrite parseUnsigned_to_uint. cbn [option_map Z.of_N Z.opp].
    now rewrite inInt64_check.
Qed.

(** X1: a [since] or [until] parameter reaches the daemon only when it
    parses as a 64-bit integer, and then in canonical decimal form, which
    parses back to the same timestamp; anything else is replaced by the
    empty option.  Normalising twice changes nothing. *)
Theorem eventsOption_canonical :
  forall v : string,
    (forall ts, strconv.ParseInt v = Some ts ->
       service.eventsOption v = strconv.FormatInt ts /\
       strconv.ParseInt (service.eventsOption v) = Some ts) /\
    (strconv.ParseInt v = None -> service.eventsOption v = "") /\
    service.eventsOption (service.eventsOption v) = service.eventsOption v.
Proof.
  intros v.
  assert (H1 : forall ts, strconv.ParseInt v = Some ts ->
             service.eventsOption v = strconv.FormatInt ts /\
             strconv.ParseInt (service.eventsOption v) = Some ts).
  { intros ts H. unfold service.eventsOption.
    destruct (String.eqb v "") eqn:E.
    - apply String.eqb_eq in E. subst v. discriminate H.
    - rewrite H. split; [reflexivity|].
      apply ParseInt_FormatInt. eapply ParseInt_range; eauto. }
  assert (H2 : strconv.ParseInt v = None -> service.eventsOption v = "").
  { intros H. unfold service.eventsOption. rewrite H.
    now destruct (String.eqb v ""). }
  split; [exact H1|]. split; [exact H2|].
  destruct (strconv.ParseInt v) as [ts|] eqn:E.
  - destruct (H1 ts eq_refl) as [Hf Hp].
    unfold service.eventsOption at 1. rewrite Hp.
    destruct (String.eqb (service.eventsOption v) "") eqn:E0.
    + apply String.eqb_eq in E0. rewrite E0 in Hp. discriminate Hp.
    + now rewrite Hf.
  - now rewrite (H2 eq_refl).
Qed.

Lemma eventsOption_canonical_witness :
  service.eventsOption "+0042" = "42" /\
  service.eventsOption "yesterday" = "".
Proof.
  split.
  - exact (proj1 (proj1 (eventsOption_canonical "+0042") 42 eq_refl)).
  - exact (proj1 (proj2 (eventsOption_canonical "yesterday")) eq_refl).
Defined.


(* ----------------------------------------------------------------- *)
(** ** Uptime *)

Lemma append_nonempty_r (a b : string) : b <> "" -> a ++ b <> "".
Proof. destruct a; simpl; [auto | discriminate]. Qed.

Lemma formatUptime_nonempty s : service.formatUptime s <> "".
Proof.
  unfold service.formatUptime. cbv zeta.
  destruct (_ >? 0); [|destruct (_ >? 0)];
    repeat (apply append_nonempty_r); discriminate.
Qed.

(** X2: for a non-negative number of seconds, [formatUptime] prints the
    days, hours (below 24) and minutes (below 60) whose total is the
    uptime rounded down to the minute, leaving out the days when there
    are none and then the hours when there are none; a negative number of
    seconds prints minutes only. *)
Theorem formatUptime_rounds_down :
  forall seconds : Z,
    (0 <= seconds ->
     exists d h m,
       0 <= d /\ 0 <= h < 24 /\ 0 <= m < 60 /\
       0 <= seconds - (d * 86400 + h * 3600 + m * 60) < 60 /\
       service.formatUptime seconds = uptimeText d h m) /\
    (seconds < 0 ->
     service.formatUptime seconds =
     strconv.FormatInt (Z.quot (Z.rem seconds 3600) 60) ++ "m").
Proof.
  intros s. split.
  - intros Hs.
    exists (Z.quot s 86400), (Z.quot (Z.rem s 86400) 3600),
      (Z.quot (Z.rem s 3600) 60).
    repeat apply conj; try reflexivity;
      Z.to_euclidean_division_equations; lia.
  - intros Hs. unfold service.formatUptime. cbv zeta.
    destruct (Z.gtb_spec (Z.quot s 86400) 0) as [H|_];
      [Z.to_euclidean_division_equations; lia|].
    destruct (Z.gtb_spec (Z.quot (Z.rem s 86400) 3600) 0) as [H|_];
      [Z.to_euclidean_division_equations; lia|].
    reflexivity.
Qed.

Lemma formatUptime_rounds_down_witness :
  (exists d h m,
     0 <= d /\ 0 <= h < 24 /\ 0 <= m < 60 /\
     0 <= 93784 - (d * 86400 + h * 3600 + m * 60) < 60 /\
     service.formatUptime 93784 = uptimeText d h m) /\
  service.formatUptime (-61) = "-1m".
Proof.
  split.
  - apply (proj1 (formatUptime_rounds_down 93784)). lia.
  - apply (proj2 (formatUptime_rounds_down (-61))). lia.
Defined.


(** X3: in every snapshot the uptime text and the uptime seconds go
    together: when the text is empty the seconds are 0, otherwise the
    text is the seconds as [formatUptime] prints them; an unreadable
    [/proc/uptime] leaves the text empty. *)
Theorem GetHostSystemInfo_uptime_consistent :
  forall P : platform.Platform,
    let h := fst (service.GetHostSystemInfo P) in
    (models.Uptime h = "" -> models.UptimeSeconds h = 0) /\
    (models.Uptime h <> "" ->
     models.Uptime h = service.formatUptime (models.UptimeSeconds h)) /\
    (unreadable P "/proc/uptime" -> models.Uptime h = "").
Proof.
  intros P h.
  destruct (GetHostSystemInfo_groups P) as (GU & _). fold h in GU.
  unfold uptimeFields in GU. injection GU as HU HS. rewrite HU, HS.
  unfold service.readUptime, unreadable.
  destruct (platform.ReadFile P "/proc/uptime") as [data|e].
  - cbv zeta.
    destruct (strings.Split (strings.TrimSpace data) strings.sp) as [|p0 r];
      [|destruct (platform.ParseFloat P p0) as [f|]]; simpl.
    + split; [reflexivity|]. split; [congruence|]. reflexivity.
    + split; [intros H; now apply formatUptime_nonempty in H|].
      split; [reflexivity|]. intros [e He]. discriminate He.
    + split; [reflexivity|]. split; [congruence|]. reflexivity.
  - simpl. split; [reflexivity|]. split; [congruence|]. reflexivity.
Qed.

Lemma GetHostSystemInfo_uptime_consistent_witness :
  models.Uptime (fst (service.GetHostSystemInfo (netTcpOnly ""))) = "" /\
  models.Uptime (fst (service.GetHostSystemInfo noNetTcp)) =
    service.formatUptime
      (models.UptimeSeconds (fst (service.GetHostSystemInfo noNetTcp))).
Proof.
  split.
  - apply (proj2 (proj2 (GetHostSystemInfo_uptime_consistent (netTcpOnly "")))).
    eexists. reflexivity.
  - apply (proj1 (proj2 (GetHostSystemInfo_uptime_consistent noNetTcp))).
    vm_compute. discriminate.
Defined.


(* ----------------------------------------------------------------- *)
(** ** Memory lines *)

Lemma wrap64_inInt64 z : inInt64 (wrap64 z).
Proof.
  unfold inInt64, wrap64, minInt64, maxInt64.
  pose proof (Z.mod_pos_bound (z + 2 ^ 63) (2 ^ 64)). lia.
Qed.

Lemma sub64_0_r z : inInt64 z -> sub64 z 0 = z.
Proof. intros H. unfold sub64. rewrite Z.sub_0_r. now apply wrap64_small. Qed.

Lemma memLine_MemoryTotal h line :
  models.MemoryTotal (service.memLine h line) =
  if isMemTotal line then
    match meminfoValue line with
    | Some v => mul64 v 1024
    | None => models.MemoryTotal h
    end
  else models.MemoryTotal h.
Proof.
  unfold service.memLine, isMemTotal, meminfoValue.
  destruct (strings.HasPrefix line "MemTotal:").
  - destruct (strings.Fields line) as [|f0 [|f1 r]]; try reflexivity.
    now destruct (strconv.ParseInt f1).
  - frame_block.
Qed.

Lemma memLine_MemoryAvailable h line :
  models.MemoryAvailable (service.memLine h line) =
  if isMemAvailable line then
    match meminfoValue line with
    | Some v => mul64 v 1024
    | None => models.MemoryAvailable h
    end
  else models.MemoryAvailable h.
Proof.
  destruct (isMemAvailable line) eqn:Ea.
  - destruct (meminfoValue line) as [v|] eqn:Ev.
    + now rewrite (memLine_available h line v Ea Ev).
    + unfold service.memLine. unfold isMemAvailable in Ea.
      unfold meminfoValue in Ev. rewrite Ea.
      destruct (strings.HasPrefix line "MemTotal:") eqn:Et.
      * apply MemTotal_not_MemAvailable in Et.
        unfold isMemAvailable in Et. congruence.
      * destruct (strings.Fields line) as [|f0 [|f1 r]]; try reflexivity.
        now rewrite Ev.
  - unfold service.memLine. unfold isMemAvailable in Ea. rewrite Ea.
    frame_block.
Qed.

Lemma lastCarried_None isKey lines : forall cur,
  lastCarried isKey lines cur = None -> cur = None.
Proof.
  induction lines as [|x ls IH]; intros c Hc; simpl in Hc; [exact Hc|].
  apply IH in Hc. destruct (isKey x); [|exact Hc].
  destruct (meminfoValue x); [discriminate Hc | exact Hc].
Qed.

Lemma fold_memLine_lastCarried lines : forall h ct ca,
  models.MemoryTotal h = match ct with
                         | Some k => mul64 k 1024
                         | None => models.MemoryTotal h
                         end ->
  models.MemoryAvailable h = match ca with
                             | Some k => mul64 k 1024
                             | None => models.MemoryAvailable h
                             end ->
  let h' := fold_left service.memLine lines h in
  models.MemoryTotal h' =
    match lastCarried isMemTotal lines ct with
    | Some k => mul64 k 1024
    | None => models.MemoryTotal h
    end /\
  models.MemoryAvailable h' =
    match lastCarried isMemAvailable lines ca with
    | Some k => mul64 k 1024
    | None => models.MemoryAvailable h
    end.
Proof.
  induction lines as [|l lines IH]; intros h ct ca Ht Ha; cbv zeta.
  - simpl. destruct ct, ca; auto.
  - simpl fold_left. simpl lastCarried.
    set (ct' := if isMemTotal l then
                  match meminfoValue l with Some v => Some v | None => ct end
                else ct).
    set (ca' := if isMemAvailable l then
                  match meminfoValue l with Some v => Some v | None => ca end
                else ca).
    assert (Ht' : models.MemoryTotal (service.memLine h l) =
                  match ct' with
                  | Some k => mul64 k 1024
                  | None => models.MemoryTotal (service.memLine h l)
                  end).
    { rewrite memLine_MemoryTotal. subst ct'.
      destruct (isMemTotal l); [destruct (meminfoValue l)|];
        try reflexivity; destruct ct; auto. }
    assert (Ha' : models.MemoryAvailable (service.memLine h l) =
                  match ca' with
                  | Some k => mul64 k 1024
                  | None => models.MemoryAvailable (service.memLine h l)
                  end).
    { rewrite memLine_MemoryAvailable. subst ca'.
      destruct (isMemAvailable l); [destruct (meminfoValue l)|];
        try reflexivity; destruct ca; auto. }
    destruct (IH (service.memLine h l) ct' ca' Ht' Ha') as [IT IA].
    cbv zeta in IT, IA. rewrite IT, IA. split.
    + destruct (lastCarried isMemTotal lines ct') eqn:E; [reflexivity|].
      rewrite memLine_MemoryTotal. subst ct'.
      destruct (isMemTotal l); [|reflexivity].
      destruct (meminfoValue l) as [v|]; [|reflexivity].
      apply lastCarried_None in E. discriminate E.
    + destruct (lastCarried isMemAvailable lines ca') eqn:E; [reflexivity|].
      rewrite memLine_MemoryAvailable. subst ca'.
      destruct (isMemAvailable l); [|reflexivity].
      destruct (meminfoValue l) as [v|]; [|reflexivity].
      apply lastCarried_None in E. discriminate E.
Qed.

Lemma lastCarried_absent isKey lines : forall cur,
  existsb isKey lines = false -> lastCarried isKey lines cur = cur.
Proof.
  induction lines as [|l lines IH]; intros cur H; [reflexivity|].
  simpl in H. apply orb_false_iff in H as [Hl Hr]. simpl. rewrite Hl.
  now apply IH.
Qed.

Lemma kilobytes_inInt64 v : inInt64 (kilobytes v).
Proof.
  destruct v; simpl; [apply wrap64_inInt64|].
  unfold inInt64, minInt64, maxInt64. lia.
Qed.

(** X4: whatever text a readable [/proc/meminfo] holds, MemoryTotal and
    MemoryAvailable are 1024 times the value of the last MemTotal and
    MemAvailable line whose second field parses as an integer (lines
    whose value does not parse are passed over), 0 when there is no such
    line, and MemoryUsed is their difference.  A file without a
    MemAvailable line reports all memory as used; a file without a
    MemTotal line reports a total of 0 and a percentage of 0. *)
Theorem GetHostSystemInfo_meminfo_lines :
  forall (P : platform.Platform) (data : string),
    platform.ReadFile P "/proc/meminfo" = Ok data ->
    strings.isASCII data = true ->
    let lines := bufio.ScanLines data in
    let h := fst (service.GetHostSystemInfo P) in
    models.MemoryTotal h = kilobytes (lastCarried isMemTotal lines None) /\
    models.MemoryAvailable h =
      kilobytes (lastCarried isMemAvailable lines None) /\
    models.MemoryUsed h =
      sub64 (models.MemoryTotal h) (models.MemoryAvailable h) /\
    (existsb isMemAvailable lines = false ->
       models.MemoryAvailable h = 0 /\
       models.MemoryUsed h = models.MemoryTotal h) /\
    (existsb isMemTotal lines = false ->
       models.MemoryTotal h = 0 /\ models.MemoryUsedPct h = 0%float).
Proof.
  intros P data Hd _ lines h.
  destruct (GetHostSystemInfo_groups P) as (_ & _ & GM & _). fold h in GM.
  unfold service.readMeminfo in GM. rewrite Hd in GM. cbv zeta in GM.
  fold lines in GM.
  destruct (fold_memLine_lastCarried lines models.zeroHostSystemInfo
              None None eq_refl eq_refl) as [HT HA].
  cbv zeta in HT, HA.
  set (h1 := fold_left service.memLine lines models.zeroHostSystemInfo) in *.
  assert (HT' : models.MemoryTotal h1 =
                kilobytes (lastCarried isMemTotal lines None))
    by (rewrite HT; now destruct (lastCarried isMemTotal lines None)).
  assert (HA' : models.MemoryAvailable h1 =
                kilobytes (lastCarried isMemAvailable lines None))
    by (rewrite HA; now destruct (lastCarried isMemAvailable lines None)).
  assert (HP : models.MemoryUsedPct h1 = 0%float)
    by (subst h1; now rewrite fold_memLine_pct).
  simpl models.MemoryTotal in GM.
  assert (G : models.MemoryTotal h = models.MemoryTotal h1 /\
              models.MemoryAvailable h = models.MemoryAvailable h1 /\
              models.MemoryUsed h =
                sub64 (models.MemoryTotal h1) (models.MemoryAvailable h1) /\
              (models.MemoryTotal h1 = 0 -> models.MemoryUsedPct h = 0%float)).
  { destruct (models.MemoryTotal h1 >? 0) eqn:E;
      unfold memFields in GM; simpl in GM; injection GM as G1 G2 G3 G4;
      repeat split; try assumption.
    - intros H0. rewrite H0 in E. discriminate E.
    - intros _. now rewrite G4. }
  destruct G as (G1 & G2 & G3 & G4).
  rewrite G1, G2, G3, HT', HA'. repeat apply conj; try reflexivity.
  - intros H. rewrite (lastCarried_absent _ _ _ H). simpl kilobytes.
    split; [reflexivity|]. apply sub64_0_r, kilobytes_inInt64.
  - intros H. rewrite (lastCarried_absent _ _ _ H). simpl kilobytes.
    split; [reflexivity|]. apply G4. rewrite HT'.
    now rewrite (lastCarried_absent _ _ _ H).
Qed.

Lemma GetHostSystemInfo_meminfo_lines_witness :
  let h := fst (service.GetHostSystemInfo
                  (meminfoOnly ("MemTotal: 2048 kB" ++ String strings.lf
                                "MemTotal: lots kB"))) in
  models.MemoryTotal h = 2097152 /\
  models.MemoryAvailable h = 0 /\
  models.MemoryUsed h = 2097152.
Proof.
  destruct (GetHostSystemInfo_meminfo_lines
              (meminfoOnly ("MemTotal: 2048 kB" ++ String strings.lf
                            "MemTotal: lots kB")) _ eq_refl eq_refl)
    as (HT & _ & _ & HA & _).
  destruct (HA eq_refl) as [HA0 HU].
  cbv zeta. rewrite HU, HA0, HT. vm_compute. repeat split; reflexivity.
Defined.

(* ----------------------------------------------------------------- *)
(** ** Connection count *)

Lemma Split_line l rest :
  noLF l = true ->
  strings.Split (l ++ String strings.lf rest) strings.lf =
  l :: strings.Split rest strings.lf.
Proof.
  induction l as [|c l IH]; intros H.
  - reflexivity.
  - simpl in H. apply andb_true_iff in H as [Hc Hl].
    apply negb_true_iff in Hc.
    change ((String c l) ++ String strings.lf rest)
      with (String c (l ++ String strings.lf rest)).
    cbn [strings.Split]. rewrite Hc, (IH Hl). reflexivity.
Qed.

Lemma Split_noLF l :
  noLF l = true -> strings.Split l strings.lf = [l].
Proof.
  induction l as [|c l IH]; intros H; [reflexivity|].
  simpl in H. apply andb_true_iff in H as [Hc Hl].
  apply negb_true_iff in Hc. cbn [strings.Split]. now rewrite Hc, (IH Hl).
Qed.

Lemma Split_unlines ls :
  Forall (fun l => noLF l = true) ls ->
  strings.Split (unlines ls) strings.lf = (ls ++ [""])%list.
Proof.
  induction 1 as [|l ls Hl HF IH]; [reflexivity|].
  cbn [unlines]. rewrite (Split_line _ _ Hl), IH. reflexivity.
Qed.

Lemma Split_Join_lines l ls :
  Forall (fun l => noLF l = true) (l :: ls) ->
  strings.Split (strings.Join (l :: ls) (String strings.lf "")) strings.lf
  = l :: ls.
Proof.
  revert l. induction ls as [|l' ls IH]; intros l H.
  - inversion H; subst. now apply Split_noLF.
  - inversion H as [|? ? Hl HF]; subst.
    unfold strings.Join. rewrite concat_cons2.
    fold (strings.Join (l' :: ls) (String strings.lf "")).
    change (l ++ String strings.lf "" ++ strings.Join (l' :: ls) (String strings.lf ""))
      with (l ++ String strings.lf (strings.Join (l' :: ls) (String strings.lf ""))).
    rewrite (Split_line _ _ Hl), (IH l' HF). reflexivity.
Qed.

(** X5: for a readable [/proc/net/tcp] made of a header line and entry
    lines, NetworkConnections is the number of entries when every line,
    the last one included, ends with a line feed; when the last line has
    no line feed the count is one short (and 0 for a lone header). *)
Theorem GetHostSystemInfo_connections :
  forall (P : platform.Platform) (header : string) (entries : list string),
    Forall (fun l => noLF l = true) (header :: entries) ->
    len entries <= maxInt64 ->
    let h := fst (service.GetHostSystemInfo P) in
    (platform.ReadFile P "/proc/net/tcp" = Ok (unlines (header :: entries)) ->
     models.NetworkConnections h = len entries) /\
    (platform.ReadFile P "/proc/net/tcp" =
       Ok (strings.Join (header :: entries) (String strings.lf "")) ->
     models.NetworkConnections h = Z.max 0 (len entries - 1)).
Proof.
  intros P header entries HF Hlen h.
  pose proof (Zle_0_nat (List.length entries)) as H0. fold (len entries) in H0.
  unfold maxInt64 in Hlen.
  destruct (GetHostSystemInfo_groups P) as (_ & _ & _ & HN & _).
  fold h in HN. unfold netFields, service.readNetTcp in HN.
  split; intros Hd; rewrite HN, Hd; cbv zeta;
    cbn [models.NetworkConnections models.setNetworkConnections].
  - rewrite (Split_unlines _ HF). unfold len. rewrite length_app.
    simpl List.length. unfold sub64. rewrite wrap64_small.
    + destruct (_ <? 0) eqn:E;
        cbn [models.NetworkConnections models.setNetworkConnections];
        [apply Z.ltb_lt in E | ]; unfold len in *; lia.
    + unfold inInt64, minInt64, maxInt64, len in *. lia.
  - rewrite (Split_Join_lines _ _ HF). unfold len. simpl List.length.
    unfold sub64. rewrite wrap64_small.
    + destruct (_ <? 0) eqn:E;
        cbn [models.NetworkConnections models.setNetworkConnections];
        [apply Z.ltb_lt in E | apply Z.ltb_ge in E]; unfold len in *; lia.
    + unfold inInt64, minInt64, maxInt64, len in *. lia.
Qed.

Lemma GetHostSystemInfo_connections_witness :
  models.NetworkConnections
    (fst (service.GetHostSystemInfo
            (netTcpOnly (unlines ["sl local rem"; " 0: a b"; " 1: c d"])))) = 2 /\
  models.NetworkConnections
    (fst (service.GetHostSystemInfo
            (netTcpOnly (strings.Join ["sl local rem"; " 0: a b"; " 1: c d"]
                           (String strings.lf ""))))) = 1.
Proof.
  split.
  - refine (proj1 (GetHostSystemInfo_connections
             (netTcpOnly (unlines ["sl local rem"; " 0: a b"; " 1: c d"]))
             "sl local rem" [" 0: a b"; " 1: c d"] _ _) eq_refl).
    + repeat constructor.
    + vm_compute. discriminate.
  - refine (proj2 (GetHostSystemInfo_connections
             (netTcpOnly (strings.Join ["sl local rem"; " 0: a b"; " 1: c d"]
                            (String strings.lf "")))
             "sl local rem" [" 0: a b"; " 1: c d"] _ _) eq_refl).
    + repeat constructor.
    + vm_compute. discriminate.
Defined.

(* ----------------------------------------------------------------- *)
(** ** The unit listing *)

Lemma append_length (a b : string) :
  String.length (a ++ b) = (String.length a + String.length b)%nat.
Proof. induction a; simpl; congruence. Qed.

Lemma eqb_longer_false c p suf :
  String.eqb (String c (p ++ suf)) suf = false.
Proof.
  apply String.eqb_neq. intros H.
  apply (f_equal String.length) in H. simpl in H.
  rewrite append_length in H. lia.
Qed.

Lemma TrimSuffix_app p suf : strings.TrimSuffix (p ++ suf) suf = p.
Proof.
  induction p as [|c p IH].
  - simpl. destruct suf; simpl; [reflexivity|].
    now rewrite Ascii.eqb_refl, String.eqb_refl.
  - change (String c p ++ suf) with (String c (p ++ suf)).
    cbn [strings.TrimSuffix]. now rewrite eqb_longer_false, IH.
Qed.

Lemma TrimSuffix_none s suf :
  ~ endsWith s suf -> strings.TrimSuffix s suf = s.
Proof.
  induction s as [|c s IH]; intros H.
  - now destruct suf.
  - cbn [strings.TrimSuffix].
    destruct (String.eqb (String c s) suf) eqn:E.
    + apply String.eqb_eq in E. exfalso. apply H. now exists "".
    + rewrite IH; [reflexivity|]. intros [p ->]. apply H.
      now exists (String c p).
Qed.

Lemma endsWith_dec s suf : endsWith s suf \/ ~ endsWith s suf.
Proof.
  induction s as [|c s IH].
  - destruct suf as [|d suf]; [left; now exists ""|].
    right. intros [p H]. destruct p; discriminate H.
  - destruct (String.eqb (String c s) suf) eqn:E.
    + apply String.eqb_eq in E. left. now exists "".
    + apply String.eqb_neq in E. destruct IH as [[p ->]|H].
      * left. now exists (String c p).
      * right. intros [p Hp]. destruct p as [|d p].
        -- apply E. exact Hp.
        -- injection Hp as _ Hp. apply H. now exists p.
Qed.

(** a name is its unit without one trailing [suffix] *)
Lemma TrimSuffix_cases s suf :
  s = strings.TrimSuffix s suf ++ suf \/
  (strings.TrimSuffix s suf = s /\ ~ endsWith s suf).
Proof.
  destruct (endsWith_dec s suf) as [[p ->]|H].
  - left. now rewrite TrimSuffix_app.
  - right. split; [now apply TrimSuffix_none | exact H].
Qed.

Lemma hasUnitColumns_Fields l :
  hasUnitColumns l =
  match strings.Fields l with
  | _ :: _ :: _ :: _ :: _ => true
  | _ => false
  end.
Proof.
  unfold hasUnitColumns, len.
  destruct (strings.Fields l) as [|f0 [|f1 [|f2 [|f3 rest]]]];
    try reflexivity.
  apply Z.leb_le. simpl List.length. lia.
Qed.

Lemma parseUnits_count lines :
  List.length (service.parseUnits lines) =
  List.length (filter hasUnitColumns lines).
Proof.
  induction lines as [|l lines IH]; [reflexivity|].
  cbn [service.parseUnits filter].
  rewrite parseUnitLine_Fields, hasUnitColumns_Fields.
  destruct (strings.Fields l) as [|f0 [|f1 [|f2 [|f3 rest]]]];
    try exact IH.
  simpl List.length. now rewrite IH.
Qed.

Lemma parseUnits_records lines :
  Forall unitRecord (service.parseUnits lines).
Proof.
  induction lines as [|l lines IH]; [constructor|].
  simpl. rewrite parseUnitLine_Fields.
  pose proof (Fields_words l) as HW.
  destruct (strings.Fields l) as [|f0 [|f1 [|f2 [|f3 rest]]]];
    try exact IH.
  constructor; [|exact IH].
  inversion HW as [|? ? H0 HW1]; subst.
  inversion HW1 as [|? ? H1 HW2]; subst.
  inversion HW2 as [|? ? H2 HW3]; subst.
  inversion HW3 as [|? ? H3 _]; subst.
  unfold unitRecord. simpl. repeat apply conj; try assumption;
    try reflexivity; try apply H0; try apply H1; try apply H2; try apply H3.
  apply TrimSuffix_cases.
Qed.

(** X6: when [systemctl list-units] succeeds, the listing holds one
    record for each scanned line of at least four fields and nothing for
    the other lines.  In every record the unit and the three states are
    non-empty and free of white space, the name is the unit without one
    trailing ".service" (the unit itself when it does not end so), and
    the type, main PID, memory and tasks are empty. *)
Theorem GetSystemdServices_units :
  forall (Slice : forall A : Type, (A -> A -> bool) -> list A -> list A)
         (output : string),
    sort.SliceContract Slice ->
    strings.isASCII output = true ->
    exists services,
      service.GetSystemdServices Slice (Ok output) = Ok services /\
      Permutation (service.parseUnits (bufio.ScanLines output)) services /\
      List.length services =
        List.length (filter hasUnitColumns (bufio.ScanLines output)) /\
      Forall unitRecord services.
Proof.
  intros Slice output HS _.
  exists (service.sortServices Slice
            (service.parseUnits (bufio.ScanLines output))).
  pose proof (sortServices_perm Slice HS
                (service.parseUnits (bufio.ScanLines output))) as HP.
  split; [reflexivity|]. split; [exact HP|]. split.
  - rewrite <- (Permutation_length HP). apply parseUnits_count.
  - eapply Permutation_Forall; [exact HP | apply parseUnits_records].
Qed.

Lemma GetSystemdServices_units_witness :
  exists services,
    service.GetSystemdServices sort.insertionSort
      (Ok ("ssh.service loaded active running OpenBSD Secure Shell server"
           ++ String strings.lf
           ("short line" ++ String strings.lf
            "cron.service.service loaded inactive dead")))
    = Ok services /\
    List.length services = 2%nat /\
    Forall unitRecord services.
Proof.
  destruct (GetSystemdServices_units sort.insertionSort
              ("ssh.service loaded active running OpenBSD Secure Shell server"
               ++ String strings.lf
               ("short line" ++ String strings.lf
                "cron.service.service loaded inactive dead"))
              insertionSort_contract eq_refl)
    as (services & H1 & _ & H2 & H3).
  exists services. repeat apply conj; assumption.
Defined.

(* ----------------------------------------------------------------- *)
(** ** The detail of a service *)

Lemma fieldsFrom_nil s : forall cur,
  strings.fieldsFrom cur s = [] <-> cur = "" /\ isBlank s = true.
Proof.
  induction s as [|c s IH]; intros cur.
  - simpl. destruct cur; split; try tauto; try discriminate.
    intros [H _]. discriminate H.
  - rewrite fieldsFrom_cons. cbn [isBlank].
    destruct (strings.asciiSpace c).
    + destruct cur.
      * rewrite IH. simpl. tauto.
      * split; [discriminate|]. intros [H _]. discriminate H.
    + rewrite IH. simpl. split; [|intros [_ H]; discriminate H].
      intros [H _]. destruct cur; discriminate H.
Qed.

Lemma Fields_nil s : strings.Fields s = [] <-> isBlank s = true.
Proof. unfold strings.Fields. rewrite fieldsFrom_nil. tauto. Qed.

Lemma statusLine_panics s line :
  service.statusLine s line = None <-> panicLine line = true.
Proof.
  unfold service.statusLine, panicLine. cbv zeta.
  destruct (strings.Contains (strings.TrimSpace line) "Loaded:").
  - simpl andb.
    destruct (strings.Split (strings.TrimSpace line) ";") as [|p0 ps] eqn:E.
    + destruct (strings.TrimSpace line); simpl in E;
        [discriminate E|].
      destruct (Ascii.eqb _ _); [discriminate E|].
      destruct (strings.Split _ _); discriminate E.
    + simpl hd. rewrite Fields_TrimSpace.
      destruct (strings.Fields (strings.TrimPrefix p0 "Loaded:")) eqn:F.
      * apply Fields_nil in F. rewrite F. tauto.
      * split; [discriminate|]. intros H. apply Fields_nil in H.
        rewrite H in F. discriminate F.
  - simpl andb. split; [|discriminate].
    destruct (strings.Contains _ "Active:").
    + destruct (strings.Fields _) as [|a0 [|a1 r]]; discriminate.
    + destruct (strings.Contains _ "Main PID:"); [|discriminate].
      destruct (service.mainPID _); discriminate.
Qed.

Lemma statusLines_panics lines : forall s,
  service.statusLines s lines = None <-> existsb panicLine lines = true.
Proof.
  induction lines as [|l lines IH]; intros s; simpl.
  - split; discriminate.
  - destruct (service.statusLine s l) as [s'|] eqn:E.
    + rewrite IH. destruct (panicLine l) eqn:P; [|simpl; tauto].
      apply (statusLine_panics s) in P. rewrite P in E. discriminate E.
    + apply statusLine_panics in E. rewrite E. simpl. tauto.
Qed.

Lemma statusLine_frame s line s' :
  service.statusLine s line = Some s' -> unreadFields s' = unreadFields s.
Proof.
  unfold service.statusLine. cbv zeta.
  repeat match goal with
         | |- context [match ?x with _ => _ end] => destruct x
         | |- context [if ?x then _ else _] => destruct x
         end; intros [= <-]; reflexivity.
Qed.

Lemma statusLines_frame lines : forall s s',
  service.statusLines s lines = Some s' -> unreadFields s' = unreadFields s.
Proof.
  induction lines as [|l lines IH]; intros s s'; simpl.
  - now intros [= <-].
  - destruct (service.statusLine s l) as [s1|] eqn:E; [|discriminate].
    intros H. rewrite (IH _ _ H). now apply (statusLine_frame s l).
Qed.

(** X7: [GetSystemdServiceDetail] returns an error only for a failed
    status command, and then that error.  When it returns a detail (the
    status text being ASCII), the status of the detail is the command's
    output as it came, the name is the requested one and the unit is
    empty; a failed [systemctl show] leaves the properties empty and with
    them the description, type, memory and tasks, and a journal without
    output leaves the logs empty. *)
Theorem GetSystemdServiceDetail_failures :
  forall (name : string) (showOutput : result string)
         (logsOutput : option string),
    (forall e,
       service.GetSystemdServiceDetail name (Err e) showOutput logsOutput
       = service.Return (Err e)) /\
    (forall statusStr r,
       strings.isASCII statusStr = true ->
       service.GetSystemdServiceDetail name (Ok statusStr) showOutput
         logsOutput = service.Return r ->
       exists detail,
         r = Ok detail /\
         models.Status detail = statusStr /\
         models.Name (models.Service detail) = name /\
         models.Unit (models.Service detail) = "" /\
         ((exists e, showOutput = Err e) ->
          models.Props detail = [] /\
          shownFields (models.Service detail) = ("", "", "", "")) /\
         (logsOutput = None -> models.Logs detail = [])).
Proof.
  intros name showOutput logsOutput. split; [reflexivity|].
  intros statusStr r _. unfold service.GetSystemdServiceDetail. cbv zeta.
  destruct (service.statusLines _ _) as [s|] eqn:E; [|discriminate].
  apply statusLines_frame in E.
  change (unreadFields (models.namedService name))
    with (name, "", ("", "", "", "")) in E.
  unfold unreadFields in E. injection E as HN HU HS.
  destruct showOutput as [out|e].
  - intros [= <-]. eexists. split; [reflexivity|]. simpl.
    repeat apply conj; try reflexivity.
    + unfold service.extractProperties. cbv zeta.
      repeat match goal with
             | |- context [match ?x with _ => _ end] => destruct x
             end; exact HN.
    + unfold service.extractProperties. cbv zeta.
      repeat match goal with
             | |- context [match ?x with _ => _ end] => destruct x
             end; exact HU.
    + intros [e He]. discriminate He.
    + now intros ->.
  - intros [= <-]. eexists. split; [reflexivity|]. simpl.
    repeat apply conj; try reflexivity; try assumption.
    + intros _. split; [reflexivity | unfold shownFields; congruence].
    + now intros ->.
Qed.

Lemma GetSystemdServiceDetail_failures_witness :
  exists detail,
    service.GetSystemdServiceDetail "ssh" (Ok "Active: active (running)")
      (Err "exit status 1") None = service.Return (Ok detail) /\
    models.Name (models.Service detail) = "ssh" /\
    models.Props detail = [] /\ models.Logs detail = [].
Proof.
  destruct (proj2 (GetSystemdServiceDetail_failures "ssh"
                     (Err "exit status 1") None)
              "Active: active (running)" _ eq_refl eq_refl)
    as (detail & E & _ & HN & _ & HS & HL).
  exists detail. injection E as <-.
  repeat apply conj; [reflexivity | exact HN | | exact (HL eq_refl)].
  apply HS. eexists. reflexivity.
Defined.


Lemma TrimLeftSpace_blank a s :
  isBlank a = true ->
  strings.TrimLeftSpace (a ++ s) = strings.TrimLeftSpace s.
Proof.
  induction a as [|c a IH]; intros H; [reflexivity|].
  simpl in H. apply andb_true_iff in H as [Hc Ha].
  simpl. now rewrite Hc, IH.
Qed.

Lemma TrimRightSpace_blank b :
  isBlank b = true -> strings.TrimRightSpace b = "".
Proof.
  induction b as [|c b IH]; intros H; [reflexivity|].
  simpl in H. apply andb_true_iff in H as [Hc Hb].
  rewrite TrimRightSpace_cons, (IH Hb), Hc. reflexivity.
Qed.

Lemma TrimRightSpace_app_blank w b :
  isBlank b = true ->
  strings.TrimRightSpace (w ++ b) = strings.TrimRightSpace w.
Proof.
  intros H. induction w as [|c w IH].
  - now apply TrimRightSpace_blank.
  - change (String c w ++ b) with (String c (w ++ b)).
    now rewrite !TrimRightSpace_cons, IH.
Qed.

Lemma panicLine_bare indent trail :
  isBlank indent = true -> isBlank trail = true ->
  panicLine (indent ++ "Loaded:" ++ trail) = true.
Proof.
  intros Hi Ht.
  assert (E : strings.TrimSpace (indent ++ "Loaded:" ++ trail) = "Loaded:").
  { unfold strings.TrimSpace. rewrite (TrimLeftSpace_blank _ _ Hi).
    change (strings.TrimLeftSpace ("Loaded:" ++ trail))
      with ("Loaded:" ++ trail).
    now rewrite (TrimRightSpace_app_blank _ _ Ht). }
  unfold panicLine. cbv zeta. rewrite E. reflexivity.
Qed.

Lemma Split_nonempty s sep : strings.Split s sep <> [].
Proof.
  destruct s as [|c s]; simpl; [discriminate|].
  destruct (Ascii.eqb c sep); [discriminate|].
  destruct (strings.Split s sep); discriminate.
Qed.

Lemma Split_app a b sep :
  strings.Split (a ++ String sep b) sep =
  (strings.Split a sep ++ strings.Split b sep)%list.
Proof.
  induction a as [|c a IH].
  - simpl. now rewrite Ascii.eqb_refl.
  - change (String c a ++ String sep b) with (String c (a ++ String sep b)).
    cbn [strings.Split]. rewrite IH.
    destruct (Ascii.eqb c sep); [reflexivity|].
    pose proof (Split_nonempty a sep) as HN.
    destruct (strings.Split a sep); [contradiction | reflexivity].
Qed.

(** X8: with a status command that succeeded, [GetSystemdServiceDetail]
    panics (index out of range) exactly when some line of the status
    holds "Loaded:" and, up to its first ";", is blank once a leading
    "Loaded:" is taken off; otherwise it returns.  A line that is just
    "Loaded:" between blanks is such a line, wherever it stands below the
    first line. *)
Theorem GetSystemdServiceDetail_panics :
  forall (name statusStr : string) (showOutput : result string)
         (logsOutput : option string),
    strings.isASCII statusStr = true ->
    let call := service.GetSystemdServiceDetail name (Ok statusStr)
                  showOutput logsOutput in
    (call = service.Panic "runtime error: index out of range [0] with length 0"
     <-> existsb panicLine (strings.Split statusStr strings.lf) = true) /\
    ((exists detail, call = service.Return (Ok detail))
     <-> existsb panicLine (strings.Split statusStr strings.lf) = false) /\
    (forall before indent trail after,
       isBlank indent = true -> isBlank trail = true ->
       noLF (indent ++ "Loaded:" ++ trail) = true ->
       statusStr =
         before ++ String strings.lf
           ((indent ++ "Loaded:" ++ trail) ++ String strings.lf after) ->
       call = service.Panic
                "runtime error: index out of range [0] with length 0").
Proof.
  intros name statusStr showOutput logsOutput _ call.
  assert (H1 : call = service.Panic
                 "runtime error: index out of range [0] with length 0"
               <-> existsb panicLine (strings.Split statusStr strings.lf)
                   = true).
  { subst call. unfold service.GetSystemdServiceDetail. cbv zeta.
    rewrite <- (statusLines_panics _ (models.namedService name)).
    destruct (service.statusLines _ _) as [s|].
    - destruct showOutput; split; discriminate.
    - tauto. }
  split; [exact H1|]. split.
  - subst call. unfold service.GetSystemdServiceDetail. cbv zeta.
    destruct (existsb panicLine _) eqn:E.
    + apply (statusLines_panics _ (models.namedService name)) in E.
      rewrite E. split; [intros [d H]; discriminate H | discriminate].
    + destruct (service.statusLines _ _) as [s|] eqn:F.
      * split; [reflexivity|]. intros _.
        destruct showOutput; eexists; reflexivity.
      * apply statusLines_panics in F. rewrite F in E. discriminate E.
  - intros before indent trail after Hi Ht HL ->. apply H1.
    rewrite Split_app, existsb_app, Split_app, existsb_app.
    rewrite (Split_noLF _ HL). cbn [existsb].
    rewrite (panicLine_bare _ _ Hi Ht). cbn [orb]. apply orb_true_r.
Qed.

Lemma GetSystemdServiceDetail_panics_witness :
  service.GetSystemdServiceDetail "ssh"
    (Ok ("* ssh.service" ++ String strings.lf
         ((" " ++ "Loaded:" ++ "") ++ String strings.lf "")))
    (Err "exit status 1") None
  = service.Panic "runtime error: index out of range [0] with length 0".
Proof.
  exact (proj2 (proj2 (GetSystemdServiceDetail_panics "ssh"
           ("* ssh.service" ++ String strings.lf
            ((" " ++ "Loaded:" ++ "") ++ String strings.lf ""))
           (Err "exit status 1") None eq_refl))
         "* ssh.service" " " "" "" eq_refl eq_refl eq_refl eq_refl).
Defined.

Lemma dropFinalEmpty_app ls :
  bufio.dropFinalEmpty (ls ++ [""]) = ls.
Proof.
  induction ls as [|l ls IH]; [reflexivity|].
  change ((l :: ls) ++ [""])%list with (l :: (ls ++ [""]))%list.
  cbn [bufio.dropFinalEmpty]. rewrite IH.
  destruct l; [|reflexivity]. now destruct ls.
Qed.

Lemma scanWhileFits_scannable ls :
  Forall scannable ls -> bufio.scanWhileFits ls = ls.
Proof.
  induction 1 as [|l ls (_ & HC & HS) _ IH]; [reflexivity|].
  cbn [bufio.scanWhileFits]. apply Z.ltb_lt in HS. now rewrite HS, HC, IH.
Qed.

Lemma ScanLines_unlines ls :
  Forall scannable ls -> bufio.ScanLines (unlines ls) = ls.
Proof.
  intros H. unfold bufio.ScanLines. rewrite Split_unlines.
  - rewrite dropFinalEmpty_app. now apply scanWhileFits_scannable.
  - eapply Forall_impl; [|exact H]. now intros l (HL & _).
Qed.

Lemma SplitN_one s sep : strings.SplitN s sep 1 = [s].
Proof. now destruct s. Qed.

Lemma SplitN_assignment k v :
  noByte "=" k = true -> strings.SplitN (k ++ "=" ++ v) "=" 2 = [k; v].
Proof.
  induction k as [|c k IH]; intros H.
  { change ("" ++ "=" ++ v) with (String "=" v). cbn [strings.SplitN].
    rewrite Ascii.eqb_refl. now rewrite SplitN_one. }
  simpl in H. apply andb_true_iff in H as [Hc Hk].
  apply negb_true_iff in Hc.
  change (String c k ++ "=" ++ v) with (String c (k ++ "=" ++ v)).
  cbn [strings.SplitN]. now rewrite Hc, (IH Hk).
Qed.

Lemma get_filter m k k' :
  String.eqb k k' = false ->
  gomap.get (filter (fun kv => negb (String.eqb (fst kv) k)) m) k' =
  gomap.get m k'.
Proof.
  intros H. induction m as [|[k0 v0] m IH]; [reflexivity|].
  cbn [filter fst gomap.get].
  destruct (String.eqb k0 k) eqn:E; cbn [negb].
  - apply String.eqb_eq in E. subst k0. now rewrite H.
  - cbn [gomap.get]. now rewrite IH.
Qed.

Lemma get_set m k v k' :
  gomap.get (gomap.set m k v) k' =
  if String.eqb k k' then Some v else gomap.get m k'.
Proof.
  unfold gomap.set. cbn [gomap.get].
  destruct (String.eqb k k') eqn:E; [reflexivity|]. now apply get_filter.
Qed.

Lemma propertyLine_assignments kvs : forall m k,
  Forall readable kvs ->
  gomap.get (fold_left service.propertyLine (map assignment kvs) m) k =
  match lastValue k kvs with
  | Some v => Some v
  | None => gomap.get m k
  end.
Proof.
  induction kvs as [|[k0 v0] kvs IH]; intros m k H; [reflexivity|].
  inversion H as [|? ? [HK _] HF]; subst.
  cbn [map fold_left lastValue]. rewrite (IH _ _ HF).
  destruct (lastValue k kvs); [reflexivity|].
  unfold service.propertyLine, assignment. cbn [fst snd] in *.
  rewrite (SplitN_assignment _ _ HK), get_set.
  now destruct (String.eqb k0 k).
Qed.

Lemma extractProperties_shown properties s :
  shownFields s = ("", "", "", "") ->
  shownFields (service.extractProperties properties s) =
  (orEmpty (gomap.get properties "Description"),
   orEmpty (gomap.get properties "Type"),
   orEmpty (gomap.get properties "MemoryCurrent"),
   orEmpty (gomap.get properties "TasksCurrent")).
Proof.
  unfold shownFields, service.extractProperties. intros [= HD HT HM HK].
  cbv zeta.
  destruct (gomap.get properties "Description"),
    (gomap.get properties "Type"),
    (gomap.get properties "MemoryCurrent"),
    (gomap.get properties "TasksCurrent"); simpl; congruence.
Qed.

(** X9: when [systemctl show] prints assignments [key=value], one to a
    line (the status text being ASCII), the properties of the detail map
    each key to the value of its last assignment, the value being
    everything after the first "=", and hold no other key; the
    description, type, memory and tasks of the service are the values of
    Description, Type, MemoryCurrent and TasksCurrent, empty when not
    assigned. *)
Theorem GetSystemdServiceDetail_properties :
  forall (name statusStr : string)
         (kvs : list (string * string)) (logsOutput : option string)
         (detail : models.SystemdServiceDetail),
    strings.isASCII statusStr = true ->
    Forall readable kvs ->
    service.GetSystemdServiceDetail name (Ok statusStr)
      (Ok (unlines (map assignment kvs))) logsOutput
    = service.Return (Ok detail) ->
    (forall k, gomap.get (models.Props detail) k = lastValue k kvs) /\
    shownFields (models.Service detail) =
      (orEmpty (lastValue "Description" kvs),
       orEmpty (lastValue "Type" kvs),
       orEmpty (lastValue "MemoryCurrent" kvs),
       orEmpty (lastValue "TasksCurrent" kvs)).
Proof.
  intros name statusStr kvs logsOutput detail _ HF.
  unfold service.GetSystemdServiceDetail. cbv zeta.
  destruct (service.statusLines _ _) as [s|] eqn:E; [|discriminate].
  apply statusLines_frame in E.
  change (unreadFields (models.namedService name))
    with (name, "", ("", "", "", "")) in E.
  assert (HS : shownFields s = ("", "", "", ""))
    by (unfold unreadFields in E; congruence).
  rewrite ScanLines_unlines.
  - intros [= <-]. cbn [models.Props models.Service].
    assert (HG : forall k,
               gomap.get (fold_left service.propertyLine
                            (map assignment kvs) gomap.make) k
               = lastValue k kvs).
    { intros k. rewrite (propertyLine_assignments _ _ _ HF).
      now destruct (lastValue k kvs). }
    split; [exact HG|].
    rewrite (extractProperties_shown _ _ HS), !HG. reflexivity.
  - apply Forall_map. eapply Forall_impl; [|exact HF].
    now intros kv [_ H].
Qed.

Lemma GetSystemdServiceDetail_properties_witness :
  exists detail,
    service.GetSystemdServiceDetail "ssh" (Ok "Active: active (running)")
      (Ok (unlines (map assignment
             [("Type", "simple"); ("Description", "a=b");
              ("Type", "notify")])))
      None
    = service.Return (Ok detail) /\
    gomap.get (models.Props detail) "Type" = Some "notify" /\
    models.Description (models.Service detail) = "a=b".
Proof.
  eexists. split; [reflexivity|].
  assert (HF : Forall readable
                 [("Type", "simple"); ("Description", "a=b");
                  ("Type", "notify")]).
  { repeat constructor. }
  destruct (GetSystemdServiceDetail_properties "ssh"
              "Active: active (running)" _ None _ eq_refl HF eq_refl)
    as [HP HS].
  split; [apply HP|].
  exact (f_equal (fun t => fst (fst (fst t))) HS).
Defined.

Lemma TrimSpace_blank s :
  String.eqb (strings.TrimSpace s) "" = isBlank s.
Proof.
  destruct (isBlank s) eqn:E.
  - apply String.eqb_eq. unfold strings.TrimSpace.
    rewrite <- (append_nil_r s), (TrimLeftSpace_blank _ _ E). reflexivity.
  - apply String.eqb_neq. intros H.
    apply TrimSpace_empty_Fields, Fields_nil in H. congruence.
Qed.

Lemma logLines_filter lines :
  service.logLines lines = filter (fun l => negb (isBlank l)) lines.
Proof.
  induction lines as [|l lines IH]; [reflexivity|].
  cbn [service.logLines filter]. now rewrite TrimSpace_blank, IH.
Qed.

(** X10: the logs of a detail are the lines of the (ASCII) journal
    output that are not blank, in their order and as they came, whether
    or not the output ends with a line feed; no blank line is ever among
    them. *)
Theorem GetSystemdServiceDetail_logs :
  forall (name statusStr : string) (showOutput : result string)
         (journal : list string) (out : string)
         (detail : models.SystemdServiceDetail),
    strings.isASCII statusStr = true ->
    strings.isASCII out = true ->
    Forall (fun l => noLF l = true) journal ->
    out = unlines journal \/
    out = strings.Join journal (String strings.lf "") ->
    service.GetSystemdServiceDetail name (Ok statusStr) showOutput (Some out)
    = service.Return (Ok detail) ->
    models.Logs detail = filter (fun l => negb (isBlank l)) journal /\
    Forall (fun l => strings.TrimSpace l <> "") (models.Logs detail).
Proof.
  intros name statusStr showOutput journal out detail _ _ HF Hout.
  unfold service.GetSystemdServiceDetail. cbv zeta.
  destruct (service.statusLines _ _) as [s|]; [|discriminate].
  assert (HL : service.logLines (strings.Split out strings.lf) =
               filter (fun l => negb (isBlank l)) journal).
  { rewrite logLines_filter. destruct Hout as [-> | ->].
    - rewrite (Split_unlines _ HF), filter_app. simpl. apply app_nil_r.
    - destruct journal as [|l ls]; [reflexivity|].
      now rewrite (Split_Join_lines _ _ HF). }
  destruct showOutput; intros [= <-]; cbn [models.Logs]; rewrite HL;
    (split; [reflexivity|]); apply Forall_forall; intros l Hl;
    apply filter_In in Hl as [_ Hl]; apply negb_true_iff in Hl;
    rewrite <- TrimSpace_blank in Hl; now apply String.eqb_neq.
Qed.

Lemma GetSystemdServiceDetail_logs_witness :
  exists detail,
    service.GetSystemdServiceDetail "ssh" (Ok "Active: active (running)")
      (Err "exit status 1")
      (Some (unlines ["Jan 01 host sshd[1]: up"; "  "; "";
                      " Jan 01 host sshd[1]: down "]))
    = service.Return (Ok detail) /\
    models.Logs detail =
      ["Jan 01 host sshd[1]: up"; " Jan 01 host sshd[1]: down "].
Proof.
  eexists. split; [reflexivity|].
  refine (proj1 (GetSystemdServiceDetail_logs "ssh"
            "Active: active (running)" (Err "exit status 1")
            ["Jan 01 host sshd[1]: up"; "  "; "";
             " Jan 01 host sshd[1]: down "]
            (unlines ["Jan 01 host sshd[1]: up"; "  "; "";
                      " Jan 01 host sshd[1]: down "]) _
            eq_refl eq_refl _ (or_introl eq_refl) eq_refl)).
  repeat constructor.
Defined.

(* ----------------------------------------------------------------- *)
(** ** Reading the status lines *)

Lemma TrimRightSpace_nonspace c s :
  strings.asciiSpace c = false ->
  strings.TrimRightSpace (String c s) = String c (strings.TrimRightSpace s).
Proof.
  intros H. rewrite TrimRightSpace_cons, H.
  now destruct (strings.TrimRightSpace s).
Qed.

Lemma TrimRightSpace_word w s :
  noSpace w = true ->
  strings.TrimRightSpace (w ++ s) = w ++ strings.TrimRightSpace s.
Proof.
  induction w as [|c w IH]; intros H; [reflexivity|].
  simpl in H. apply andb_true_iff in H as [Hc Hw].
  apply negb_true_iff in Hc.
  change (String c w ++ s) with (String c (w ++ s)).
  rewrite (TrimRightSpace_nonspace _ _ Hc), (IH Hw). reflexivity.
Qed.

Lemma TrimRightSpace_keep c s :
  strings.TrimRightSpace s <> "" ->
  strings.TrimRightSpace (String c s) = String c (strings.TrimRightSpace s).
Proof.
  intros H. rewrite TrimRightSpace_cons.
  destruct (strings.TrimRightSpace s); [contradiction | reflexivity].
Qed.

Lemma word_app_nonempty w s : isWord w -> w ++ s <> "".
Proof. intros [H _]. destruct w; [contradiction | discriminate]. Qed.

(** trimming a line that is an indented marker word, a space, a word and
    the rest *)
Lemma TrimSpace_marked indent marker w rest :
  isBlank indent = true -> isWord marker -> isWord w ->
  strings.TrimSpace (indent ++ marker ++ " " ++ w ++ rest) =
  marker ++ " " ++ w ++ strings.TrimRightSpace rest.
Proof.
  intros Hi [Hm0 Hm] [Hw0 Hw]. unfold strings.TrimSpace.
  rewrite (TrimLeftSpace_blank _ _ Hi).
  assert (HL : strings.TrimLeftSpace (marker ++ " " ++ w ++ rest) =
               marker ++ " " ++ w ++ rest).
  { destruct marker as [|c m]; [contradiction|]. simpl in Hm.
    apply andb_true_iff in Hm as [Hc _]. apply negb_true_iff in Hc.
    simpl. now rewrite Hc. }
  rewrite HL, (TrimRightSpace_word _ _ Hm).
  change (" " ++ w ++ rest) with (String " " (w ++ rest)).
  rewrite TrimRightSpace_keep; rewrite (TrimRightSpace_word _ _ Hw).
  - reflexivity.
  - now apply word_app_nonempty.
Qed.

Lemma breaks_TrimRightSpace rest :
  breaks rest = true -> breaks (strings.TrimRightSpace rest) = true.
Proof.
  destruct rest as [|c r]; [reflexivity|]. intros H. cbn [breaks] in H.
  rewrite TrimRightSpace_cons, H.
  now destruct (strings.TrimRightSpace r).
Qed.

Lemma breaksLoaded_TrimRightSpace rest :
  breaksLoaded rest = true ->
  breaksLoaded (strings.TrimRightSpace rest) = true.
Proof.
  destruct rest as [|c r]; [reflexivity|]. intros H.
  cbn [breaksLoaded] in H. rewrite TrimRightSpace_cons.
  destruct (strings.TrimRightSpace r); [|exact H].
  destruct (strings.asciiSpace c) eqn:E; [reflexivity|].
  cbn [breaksLoaded]. now rewrite E.
Qed.

Lemma prefix_app p s : String.prefix p (p ++ s) = true.
Proof.
  induction p as [|c p IH]; [now destruct s|].
  simpl. destruct (ascii_dec c c); [exact IH | contradiction].
Qed.

Lemma Contains_prefix p s : strings.Contains (p ++ s) p = true.
Proof.
  destruct p as [|c p]; [now destruct s|].
  change (String c p ++ s) with (String c (p ++ s)).
  cbn [strings.Contains].
  change (String c (p ++ s)) with (String c p ++ s).
  now rewrite prefix_app.
Qed.

Lemma substring_skip p s :
  String.substring (String.length p) (String.length s) (p ++ s) = s.
Proof.
  induction p as [|c p IH]; simpl; [|exact IH].
  induction s as [|d s IHs]; [reflexivity|]. simpl. now rewrite IHs.
Qed.

Lemma TrimPrefix_app p s : strings.TrimPrefix (p ++ s) p = s.
Proof.
  unfold strings.TrimPrefix, strings.HasPrefix. rewrite prefix_app.
  rewrite append_length.
  replace (String.length p + String.length s - String.length p)%nat
    with (String.length s) by lia.
  apply substring_skip.
Qed.

(** the first piece of a split goes through a text without separator *)
Lemma Split_hd_app a b sep :
  noByte sep a = true ->
  hd "" (strings.Split (a ++ b) sep) = a ++ hd "" (strings.Split b sep).
Proof.
  induction a as [|c a IH]; intros H; [reflexivity|].
  simpl in H. apply andb_true_iff in H as [Hc Ha].
  apply negb_true_iff in Hc.
  change (String c a ++ b) with (String c (a ++ b)).
  cbn [strings.Split]. rewrite Hc.
  pose proof (Split_nonempty (a ++ b) sep) as HN.
  specialize (IH Ha).
  destruct (strings.Split (a ++ b) sep) as [|h t]; [contradiction|].
  simpl in IH. simpl. now rewrite IH.
Qed.

Lemma Split_hd_breaks rest :
  breaksLoaded rest = true ->
  breaks (hd "" (strings.Split rest ";")) = true.
Proof.
  destruct rest as [|c r]; [reflexivity|]. intros H.
  cbn [breaksLoaded] in H.
  cbn [strings.Split]. destruct (Ascii.eqb c ";") eqn:E; [reflexivity|].
  rewrite orb_false_r in H.
  pose proof (Split_nonempty r ";") as HN.
  destruct (strings.Split r ";"); [contradiction | exact H].
Qed.

(** the fields of a word followed by a break *)
Lemma Fields_word w h :
  isWord w -> breaks h = true ->
  strings.Fields (w ++ h) = w :: strings.Fields h.
Proof.
  intros [H0 Hw] Hh. unfold strings.Fields.
  rewrite (fieldsFrom_word _ "" _ Hw). simpl append.
  destruct h as [|c r].
  - simpl. destruct w; [contradiction | reflexivity].
  - simpl in Hh. rewrite !fieldsFrom_cons, Hh.
    destruct w; [contradiction | reflexivity].
Qed.

Lemma Fields_space s : strings.Fields (String " " s) = strings.Fields s.
Proof. reflexivity. Qed.

Lemma Fields_space_app s : strings.Fields (" " ++ s) = strings.Fields s.
Proof. reflexivity. Qed.

Lemma noByte_app b x y : noByte b (x ++ y) = noByte b x && noByte b y.
Proof.
  induction x as [|c x IH]; simpl; [reflexivity|].
  now rewrite IH, andb_assoc.
Qed.

Lemma isWord_marker_Loaded : isWord "Loaded:".
Proof. split; [discriminate | reflexivity]. Qed.

Lemma isWord_marker_Active : isWord "Active:".
Proof. split; [discriminate | reflexivity]. Qed.

Lemma isWord_marker_Main : isWord "Main".
Proof. split; [discriminate | reflexivity]. Qed.

Lemma isWord_marker_PID : isWord "PID:".
Proof. split; [discriminate | reflexivity]. Qed.

Lemma statusLine_loaded s indent state rest :
  wellLoaded indent state rest ->
  service.statusLine s (loadedLine indent state rest) =
  Some (models.setLoadState state s).
Proof.
  intros (Hi & Hw & Hsc & Hb).
  assert (E : strings.TrimSpace (loadedLine indent state rest) =
              "Loaded:" ++ " " ++ state ++ strings.TrimRightSpace rest)
    by exact (TrimSpace_marked indent "Loaded:" state rest Hi
                isWord_marker_Loaded Hw).
  unfold service.statusLine. cbv zeta. rewrite E, Contains_prefix.
  pose proof (Split_nonempty
                ("Loaded:" ++ " " ++ state ++ strings.TrimRightSpace rest)
                ";") as HN.
  assert (HH : hd "" (strings.Split
                        ("Loaded:" ++ " " ++ state
                         ++ strings.TrimRightSpace rest) ";") =
               "Loaded:" ++ " " ++ state
               ++ hd "" (strings.Split (strings.TrimRightSpace rest) ";")).
  { change ("Loaded:" ++ " " ++ state ++ strings.TrimRightSpace rest)
      with ("Loaded: " ++ state ++ strings.TrimRightSpace rest).
    rewrite <- append_assoc, Split_hd_app.
    - now rewrite append_assoc.
    - rewrite noByte_app, Hsc. reflexivity. }
  destruct (strings.Split _ ";") as [|p0 ps]; [contradiction|].
  simpl hd in HH.
  rewrite HH, TrimPrefix_app, Fields_TrimSpace, Fields_space_app.
  rewrite (Fields_word _ _ Hw); [reflexivity|].
  apply Split_hd_breaks, breaksLoaded_TrimRightSpace, Hb.
Qed.

Lemma TrimRight_clean s :
  s <> "" -> noByte "(" s = true -> noByte ")" s = true ->
  strings.TrimRight s "()" = s.
Proof.
  induction s as [|c s IH]; intros H0 H1 H2; [contradiction|].
  simpl in H1, H2.
  apply andb_true_iff in H1 as [Hc1 H1]. apply andb_true_iff in H2 as [Hc2 H2].
  apply negb_true_iff in Hc1, Hc2.
  cbn [strings.TrimRight strings.inCutset]. rewrite Hc1, Hc2. cbn [orb].
  destruct s as [|d s]; [reflexivity|].
  rewrite IH by (assumption || discriminate). reflexivity.
Qed.

Lemma TrimRight_closing s :
  s <> "" -> noByte "(" s = true -> noByte ")" s = true ->
  strings.TrimRight (s ++ ")") "()" = s.
Proof.
  induction s as [|c s IH]; intros H0 H1 H2; [contradiction|].
  simpl in H1, H2.
  apply andb_true_iff in H1 as [Hc1 H1]. apply andb_true_iff in H2 as [Hc2 H2].
  apply negb_true_iff in Hc1, Hc2.
  change (String c s ++ ")") with (String c (s ++ ")")).
  cbn [strings.TrimRight strings.inCutset]. rewrite Hc1, Hc2. cbn [orb].
  destruct s as [|d s]; [reflexivity|].
  rewrite IH by (assumption || discriminate). reflexivity.
Qed.

Lemma Trim_parens sub :
  sub <> "" -> noByte "(" sub = true -> noByte ")" sub = true ->
  strings.Trim ("(" ++ sub ++ ")") "()" = sub.
Proof.
  intros H0 H1 H2. unfold strings.Trim.
  change ("(" ++ sub ++ ")") with (String "(" (sub ++ ")")).
  cbn [strings.TrimRight]. rewrite (TrimRight_closing _ H0 H1 H2).
  destruct sub as [|c sub]; [contradiction|].
  simpl in H1, H2.
  apply andb_true_iff in H1 as [Hc1 _]. apply andb_true_iff in H2 as [Hc2 _].
  apply negb_true_iff in Hc1, Hc2.
  cbn [strings.TrimLeft strings.inCutset]. rewrite Ascii.eqb_refl.
  cbn [orb strings.TrimLeft strings.inCutset]. now rewrite Hc1, Hc2.
Qed.

Lemma isWord_parens sub : isWord sub -> isWord ("(" ++ sub ++ ")").
Proof.
  intros [_ H]. split; [discriminate|].
  change ("(" ++ sub ++ ")") with (String "(" (sub ++ ")")).
  cbn [noSpace]. rewrite noSpace_app, H. reflexivity.
Qed.

Lemma TrimRightSpace_next w rest :
  isWord w ->
  strings.TrimRightSpace (String " " (w ++ rest)) =
  String " " (w ++ strings.TrimRightSpace rest).
Proof.
  intros Hw. rewrite TrimRightSpace_keep;
    rewrite (TrimRightSpace_word _ _ (proj2 Hw)).
  - reflexivity.
  - now apply word_app_nonempty.
Qed.

Lemma statusLine_active s indent active sub rest :
  wellActive indent active sub rest ->
  service.statusLine s (activeLine indent active sub rest) =
  Some (models.setSubState sub (models.setActiveState active s)).
Proof.
  intros (Hi & Ha & Hs & Hp1 & Hp2 & Hb & HL).
  pose proof (isWord_parens sub Hs) as HP.
  assert (E : strings.TrimSpace (activeLine indent active sub rest) =
              "Active:" ++ " " ++ active
              ++ String " " (("(" ++ sub ++ ")")
                             ++ strings.TrimRightSpace rest)).
  { unfold activeLine.
    change (indent ++ "Active: " ++ active ++ " (" ++ sub ++ ")" ++ rest)
      with (indent ++ "Active:" ++ " " ++ active
            ++ String " " ("(" ++ sub ++ ")" ++ rest)).
    rewrite (TrimSpace_marked indent "Active:" active _ Hi
               isWord_marker_Active Ha).
    rewrite <- (append_assoc sub ")" rest).
    rewrite <- (append_assoc "(" (sub ++ ")") rest).
    now rewrite (TrimRightSpace_next _ _ HP). }
  unfold mentions in HL. unfold service.statusLine. cbv zeta.
  rewrite E in *. rewrite HL, Contains_prefix, TrimPrefix_app.
  rewrite Fields_TrimSpace, Fields_space_app.
  rewrite (Fields_word _ _ Ha) by reflexivity.
  rewrite Fields_space, (Fields_word _ _ HP)
    by (apply breaks_TrimRightSpace, Hb).
  now rewrite (Trim_parens _ (proj1 Hs) Hp1 Hp2).
Qed.

Lemma statusLine_pid s indent pid rest :
  wellPid indent pid rest ->
  service.statusLine s (pidLine indent pid rest) =
  Some (models.setMainPID pid s).
Proof.
  intros (Hi & Hp & Hb & HL & HA).
  assert (E : strings.TrimSpace (pidLine indent pid rest) =
              "Main" ++ " " ++ "PID:"
              ++ String " " (pid ++ strings.TrimRightSpace rest)).
  { unfold pidLine.
    change (indent ++ "Main PID: " ++ pid ++ rest)
      with (indent ++ "Main" ++ " " ++ "PID:" ++ String " " (pid ++ rest)).
    rewrite (TrimSpace_marked indent "Main" "PID:" _ Hi
               isWord_marker_Main isWord_marker_PID).
    now rewrite (TrimRightSpace_next _ _ Hp). }
  unfold mentions in HL, HA. unfold service.statusLine. cbv zeta.
  rewrite E in *. rewrite HL, HA.
  change ("Main" ++ " " ++ "PID:"
          ++ String " " (pid ++ strings.TrimRightSpace rest))
    with ("Main PID:" ++ String " " (pid ++ strings.TrimRightSpace rest))
    at 1.
  rewrite Contains_prefix.
  rewrite (Fields_word _ _ isWord_marker_Main) by reflexivity.
  rewrite Fields_space_app, (Fields_word _ _ isWord_marker_PID)
    by reflexivity.
  rewrite Fields_space, (Fields_word _ _ Hp)
    by (apply breaks_TrimRightSpace, Hb).
  reflexivity.
Qed.

Lemma statusLine_plain s line :
  plainLine line -> service.statusLine s line = Some s.
Proof.
  intros (H1 & H2 & H3). unfold mentions in *.
  unfold service.statusLine. cbv zeta. now rewrite H1, H2, H3.
Qed.

Lemma statusLines_plain lines : forall s,
  Forall plainLine lines -> service.statusLines s lines = Some s.
Proof.
  induction lines as [|l lines IH]; intros s H; [reflexivity|].
  inversion H; subst. cbn [service.statusLines].
  rewrite statusLine_plain by assumption. now apply IH.
Qed.

Lemma statusLines_app a : forall s b,
  service.statusLines s (a ++ b) =
  match service.statusLines s a with
  | Some s' => service.statusLines s' b
  | None => None
  end.
Proof.
  induction a as [|l a IH]; intros s b; [reflexivity|].
  simpl. destruct (service.statusLine s l); [apply IH | reflexivity].
Qed.

Lemma extractProperties_frame properties s :
  statusFields (service.extractProperties properties s) = statusFields s.
Proof.
  unfold service.extractProperties. cbv zeta.
  repeat match goal with
         | |- context [match ?x with _ => _ end] => destruct x
         end; reflexivity.
Qed.

Lemma plainLine_empty : plainLine "".
Proof. repeat split. Qed.

(** X11: a status text in the layout of [systemctl status], every line
    ended by a line feed, is read as laid out: with one line
    "Loaded: <state>...", one line "Active: <active> (<sub>)..." and one
    line "Main PID: <pid>...", each indented at will, in this order among
    lines that hold none of the three markers, the call returns a detail
    whose load state, active state, sub state and main PID are <state>,
    <active>, <sub> without its parentheses, and <pid>. *)
Theorem GetSystemdServiceDetail_reads_status :
  forall (name : string) (showOutput : result string)
         (logsOutput : option string)
         (before mid1 mid2 after : list string)
         (i1 state r1 i2 active sub r2 i3 pid r3 : string),
    let lines := (before ++ loadedLine i1 state r1
                  :: mid1 ++ activeLine i2 active sub r2
                  :: mid2 ++ pidLine i3 pid r3 :: after)%list in
    strings.isASCII (unlines lines) = true ->
    Forall (fun l => noLF l = true) lines ->
    Forall plainLine before -> Forall plainLine mid1 ->
    Forall plainLine mid2 -> Forall plainLine after ->
    wellLoaded i1 state r1 ->
    wellActive i2 active sub r2 ->
    wellPid i3 pid r3 ->
    exists detail,
      service.GetSystemdServiceDetail name (Ok (unlines lines)) showOutput
        logsOutput = service.Return (Ok detail) /\
      statusFields (models.Service detail) = (state, active, sub, pid).
Proof.
  intros name showOutput logsOutput before mid1 mid2 after
    i1 state r1 i2 active sub r2 i3 pid r3 lines _ HLF Hb Hm1 Hm2 Ha
    HL HA HP.
  set (s0 := models.namedService name).
  assert (E : service.statusLines s0 (lines ++ [""]) =
              Some (models.setMainPID pid
                      (models.setSubState sub
                         (models.setActiveState active
                            (models.setLoadState state s0))))).
  { rewrite statusLines_app. subst lines.
    rewrite statusLines_app, (statusLines_plain _ _ Hb).
    cbn [service.statusLines]. rewrite (statusLine_loaded _ _ _ _ HL).
    rewrite statusLines_app, (statusLines_plain _ _ Hm1).
    cbn [service.statusLines]. rewrite (statusLine_active _ _ _ _ _ HA).
    rewrite statusLines_app, (statusLines_plain _ _ Hm2).
    cbn [service.statusLines]. rewrite (statusLine_pid _ _ _ _ HP).
    rewrite (statusLines_plain _ _ Ha).
    now rewrite (statusLine_plain _ _ plainLine_empty). }
  unfold service.GetSystemdServiceDetail. cbv zeta.
  rewrite (Split_unlines _ HLF). fold s0. rewrite E.
  destruct showOutput as [out|e]; eexists; (split; [reflexivity|]);
    cbn [models.Service]; [rewrite extractProperties_frame|]; reflexivity.
Qed.

Lemma GetSystemdServiceDetail_reads_status_witness :
  exists detail,
    service.GetSystemdServiceDetail "ssh"
      (Ok (unlines
             ["* ssh.service - OpenBSD Secure Shell server";
              "     Loaded: loaded (/lib/systemd/system/ssh.service; enabled)";
              "     Active: active (running) since Mon 2024-01-01; 1h ago";
              "       Docs: man:sshd(8)";
              "   Main PID: 1234 (sshd)";
              "      Tasks: 1 (limit: 4915)"]))
      (Err "exit status 1") None
    = service.Return (Ok detail) /\
    statusFields (models.Service detail) =
      ("loaded", "active", "running", "1234").
Proof.
  refine (GetSystemdServiceDetail_reads_status "ssh" (Err "exit status 1")
            None
            ["* ssh.service - OpenBSD Secure Shell server"] []
            ["       Docs: man:sshd(8)"] ["      Tasks: 1 (limit: 4915)"]
            "     " "loaded" " (/lib/systemd/system/ssh.service; enabled)"
            "     " "active" "running" " since Mon 2024-01-01; 1h ago"
            "   " "1234" " (sshd)" eq_refl _ _ _ _ _ _ _ _).
  - repeat constructor.
  - repeat constructor.
  - constructor.
  - repeat constructor.
  - repeat constructor.
  - repeat split; discriminate.
  - repeat split; discriminate.
  - repeat split; discriminate.
Defined.

(* ----------------------------------------------------------------- *)
(** ** Docker snapshots *)

Lemma wrap64_add_l a b : wrap64 (wrap64 a + b) = wrap64 (a + b).
Proof.
  unfold wrap64.
  replace ((a + 2 ^ 63) mod 2 ^ 64 - 2 ^ 63 + b + 2 ^ 63)
    with ((a + 2 ^ 63) mod 2 ^ 64 + b) by lia.
  rewrite Zplus_mod_idemp_l. f_equal. f_equal. lia.
Qed.

Lemma sumImageSizes_from images : forall acc,
  fold_left (fun acc img => add64 acc (types.Size img)) images (wrap64 acc)
  = wrap64 (acc + totalSize images).
Proof.
  induction images as [|img images IH]; intros acc.
  - simpl. now rewrite Z.add_0_r.
  - cbn [fold_left totalSize fold_right]. unfold add64 at 2.
    rewrite wrap64_add_l, IH. fold (totalSize images). f_equal. lia.
Qed.

Lemma sumImageSizes_total images :
  service.sumImageSizes images = wrap64 (totalSize images).
Proof.
  unfold service.sumImageSizes.
  change 0 with (wrap64 0) at 1. now rewrite sumImageSizes_from.
Qed.

Lemma totalSize_perm images images' :
  Permutation images images' -> totalSize images = totalSize images'.
Proof.
  induction 1; simpl; lia.
Qed.

(** X12: in the stats snapshot the image count is the length of the
    image list and the image size is the sum of the sizes taken modulo
    2^64 into the int64 range: the exact sum whenever that fits, whatever
    the partial sums did on the way, and the same for every order of the
    list.  The network and volume totals are the lengths of their
    lists. *)
Theorem GetSystemStats_image_size :
  forall (d : client.Daemon) containers images networks volumes,
    client.ContainerList d = Ok containers ->
    client.ImageList d = Ok images ->
    client.NetworkList d = Ok networks ->
    client.VolumeList d = Ok volumes ->
    exists stats,
      service.GetSystemStats d = Ok stats /\
      models.ImagesTotal stats = len images /\
      models.ImagesSize stats = wrap64 (totalSize images) /\
      (inInt64 (totalSize images) ->
       models.ImagesSize stats = totalSize images) /\
      (forall images',
         Permutation images images' ->
         service.sumImageSizes images' = models.ImagesSize stats) /\
      models.NetworksTotal stats = len networks /\
      models.VolumesTotal stats = len (types.Volumes volumes).
Proof.
  intros d cs imgs nets vols Hc Hi Hn Hv.
  unfold service.GetSystemStats. rewrite Hc, Hi, Hn, Hv.
  eexists. split; [reflexivity|]. cbn [models.ImagesTotal models.ImagesSize
    models.NetworksTotal models.VolumesTotal].
  rewrite sumImageSizes_total. repeat apply conj; try reflexivity.
  - intros H. now apply wrap64_small.
  - intros imgs' HP.
    now rewrite sumImageSizes_total, (totalSize_perm _ _ HP).
Qed.

Lemma GetSystemStats_image_size_witness :
  exists stats,
    service.GetSystemStats sampleDaemon = Ok stats /\
    models.ImagesTotal stats = 1 /\ models.ImagesSize stats = 1000 /\
    models.NetworksTotal stats = 1 /\ models.VolumesTotal stats = 2.
Proof.
  destruct (GetSystemStats_image_size sampleDaemon _ _ _ _
              eq_refl eq_refl eq_refl eq_refl)
    as (stats & H1 & H2 & _ & H3 & _ & H4 & H5).
  exists stats. repeat apply conj; try assumption.
  apply H3. vm_compute. split; discriminate.
Defined.

Lemma countState_Total cs : forall st,
  models.Total (fold_left service.countState cs st) = models.Total st.
Proof.
  induction cs as [|c cs IH]; intros st; [reflexivity|].
  simpl. rewrite IH. unfold service.countState.
  destruct (String.eqb (types.State c) "running"); [reflexivity|].
  now destruct (String.eqb (types.State c) "paused").
Qed.

Ltac info_fails :=
  split; [intros e; split; congruence|];
  split; [split; [intros [i H]; discriminate H | discriminate]|];
  discriminate.

(** X13: [GetDockerInfo] fails with the error of the first of its seven
    calls that fails, in the order Info, ServerVersion, ContainerList,
    ImageList, NetworkList, VolumeList, DiskUsage, and succeeds when none
    does.  When it succeeds its lists are the daemon's answers, and the
    stats snapshot of the same answers succeeds too, its totals being the
    lengths of those lists and its image size their sum. *)
Theorem GetDockerInfo_first_failure :
  forall d : client.Daemon,
    (forall e, service.GetDockerInfo d = Err e <->
               firstError (infoCalls d) = Some e) /\
    ((exists info, service.GetDockerInfo d = Ok info) <->
     firstError (infoCalls d) = None) /\
    (forall info,
       service.GetDockerInfo d = Ok info ->
       client.ContainerList d = Ok (models.Containers_ info) /\
       client.ImageList d = Ok (models.Images info) /\
       client.NetworkList d = Ok (models.Networks info) /\
       client.VolumeList d = Ok (models.Volumes info) /\
       exists stats,
         service.GetSystemStats d = Ok stats /\
         models.Total (models.Containers stats) =
           len (models.Containers_ info) /\
         models.ImagesTotal stats = len (models.Images info) /\
         models.ImagesSize stats = service.sumImageSizes (models.Images info) /\
         models.NetworksTotal stats = len (models.Networks info) /\
         models.VolumesTotal stats =
           len (types.Volumes (models.Volumes info))).
Proof.
  intros d. unfold service.GetDockerInfo, service.GetSystemStats, infoCalls.
  destruct (client.Info d) as [info|e1]; simpl;
    [|info_fails].
  destruct (client.ServerVersion d) as [ver|e2]; simpl;
    [|info_fails].
  destruct (client.ContainerList d) as [cs|e3]; simpl;
    [|info_fails].
  destruct (client.ImageList d) as [imgs|e4]; simpl;
    [|info_fails].
  destruct (client.NetworkList d) as [nets|e5]; simpl;
    [|info_fails].
  destruct (client.VolumeList d) as [vols|e6]; simpl;
    [|info_fails].
  destruct (client.DiskUsage d) as [du|e7]; simpl;
    [|info_fails].
  split; [|split].
  - intros e. split; discriminate.
  - split; [reflexivity|]. intros _. eexists. reflexivity.
  - intros i [= <-]. simpl. repeat apply conj; try reflexivity.
    eexists. split; [reflexivity|].
    cbn [models.Containers models.ImagesTotal models.ImagesSize
         models.NetworksTotal models.VolumesTotal].
    repeat apply conj; try reflexivity.
    unfold service.countContainers. now rewrite countState_Total.
Qed.

Lemma GetDockerInfo_first_failure_witness :
  exists info stats,
    service.GetDockerInfo sampleDaemon = Ok info /\
    service.GetSystemStats sampleDaemon = Ok stats /\
    models.Total (models.Containers stats) = len (models.Containers_ info).
Proof.
  destruct (proj2 (proj1 (proj2 (GetDockerInfo_first_failure sampleDaemon)))
              eq_refl) as [info Hi].
  destruct (proj2 (proj2 (GetDockerInfo_first_failure sampleDaemon)) info Hi)
    as (_ & _ & _ & _ & stats & Hs & Ht & _).
  exists info, stats. repeat apply conj; assumption.
Defined.

(* ----------------------------------------------------------------- *)
(** ** Handlers *)

Lemma copyLogs_clean chunks tail :
  api.copyLogs (cleanReads chunks ++ tail) =
  String.concat "" chunks ++ api.copyLogs tail.
Proof.
  induction chunks as [|c chunks IH]; [reflexivity|].
  cbn [cleanReads map app api.copyLogs]. fold (cleanReads chunks).
  rewrite IH. destruct chunks as [|c' chunks].
  - reflexivity.
  - rewrite concat_cons2. cbn [append]. now rewrite append_assoc.
Qed.

(** X14: the container log handler answers 200 with, as plain text, the
    bytes of the reads that came before the first read reporting an
    error; the bytes that read returned together with its error are not
    written, and nothing after it is read.  An empty [tail] parameter is
    sent to the daemon as "100". *)
Theorem GetContainerLogs_until_error :
  forall (d : client.Daemon) (id tailParam : string)
         (chunks : list string) (last : string) (err : error)
         (rest : list types.LogRead),
    client.ContainerLogs d id (orDefault tailParam "100") =
      Ok (cleanReads chunks ++ (last, Some err) :: rest)%list ->
    api.GetContainerLogs d id tailParam =
    {| http.Status := http.StatusOK;
       http.ContentType := Some "text/plain";
       http.Payload := http.Text (String.concat "" chunks) |}.
Proof.
  intros d id tailParam chunks last err rest H.
  unfold api.GetContainerLogs. cbv zeta. unfold orDefault in H.
  rewrite H, copyLogs_clean. simpl api.copyLogs.
  now rewrite append_nil_r.
Qed.

Lemma GetContainerLogs_until_error_witness :
  api.GetContainerLogs loggingDaemon "c1" "" =
  {| http.Status := 200;
     http.ContentType := Some "text/plain";
     http.Payload := http.Text "line 1 line 2 " |}.
Proof.
  exact (GetContainerLogs_until_error loggingDaemon "c1" ""
           ["line 1 "; "line 2 "] "line 3" "EOF" [] eq_refl).
Defined.

Lemma webSocketLoop_quiet pre : forall rest done,
  forallb (fun s => negb (ends s)) pre = true ->
  api.webSocketLoop (pre ++ rest) done =
  api.webSocketLoop rest (done ++ frames pre).
Proof.
  induction pre as [|s pre IH]; intros rest done H.
  - simpl. now rewrite app_nil_r.
  - simpl in H. apply andb_true_iff in H as [Hs Hpre].
    destruct s as [e [err|]|[err|]|]; try discriminate Hs;
      cbn [app api.webSocketLoop frames]; rewrite (IH _ _ Hpre);
      try reflexivity.
    now rewrite <- app_assoc.
Qed.

(** X15: after a successful upgrade the WebSocket handler subscribes
    with empty options and writes one frame for each event, in order,
    until the first failed write or the first non-nil error, which it
    logs before returning; nil errors are passed over, and while neither
    happens the handler keeps waiting.  A failed upgrade is logged and nothing is
    subscribed or written. *)
Theorem HandleWebSocket_frames :
  forall events : client.Events,
    let received := events {| types.Since := ""; types.Until := "" |} in
    (forall pre s rest,
       received = (pre ++ s :: rest)%list ->
       forallb (fun x => negb (ends x)) pre = true ->
       ends s = true ->
       api.HandleWebSocket None events =
       ((frames pre ++ endLog s)%list, service.Returned tt)) /\
    (forallb (fun x => negb (ends x)) received = true ->
     api.HandleWebSocket None events = (frames received, service.Blocked)) /\
    (forall err,
       api.HandleWebSocket (Some err) events =
       ([service.LogPrintln "WebSocket upgrade error:" err],
        service.Returned tt)).
Proof.
  intros events received. unfold api.HandleWebSocket. fold received.
  split; [|split].
  - intros pre s rest -> Hpre Hs. rewrite (webSocketLoop_quiet _ _ _ Hpre).
    destruct s as [e [err|]|[err|]|]; try discriminate Hs; reflexivity.
  - intros H. rewrite <- (app_nil_r received) at 1.
    now rewrite (webSocketLoop_quiet _ _ _ H).
  - reflexivity.
Qed.

Lemma HandleWebSocket_frames_witness :
  api.HandleWebSocket None flakyEvents =
  ([service.WriteJSON {| types.MsgType := "container";
                         types.MsgAction := "start";
                         types.MsgActor := "c1" |};
    service.WriteJSON {| types.MsgType := "container";
                         types.MsgAction := "die";
                         types.MsgActor := "c1" |};
    service.LogPrintln "WebSocket write error:" "write: broken pipe"],
   service.Returned tt).
Proof.
  exact (proj1 (HandleWebSocket_frames flakyEvents)
           (firstn 3 (flakyEvents {| types.Since := ""; types.Until := "" |}))
           _ _ eq_refl eq_refl eq_refl).
Defined.










(* ----------------------------------------------------------------- *)
(** ** The event dispatcher, event by event *)

Lemma counterTexts_app a b :
  counterTexts (a ++ b) = (counterTexts a ++ counterTexts b)%list.
Proof.
  induction a as [|x a IH]; [reflexivity|].
  destruct x; simpl; now rewrite IH.
Qed.

Lemma streamed_app a b : streamed (a ++ b) = (streamed a ++ streamed b)%list.
Proof.
  induction a as [|x a IH]; [reflexivity|].
  destruct x; simpl; now rewrite IH.
Qed.

Lemma refreshCalls_app a b :
  refreshCalls (a ++ b) = (refreshCalls a ++ refreshCalls b)%list.
Proof. unfold refreshCalls. apply filter_app. Qed.

(** what [smartRefresh] leaves of an event: no count, nothing streamed *)
Lemma smartRefresh_quiet this e now :
  let r := DockerManager.smartRefresh this e now in
  counterTexts (snd r) = [] /\ streamed (snd r) = [] /\
  DockerManager.eventCount (fst r) = DockerManager.eventCount this /\
  DockerManager.refreshCooldown (fst r) = DockerManager.refreshCooldown this /\
  DockerManager.currentTab (fst r) = DockerManager.currentTab this.
Proof.
  unfold DockerManager.smartRefresh, DockerManager.handleContainerEvent,
    DockerManager.refreshDashboardStats. cbv zeta.
  split_ifs; repeat apply conj; reflexivity.
Qed.

(** one event: counted once, streamed on the events tab only *)
Lemma handleDockerEvent_counts hasCounter this e now :
  let r := DockerManager.handleDockerEvent hasCounter this e now in
  DockerManager.eventCount (fst r) = DockerManager.eventCount this + 1 /\
  DockerManager.refreshCooldown (fst r) = DockerManager.refreshCooldown this /\
  counterTexts (snd r) =
    (if hasCounter then [DockerManager.eventCount this + 1] else []) /\
  streamed (snd r) =
    (if String.eqb (DockerManager.currentTab this) "events" then [e] else []).
Proof.
  unfold DockerManager.handleDockerEvent. cbv zeta.
  cbn [DockerManager.currentTab DockerManager.eventCount].
  destruct (String.eqb (DockerManager.currentTab this) "events") eqn:Et;
    cbn [negb andb].
  - cbn [fst snd DockerManager.eventCount DockerManager.refreshCooldown].
    rewrite counterTexts_app, streamed_app.
    destruct hasCounter; repeat apply conj; reflexivity.
  - destruct (DockerManager.includes _ _).
    + match goal with
      | |- context [DockerManager.smartRefresh ?t ?ev ?n] =>
          pose proof (smartRefresh_quiet t ev n) as HQ;
          destruct (DockerManager.smartRefresh t ev n) as [this2 refreshed]
      end.
      cbv zeta in HQ. cbn [fst snd] in *.
      destruct HQ as (Hc & Hs & He & Hr & _).
      rewrite !counterTexts_app, !streamed_app, Hc, Hs, He, Hr.
      destruct hasCounter; repeat apply conj; reflexivity.
    + cbn [fst snd DockerManager.eventCount DockerManager.refreshCooldown].
      rewrite counterTexts_app, streamed_app.
      destruct hasCounter; repeat apply conj; reflexivity.
Qed.

(** X17: every event is counted once, whatever the tab and whether or
    not it refreshes anything: after a session the count has grown by the
    number of events, the counter element, when the page has one, shows
    each count in turn, and the cooldown setting is unchanged.  An event
    is added to the event stream exactly when it arrives on the events
    tab. *)
Theorem handleAll_counts_every_event :
  forall (hasCounter : bool) (arrivals : list DockerManager.Arrival)
         (this : DockerManager.State),
    let r := DockerManager.handleAll hasCounter this arrivals in
    DockerManager.eventCount (fst r) =
      DockerManager.eventCount this + Z.of_nat (List.length arrivals) /\
    DockerManager.refreshCooldown (fst r) =
      DockerManager.refreshCooldown this /\
    concat (map counterTexts (snd r)) =
      (if hasCounter
       then countsFrom (DockerManager.eventCount this) (List.length arrivals)
       else []) /\
    map streamed (snd r) =
      map (fun a => if String.eqb (DockerManager.tab a) "events"
                    then [DockerManager.event a] else []) arrivals.
Proof.
  intros hasCounter arrivals.
  induction arrivals as [|a rest IH]; intros this.
  - simpl. repeat apply conj; try reflexivity; try lia.
    now destruct hasCounter.
  - cbn [DockerManager.handleAll].
    pose proof (handleDockerEvent_counts hasCounter
                  (DockerManager.onTab this (DockerManager.tab a))
                  (DockerManager.event a) (DockerManager.clock a)) as H1.
    cbv zeta in H1.
    destruct (DockerManager.handleDockerEvent hasCounter
                (DockerManager.onTab this (DockerManager.tab a))
                (DockerManager.event a) (DockerManager.clock a))
      as [this1 effects].
    cbn [fst snd DockerManager.onTab DockerManager.eventCount
         DockerManager.refreshCooldown DockerManager.currentTab] in H1.
    destruct H1 as (He & Hr & Hc & Hs).
    specialize (IH this1). cbv zeta in IH.
    destruct (DockerManager.handleAll hasCounter this1 rest)
      as [this2 more].
    cbn [fst snd] in *. destruct IH as (IHe & IHr & IHc & IHs).
    rewrite IHe, IHr, He, Hr. cbn [map concat]. rewrite IHc, Hc, IHs, Hs, He.
    repeat apply conj; try reflexivity.
    + cbn [List.length]. lia.
    + now destruct hasCounter.
Qed.

Lemma handleDockerEvent_inert hasCounter this a :
  inert a ->
  let r := DockerManager.handleDockerEvent hasCounter
             (DockerManager.onTab this (DockerManager.tab a))
             (DockerManager.event a) (DockerManager.clock a) in
  DockerManager.lastRefreshTime (fst r) = DockerManager.lastRefreshTime this /\
  refreshCalls (snd r) = [] /\ skipped (snd r) = false.
Proof.
  intros H. cbv zeta. unfold DockerManager.handleDockerEvent. cbv zeta.
  cbn [DockerManager.onTab DockerManager.currentTab].
  assert (G : negb (String.eqb (DockerManager.tab a) "events")
              && DockerManager.includes
                   ["container"; "image"; "network"; "volume"]
                   (DockerManager.Type_ (DockerManager.event a)) = false).
  { destruct H as [-> | H]; [reflexivity|].
    unfold qualifying in H. rewrite H. apply andb_false_r. }
  rewrite G. cbn [fst snd DockerManager.lastRefreshTime].
  destruct hasCounter, (String.eqb (DockerManager.tab a) "events");
    repeat apply conj; reflexivity.
Qed.

(** X18: events that arrive on the events tab, and events whose type is
    none of container, image, network and volume, refresh nothing: no
    list is reloaded, no stats are fetched, nothing is dropped at the
    gate, and the time of the last refresh stays as it was. *)
Theorem inert_events_refresh_nothing :
  forall (hasCounter : bool) (arrivals : list DockerManager.Arrival)
         (this : DockerManager.State),
    Forall inert arrivals ->
    let r := DockerManager.handleAll hasCounter this arrivals in
    DockerManager.lastRefreshTime (fst r) =
      DockerManager.lastRefreshTime this /\
    Forall (fun effects => refreshCalls effects = [] /\
                           skipped effects = false) (snd r).
Proof.
  intros hasCounter arrivals.
  induction arrivals as [|a rest IH]; intros this HF.
  - split; [reflexivity | constructor].
  - inversion HF as [|? ? Ha HF']; subst.
    cbn [DockerManager.handleAll].
    pose proof (handleDockerEvent_inert hasCounter this a Ha) as H1.
    cbv zeta in H1.
    destruct (DockerManager.handleDockerEvent hasCounter
                (DockerManager.onTab this (DockerManager.tab a))
                (DockerManager.event a) (DockerManager.clock a))
      as [this1 effects].
    cbn [fst snd] in H1. destruct H1 as (Hl & Hr & Hs).
    specialize (IH this1 HF'). cbv zeta in IH.
    destruct (DockerManager.handleAll hasCounter this1 rest)
      as [this2 more].
    cbn [fst snd] in *. destruct IH as [IHl IHF].
    split; [congruence|]. constructor; [split; assumption | exact IHF].
Qed.

Lemma inert_events_refresh_nothing_witness :
  DockerManager.lastRefreshTime
    (fst (DockerManager.handleAll true DockerManager.constructor
            [{| DockerManager.tab := "events";
                DockerManager.event := containerStart;
                DockerManager.clock := 1700000000000 |};
             {| DockerManager.tab := "dashboard";
                DockerManager.event :=
                  {| DockerManager.Type_ := "daemon";
                     DockerManager.Action := "reload" |};
                DockerManager.clock := 1700000009000 |}])) = 0.
Proof.
  refine (proj1 (inert_events_refresh_nothing true _
                   DockerManager.constructor _)).
  constructor; [left; reflexivity|].
  constructor; [right; reflexivity | constructor].
Defined.

Lemma handleDockerEvent_idle hasCounter this a :
  idle a ->
  (DockerManager.clock a - DockerManager.lastRefreshTime this
   <? DockerManager.refreshCooldown this) = false ->
  refreshCalls
    (snd (DockerManager.handleDockerEvent hasCounter
            (DockerManager.onTab this (DockerManager.tab a))
            (DockerManager.event a) (DockerManager.clock a))) = [].
Proof.
  intros [Ht H] G. unfold DockerManager.handleDockerEvent. cbv zeta.
  cbn [DockerManager.onTab DockerManager.currentTab].
  apply String.eqb_neq in Ht. rewrite Ht. cbn [negb andb].
  unfold DockerManager.smartRefresh.
  cbn [DockerManager.lastRefreshTime DockerManager.refreshCooldown
       DockerManager.currentTab DockerManager.onTab].
  rewrite G.
  destruct H as [[HT Hn] | [[HT Hn] | [HT Hn]]]; rewrite HT;
    cbn [DockerManager.includes existsb String.eqb Ascii.eqb Bool.eqb orb
         andb].
  - apply String.eqb_neq in Hn. rewrite Hn. now destruct hasCounter.
  - apply String.eqb_neq in Hn. rewrite Hn. now destruct hasCounter.
  - unfold DockerManager.handleContainerEvent. cbv zeta. rewrite Hn.
    now destruct hasCounter.
Qed.

(** X19: an event that goes through the gate sets the time of the last
    refresh even when it reloads nothing.  So when an event that reloads
    nothing (say a network event away from the networks tab) has passed,
    any event that follows it within the cooldown is dropped, a container
    start on the dashboard included: neither of the two makes a refresh
    call. *)
Theorem idle_event_consumes_cooldown :
  forall (hasCounter : bool) (this : DockerManager.State)
         (a1 a2 : DockerManager.Arrival),
    idle a1 ->
    qualifying (DockerManager.event a1) = true ->
    DockerManager.tab a2 <> "events" ->
    qualifying (DockerManager.event a2) = true ->
    DockerManager.lastRefreshTime this + DockerManager.refreshCooldown this
      <= DockerManager.clock a1 ->
    DockerManager.clock a2 - DockerManager.clock a1
      < DockerManager.refreshCooldown this ->
    let r := DockerManager.handleAll hasCounter this [a1; a2] in
    DockerManager.lastRefreshTime (fst r) = DockerManager.clock a1 /\
    map skipped (snd r) = [false; true] /\
    map refreshCalls (snd r) = [[]; []].
Proof.
  intros hasCounter this a1 a2 Hidle Hq1 Ht2 Hq2 Hpass Hwithin.
  cbv zeta. cbn [DockerManager.handleAll].
  assert (G1 : (DockerManager.clock a1 - DockerManager.lastRefreshTime this
                <? DockerManager.refreshCooldown this) = false)
    by (apply Z.ltb_ge; lia).
  pose proof (handleDockerEvent_gate hasCounter this a1 (proj1 Hidle) Hq1)
    as H1.
  pose proof (handleDockerEvent_idle hasCounter this a1 Hidle G1) as HR1.
  cbv zeta in H1. rewrite G1 in H1.
  destruct (DockerManager.handleDockerEvent hasCounter
              (DockerManager.onTab this (DockerManager.tab a1))
              (DockerManager.event a1) (DockerManager.clock a1))
    as [this1 effects1].
  cbn [fst snd] in *. destruct H1 as (Hc1 & _ & Hs1 & Hl1).
  pose proof (handleDockerEvent_gate hasCounter this1 a2 Ht2 Hq2) as H2.
  cbv zeta in H2.
  assert (G2 : (DockerManager.clock a2 - DockerManager.lastRefreshTime this1
                <? DockerManager.refreshCooldown this1) = true)
    by (apply Z.ltb_lt; lia).
  rewrite G2 in H2.
  destruct (DockerManager.handleDockerEvent hasCounter
              (DockerManager.onTab this1 (DockerManager.tab a2))
              (DockerManager.event a2) (DockerManager.clock a2))
    as [this2 effects2].
  cbn [fst snd] in *. destruct H2 as (_ & _ & Hs2 & Hr2 & Hl2).
  cbn [map]. rewrite Hs1, Hs2, HR1, Hr2. repeat apply conj; congruence.
Qed.

Lemma idle_event_consumes_cooldown_witness :
  map refreshCalls
    (snd (DockerManager.handleAll true DockerManager.constructor
            [{| DockerManager.tab := "dashboard";
                DockerManager.event := networkConnect;
                DockerManager.clock := 1700000000000 |};
             arrivalAt 1700000004999])) = [[]; []].
Proof.
  refine (proj2 (proj2 (idle_event_consumes_cooldown true
                          DockerManager.constructor
                          {| DockerManager.tab := "dashboard";
                             DockerManager.event := networkConnect;
                             DockerManager.clock := 1700000000000 |}
                          (arrivalAt 1700000004999) _ eq_refl _ eq_refl
                          _ _))).
  - split; [discriminate|]. left. split; [reflexivity | discriminate].
  - discriminate.
  - simpl. lia.
  - simpl. lia.
Defined.

Ltac tab_facts :=
  repeat match goal with
         | H : String.eqb _ _ = true |- _ => apply String.eqb_eq in H
         end.

(** X20: whatever the tab, the event and the clock, an event makes at
    most one refresh call, and that call reloads what the current tab
    shows: the container, image, network or volume list on its own tab,
    the system stats on the dashboard.  On any other tab (system,
    services, events) no event reloads anything. *)
Theorem refresh_reloads_current_tab :
  forall (hasCounter : bool) (this : DockerManager.State)
         (e : DockerManager.EventData) (now : Z),
    let effects :=
      snd (DockerManager.handleDockerEvent hasCounter this e now) in
    Forall (onScreen (DockerManager.currentTab this)) effects /\
    (List.length (refreshCalls effects) <= 1)%nat /\
    (~ In (DockerManager.currentTab this) liveTabs ->
     refreshCalls effects = []).
Proof.
  intros hasCounter this e now. cbv zeta.
  unfold DockerManager.handleDockerEvent, DockerManager.smartRefresh,
    DockerManager.handleContainerEvent, DockerManager.refreshDashboardStats.
  cbv zeta.
  cbn [DockerManager.currentTab DockerManager.lastRefreshTime
       DockerManager.refreshCooldown DockerManager.setLastRefreshTime].
  set (t := DockerManager.currentTab this).
  repeat match goal with
         | |- context [if ?c then _ else _] =>
             let E := fresh "E" in destruct c eqn:E
         end;
    cbn [fst snd app negb andb] in *; try discriminate; tab_facts;
    try congruence;
    (split; [repeat constructor; cbn [onScreen]; assumption
            |split; [cbn; lia
                    |intros HN; try reflexivity; exfalso; apply HN;
                     unfold liveTabs; cbn [In]; intuition congruence]]).
Qed.

Lemma refresh_reloads_current_tab_witness :
  refreshCalls
    (snd (DockerManager.handleDockerEvent true
            (DockerManager.onTab DockerManager.constructor "services")
            containerStart 1700000000000)) = [].
Proof.
  apply (proj2 (proj2 (refresh_reloads_current_tab true
                         (DockerManager.onTab DockerManager.constructor
                            "services")
                         containerStart 1700000000000))).
  cbn. intuition discriminate.
Defined.

(* ----------------------------------------------------------------- *)
(** ** The WebSocket of the page *)

Lemma nth_error_update_same l f : forall i,
  nth_error (Connection.update l i f) i = option_map f (nth_error l i).
Proof.
  induction l as [|s l IH]; intros [|i]; simpl; try reflexivity. apply IH.
Qed.

Lemma nth_error_update_other l f : forall i j,
  i <> j -> nth_error (Connection.update l i f) j = nth_error l j.
Proof.
  induction l as [|s l IH]; intros [|i] [|j] H; simpl; try reflexivity.
  - contradiction.
  - apply IH. congruence.
Qed.

Lemma nth_error_new (l : list WebSocket.Object) x j s :
  nth_error (l ++ [x]) j = Some s ->
  nth_error l j = Some s \/ (j = List.length l /\ s = x).
Proof.
  revert j. induction l as [|y l IH]; intros [|j]; simpl; intros H.
  - right. split; [reflexivity | congruence].
  - destruct j; discriminate H.
  - now left.
  - destruct (IH _ H) as [H1 | [-> ->]]; [now left | right; now split].
Qed.

Lemma onTab_same this t :
  DockerManager.currentTab this = t -> DockerManager.onTab this t = this.
Proof. destruct this. simpl. now intros <-. Qed.

Lemma handleDockerEvent_tab hasCounter this e now :
  DockerManager.currentTab
    (fst (DockerManager.handleDockerEvent hasCounter this e now)) =
  DockerManager.currentTab this.
Proof.
  unfold DockerManager.handleDockerEvent. cbv zeta.
  cbn [DockerManager.currentTab].
  destruct (_ && _); [|reflexivity].
  match goal with
  | |- context [DockerManager.smartRefresh ?t ?ev ?n] =>
      pose proof (smartRefresh_quiet t ev n) as HQ;
      destruct (DockerManager.smartRefresh t ev n) as [this2 refreshed]
  end.
  cbv zeta in HQ. cbn [fst snd] in *. now destruct HQ as (_ & _ & _ & _ & ->).
Qed.

(** the listening sockets once [this.ws] is detached *)
Lemma closeWebSocket_orderly p :
  orderlyPage p -> orderlyPage (fst (Connection.closeWebSocket p)).
Proof.
  intros HI. pose proof HI as [H1 H2]. unfold Connection.closeWebSocket.
  destruct (Connection.ws p) as [i|] eqn:W; [|exact HI].
  cbn [fst]. split; cbn [Connection.ws Connection.sockets]; [|congruence].
  intros j s Hj Hs. exfalso.
  destruct (Nat.eq_dec i j) as [<-|N].
  - rewrite nth_error_update_same in Hj.
    destruct (nth_error (Connection.sockets p) i) as [s0|]; [|discriminate].
    injection Hj as <-. destruct s0 as [[] ? ? ? ?]; discriminate Hs.
  - rewrite (nth_error_update_other _ _ _ _ N) in Hj.
    specialize (H1 j s Hj Hs). congruence.
Qed.

Lemma setupWebSocket_orderly constructs p :
  orderlyPage p -> settled p = true ->
  DockerManager.currentTab (Connection.app p) = "events" ->
  orderlyPage (fst (Connection.setupWebSocket constructs p)).
Proof.
  intros HI HS HT. pose proof HI as [H1 H2].
  unfold Connection.setupWebSocket.
  destruct (Connection.connected p) eqn:C; [exact HI|].
  destruct constructs; [|exact HI].
  cbn [fst]. split; cbn [Connection.ws Connection.sockets Connection.app];
    [|intros _; exact HT].
  intros j s Hj Hs. apply nth_error_new in Hj as [Hj | [-> _]];
    [|reflexivity].
  exfalso. pose proof (H1 j s Hj Hs) as W.
  unfold settled in HS. unfold Connection.connected in C.
  rewrite W, Hj in HS, C. unfold listening in Hs.
  unfold WebSocket.isOpen in C.
  destruct (WebSocket.readyState s); try discriminate;
    rewrite andb_false_r in Hs; discriminate Hs.
Qed.

Lemma setCurrentTab_orderly t p :
  orderlyPage p ->
  (Connection.ws p <> None -> t = "events") ->
  orderlyPage (Connection.setCurrentTab t p).
Proof.
  intros [H1 H2] H. split; [exact H1|]. exact H.
Qed.

Lemma setCurrentTab_closed_orderly t p :
  orderlyPage p ->
  orderlyPage (fst (Connection.closeWebSocket (Connection.setCurrentTab t p))).
Proof.
  intros [H1 H2]. unfold Connection.closeWebSocket.
  cbn [Connection.setCurrentTab Connection.ws Connection.sockets
       Connection.app Connection.reconnects].
  destruct (Connection.ws p) as [i|] eqn:W.
  - cbn [fst]. split; cbn [Connection.ws Connection.sockets]; [|congruence].
    intros j s Hj Hs. exfalso.
    destruct (Nat.eq_dec i j) as [<-|N].
    + rewrite nth_error_update_same in Hj.
      destruct (nth_error (Connection.sockets p) i) as [s0|];
        [|discriminate].
      injection Hj as <-. destruct s0 as [[] ? ? ? ?]; discriminate Hs.
    + rewrite (nth_error_update_other _ _ _ _ N) in Hj.
      specialize (H1 j s Hj Hs). congruence.
  - cbn [fst]. split;
      cbn [Connection.setCurrentTab Connection.ws Connection.sockets].
    + intros j s Hj Hs. specialize (H1 j s Hj Hs). discriminate H1.
    + rewrite W. congruence.
Qed.

Lemma orderlyPage_same p q :
  Connection.ws q = Connection.ws p ->
  Connection.sockets q = Connection.sockets p ->
  DockerManager.currentTab (Connection.app q) =
  DockerManager.currentTab (Connection.app p) ->
  orderlyPage p -> orderlyPage q.
Proof.
  intros Hw Hs Ht [H1 H2]. unfold orderlyPage. rewrite Hw, Hs, Ht.
  now split.
Qed.

Lemma listening_setReadyState_OPEN s :
  WebSocket.readyState s = WebSocket.CONNECTING ->
  listening (WebSocket.setReadyState WebSocket.OPEN s) = listening s.
Proof. unfold listening. intros ->. reflexivity. Qed.

Lemma listening_setReadyState_CLOSED s :
  listening (WebSocket.setReadyState WebSocket.CLOSED s) = false.
Proof. unfold listening. apply andb_false_r. Qed.

(** a change of state of one socket that makes no socket listen that did
    not before *)
Lemma update_orderly p i f :
  (forall s, nth_error (Connection.sockets p) i = Some s ->
             listening (f s) = true -> listening s = true) ->
  orderlyPage p ->
  orderlyPage (Connection.setSockets
                 (Connection.update (Connection.sockets p) i f) p).
Proof.
  intros Hf [H1 H2]. split; cbn [Connection.setSockets Connection.ws
    Connection.sockets Connection.app]; [|exact H2].
  intros j s Hj Hs. destruct (Nat.eq_dec i j) as [<-|N].
  - rewrite nth_error_update_same in Hj.
    destruct (nth_error (Connection.sockets p) i) as [s0|] eqn:E;
      [|discriminate].
    injection Hj as <-. apply (H1 i s0 E). now apply Hf.
  - rewrite (nth_error_update_other _ _ _ _ N) in Hj. now apply (H1 j s).
Qed.

Lemma Forall_quiet_app (a b : list Connection.Effect) :
  Forall handledOnEventsTab a -> Forall handledOnEventsTab b ->
  Forall handledOnEventsTab (a ++ b).
Proof. intros Ha Hb. apply Forall_app. now split. Qed.

Lemma setupWebSocket_quiet constructs p :
  Forall handledOnEventsTab (snd (Connection.setupWebSocket constructs p)).
Proof.
  unfold Connection.setupWebSocket.
  destruct (Connection.connected p), constructs; repeat constructor.
Qed.

Lemma closeWebSocket_quiet p :
  Forall handledOnEventsTab (snd (Connection.closeWebSocket p)).
Proof.
  unfold Connection.closeWebSocket.
  destruct (Connection.ws p); repeat constructor.
Qed.

Lemma step_orderly hasCounter p o :
  orderlyPage p -> allowed p o = true ->
  orderlyPage (fst (Connection.step hasCounter p o)) /\
  Forall handledOnEventsTab (snd (Connection.step hasCounter p o)).
Proof.
  intros HI HA. destruct o as [t c|i|i|i e now|c]; cbn [Connection.step].
  - (* a click *)
    unfold Connection.switchTab. cbv zeta. cbn [allowed] in HA.
    destruct (String.eqb t "events") eqn:Et.
    + apply String.eqb_eq in Et. subst t.
      pose proof (setupWebSocket_orderly c
                    (Connection.setCurrentTab "events" p)) as HS.
      pose proof (setupWebSocket_quiet c
                    (Connection.setCurrentTab "events" p)) as HQ.
      destruct (Connection.setupWebSocket c
                  (Connection.setCurrentTab "events" p)) as [p1 effects].
      cbn [fst snd] in *. split.
      * apply HS; [|exact HA|reflexivity].
        apply setCurrentTab_orderly; [exact HI | reflexivity].
      * apply Forall_quiet_app; [exact HQ | repeat constructor].
    + pose proof (setCurrentTab_closed_orderly t p HI) as HS.
      pose proof (closeWebSocket_quiet (Connection.setCurrentTab t p)) as HQ.
      destruct (Connection.closeWebSocket (Connection.setCurrentTab t p))
        as [p1 effects].
      cbn [fst snd] in *. split; [exact HS|].
      apply Forall_quiet_app; [exact HQ | repeat constructor].
  - (* a socket opens *)
    destruct (nth_error (Connection.sockets p) i) as [s|] eqn:E;
      [|split; [exact HI | constructor]].
    destruct (WebSocket.readyState s) eqn:R;
      try (split; [exact HI | constructor]).
    cbv zeta.
    assert (HU : orderlyPage
                   (Connection.setSockets
                      (Connection.update (Connection.sockets p) i
                         (WebSocket.setReadyState WebSocket.OPEN)) p)).
    { apply update_orderly; [|exact HI]. intros s' Es' Hl.
      assert (s' = s) by congruence. subst s'.
      now rewrite (listening_setReadyState_OPEN _ R) in Hl. }
    destruct (WebSocket.onopen s); split; try exact HU;
      repeat constructor.
  - (* a socket closes *)
    destruct (nth_error (Connection.sockets p) i) as [s|] eqn:E;
      [|split; [exact HI | constructor]].
    assert (HU : orderlyPage
                   (Connection.setSockets
                      (Connection.update (Connection.sockets p) i
                         (WebSocket.setReadyState WebSocket.CLOSED)) p)).
    { apply update_orderly; [|exact HI]. intros s' _ Hl.
      rewrite listening_setReadyState_CLOSED in Hl. discriminate Hl. }
    destruct (WebSocket.readyState s);
      try (split; [exact HI | constructor]); cbv zeta;
      (destruct (WebSocket.onclose s);
       [|split; [exact HU | constructor]]);
      unfold Connection.onclose; cbn [fst snd];
      (split; [|repeat constructor]);
      (destruct (String.eqb _ "events"); [|exact HU]);
      (eapply orderlyPage_same; [| | |exact HU]; reflexivity).
  - (* a message *)
    destruct (nth_error (Connection.sockets p) i) as [s|] eqn:E;
      [|split; [exact HI | constructor]].
    destruct (WebSocket.isOpen s && WebSocket.onmessage s) eqn:L;
      [|split; [exact HI | constructor]].
    apply andb_true_iff in L as [Lo Lm].
    assert (Hl : listening s = true).
    { unfold listening, WebSocket.isOpen in *. rewrite Lm.
      now destruct (WebSocket.readyState s). }
    destruct HI as [H1 H2].
    assert (HT : DockerManager.currentTab (Connection.app p) = "events").
    { apply H2. rewrite (H1 i s E Hl). discriminate. }
    unfold Connection.onmessage.
    pose proof (handleDockerEvent_tab hasCounter (Connection.app p) e now)
      as Htab.
    pose proof (handleDockerEvent_inert hasCounter (Connection.app p)
                  {| DockerManager.tab := "events";
                     DockerManager.event := e;
                     DockerManager.clock := now |} (or_introl eq_refl))
      as Hin.
    cbv zeta in Hin. cbn [DockerManager.tab DockerManager.event
                          DockerManager.clock] in Hin.
    rewrite (onTab_same _ _ HT) in Hin.
    destruct (DockerManager.handleDockerEvent hasCounter (Connection.app p)
                e now) as [this effects].
    cbn [fst snd] in *. split.
    + split; cbn [Connection.ws Connection.sockets Connection.app];
        [exact H1 | intros Hw; rewrite Htab; now apply H2].
    + constructor; [|constructor]. split; [exact HT | apply Hin].
  - (* a reconnect timer *)
    cbn [allowed] in HA.
    destruct (Connection.reconnects p) as [|n] eqn:R;
      [split; [exact HI | constructor]|].
    apply andb_true_iff in HA as [Ht Hs]. apply String.eqb_eq in Ht.
    split; [|apply setupWebSocket_quiet].
    apply setupWebSocket_orderly; [|exact Hs|exact Ht].
    eapply orderlyPage_same; [| | |exact HI]; reflexivity.
Qed.

Lemma run_orderly hasCounter session : forall p,
  orderlyPage p -> orderly hasCounter p session = true ->
  orderlyPage (fst (Connection.run hasCounter p session)) /\
  Forall handledOnEventsTab (snd (Connection.run hasCounter p session)).
Proof.
  induction session as [|o rest IH]; intros p HI HO.
  - split; [exact HI | constructor].
  - cbn [orderly] in HO. apply andb_true_iff in HO as [HA HO].
    cbn [Connection.run].
    destruct (step_orderly hasCounter p o HI HA) as [HI1 HQ1].
    destruct (Connection.step hasCounter p o) as [p1 effects].
    cbn [fst snd] in *.
    destruct (IH p1 HI1 HO) as [HI2 HQ2].
    destruct (Connection.run hasCounter p1 rest) as [p2 more].
    cbn [fst snd] in *. split; [exact HI2|].
    now apply Forall_quiet_app.
Qed.

Lemma constructor_orderly : orderlyPage Connection.constructor.
Proof.
  split.
  - intros [|i] s H; discriminate H.
  - intros H. now contradiction H.
Qed.

(** X21: in a session of clicks, socket events and reconnect timers in
    which the events tab is clicked, and a reconnect timer fires, only
    while the socket of the page is not in the middle of connecting, and
    a timer only while the events tab is shown, every Docker event is
    handled on the events tab and reloads nothing: no list, no stats.
    At every moment of such a session at most the socket of the page
    listens, and the page holds a socket on the events tab only. *)
Theorem orderly_sessions_never_refresh :
  forall (hasCounter : bool) (session : list Connection.Occurrence),
    orderly hasCounter Connection.constructor session = true ->
    let r := Connection.run hasCounter Connection.constructor session in
    Forall handledOnEventsTab (snd r) /\ orderlyPage (fst r).
Proof.
  intros hasCounter session HO. cbv zeta.
  destruct (run_orderly hasCounter session Connection.constructor
              constructor_orderly HO) as [H1 H2].
  now split.
Qed.

Lemma orderly_sessions_never_refresh_witness :
  handledTabs (snd (Connection.run true Connection.constructor twoVisits))
  = ["events"; "events"] /\
  Forall handledOnEventsTab
    (snd (Connection.run true Connection.constructor twoVisits)).
Proof.
  split; [reflexivity|].
  exact (proj1 (orderly_sessions_never_refresh true twoVisits eq_refl)).
Defined.

Lemma nth_error_last (l : list WebSocket.Object) x :
  nth_error (l ++ [x]) (List.length l) = Some x.
Proof. induction l as [|y l IH]; [reflexivity | exact IH]. Qed.

Lemma nth_error_before (l : list WebSocket.Object) x i s :
  nth_error l i = Some s -> nth_error (l ++ [x]) i = Some s.
Proof.
  revert i. induction l as [|y l IH]; intros [|i] H; try discriminate H.
  - exact H.
  - simpl. now apply IH.
Qed.

Lemma nth_error_in_range (l : list WebSocket.Object) i s :
  nth_error l i = Some s -> i <> List.length l.
Proof.
  revert i. induction l as [|y l IH]; intros [|i] H; try discriminate H.
  - discriminate.
  - simpl in H. specialize (IH _ H). simpl. congruence.
Qed.

Lemma run_cons hasCounter p o rest :
  Connection.run hasCounter p (o :: rest) =
  (fst (Connection.run hasCounter (fst (Connection.step hasCounter p o)) rest),
   (snd (Connection.step hasCounter p o)
    ++ snd (Connection.run hasCounter
              (fst (Connection.step hasCounter p o)) rest))%list).
Proof.
  cbn [Connection.run].
  destruct (Connection.step hasCounter p o) as [p1 effects].
  cbn [fst snd]. now destruct (Connection.run hasCounter p1 rest).
Qed.

Lemma run_effects hasCounter p o rest :
  snd (Connection.run hasCounter p (o :: rest)) =
  (snd (Connection.step hasCounter p o)
   ++ snd (Connection.run hasCounter
             (fst (Connection.step hasCounter p o)) rest))%list.
Proof. now rewrite run_cons. Qed.

Lemma setupWebSocket_new p :
  Connection.connected p = false ->
  Connection.setupWebSocket true p =
  ({| Connection.app := Connection.app p;
      Connection.ws := Some (List.length (Connection.sockets p));
      Connection.sockets :=
        (Connection.sockets p
         ++ [WebSocket.setHandlers true WebSocket.new])%list;
      Connection.reconnects := Connection.reconnects p |}, []).
Proof. intros H. unfold Connection.setupWebSocket. now rewrite H. Qed.

Lemma step_Opens hasCounter p i s :
  nth_error (Connection.sockets p) i = Some s ->
  WebSocket.readyState s = WebSocket.CONNECTING ->
  Connection.step hasCounter p (Connection.Opens i) =
  (Connection.setSockets
     (Connection.update (Connection.sockets p) i
        (WebSocket.setReadyState WebSocket.OPEN)) p,
   if WebSocket.onopen s
   then [Connection.ConsoleLog "WebSocket connected";
         Connection.UpdateConnectionStatus true]
   else []).
Proof.
  intros Hi Hc. cbn [Connection.step]. rewrite Hi, Hc. cbv zeta.
  now destruct (WebSocket.onopen s).
Qed.

Lemma step_Message hasCounter p i s e now :
  nth_error (Connection.sockets p) i = Some s ->
  WebSocket.readyState s = WebSocket.OPEN ->
  WebSocket.onmessage s = true ->
  Connection.step hasCounter p (Connection.Message i e now) =
  (fst (Connection.onmessage hasCounter e now p),
   [Connection.Handled (DockerManager.currentTab (Connection.app p))
      (snd (DockerManager.handleDockerEvent hasCounter (Connection.app p)
              e now))]).
Proof.
  intros Hi Ho Hm. cbn [Connection.step]. rewrite Hi.
  unfold WebSocket.isOpen. rewrite Ho, Hm. cbn [andb].
  unfold Connection.onmessage.
  now destruct (DockerManager.handleDockerEvent hasCounter
                  (Connection.app p) e now).
Qed.

Lemma step_Message_deaf hasCounter p i s e now :
  nth_error (Connection.sockets p) i = Some s ->
  WebSocket.onmessage s = false ->
  Connection.step hasCounter p (Connection.Message i e now) = (p, []).
Proof.
  intros Hi Hm. cbn [Connection.step]. rewrite Hi, Hm.
  now rewrite andb_false_r.
Qed.

Lemma switchTab_away t p i :
  t <> "events" -> Connection.ws p = Some i ->
  let p' := fst (Connection.switchTab t true p) in
  Connection.app p' = DockerManager.onTab (Connection.app p) t /\
  Connection.ws p' = None /\
  (forall j, j <> i ->
     nth_error (Connection.sockets p') j = nth_error (Connection.sockets p) j) /\
  handlings (snd (Connection.switchTab t true p)) = [].
Proof.
  intros Ht Hw. apply String.eqb_neq in Ht. cbv zeta.
  unfold Connection.switchTab. cbv zeta. rewrite Ht.
  unfold Connection.closeWebSocket.
  cbn [Connection.setCurrentTab Connection.ws]. rewrite Hw.
  cbn [fst snd Connection.app Connection.ws Connection.sockets app handlings].
  repeat apply conj; try reflexivity.
  intros j Hj. now apply nth_error_update_other, not_eq_sym.
Qed.

Lemma switchTab_events_connecting p i s :
  Connection.ws p = Some i ->
  nth_error (Connection.sockets p) i = Some s ->
  WebSocket.readyState s = WebSocket.CONNECTING ->
  let p' := fst (Connection.switchTab "events" true p) in
  Connection.app p' = DockerManager.onTab (Connection.app p) "events" /\
  Connection.ws p' = Some (List.length (Connection.sockets p)) /\
  nth_error (Connection.sockets p') i = Some s /\
  handlings (snd (Connection.switchTab "events" true p)) = [].
Proof.
  intros Hw Hi Hc. cbv zeta. unfold Connection.switchTab. cbv zeta.
  cbn [String.eqb Ascii.eqb Bool.eqb].
  rewrite setupWebSocket_new.
  - cbn [fst snd Connection.app Connection.ws Connection.sockets
         Connection.setCurrentTab app handlings].
    repeat apply conj; try reflexivity. now apply nth_error_before.
  - unfold Connection.connected.
    cbn [Connection.setCurrentTab Connection.ws Connection.sockets].
    rewrite Hw, Hi. unfold WebSocket.isOpen. now rewrite Hc.
Qed.

Lemma handlings_app a b :
  handlings (a ++ b) = (handlings a ++ handlings b)%list.
Proof.
  induction a as [|x a IH]; [reflexivity|].
  destruct x; simpl; now rewrite IH.
Qed.

(** X22: two ways in which a Docker event comes to be handled away from
    the events tab, where it can refresh.  [setupWebSocket] does not look
    at the tab: a reconnect timer that fires after the user has left the
    events tab opens a new socket, and the events it delivers are handled
    on the tab shown.  And [setupWebSocket] replaces a socket that is
    still connecting without detaching it: after a second click on the
    events tab and a click on another tab, the first socket still
    delivers its events, which are handled on that tab. *)
Theorem disorderly_sessions_reach_refresh :
  forall (hasCounter : bool) (p : Connection.Page)
         (e : DockerManager.EventData) (now : Z),
    (Connection.ws p = None ->
     Connection.reconnects p <> O ->
     let k := List.length (Connection.sockets p) in
     snd (Connection.run hasCounter p
            [Connection.Timeout true; Connection.Opens k;
             Connection.Message k e now]) =
     [Connection.ConsoleLog "WebSocket connected";
      Connection.UpdateConnectionStatus true;
      Connection.Handled (DockerManager.currentTab (Connection.app p))
        (snd (DockerManager.handleDockerEvent hasCounter (Connection.app p)
                e now))]) /\
    (forall i s t,
       Connection.ws p = Some i ->
       nth_error (Connection.sockets p) i = Some s ->
       WebSocket.readyState s = WebSocket.CONNECTING ->
       WebSocket.onmessage s = true ->
       t <> "events" ->
       handlings
         (snd (Connection.run hasCounter p
                 [Connection.Click "events" true; Connection.Opens i;
                  Connection.Click t true; Connection.Message i e now])) =
       [(t, snd (DockerManager.handleDockerEvent hasCounter
                   (DockerManager.onTab (Connection.app p) t) e now))]).
Proof.
  intros hasCounter p e now. split.
  - intros Hw Hr k. destruct (Connection.reconnects p) as [|n] eqn:R;
      [contradiction|].
    set (p0 := {| Connection.app := Connection.app p;
                  Connection.ws := Connection.ws p;
                  Connection.sockets := Connection.sockets p;
                  Connection.reconnects := n |}).
    assert (S1 : Connection.step hasCounter p (Connection.Timeout true) =
                 Connection.setupWebSocket true p0)
      by (cbn [Connection.step]; now rewrite R).
    assert (C0 : Connection.connected p0 = false)
      by (unfold Connection.connected; cbn [p0 Connection.ws];
          now rewrite Hw).
    rewrite (setupWebSocket_new _ C0) in S1.
    cbn [p0 Connection.app Connection.sockets Connection.reconnects] in S1.
    fold k in S1.
    rewrite run_effects, S1. cbn [fst snd app].
    match goal with
    | |- context [Connection.run hasCounter ?q _] => set (p1 := q)
    end.
    assert (N1 : nth_error (Connection.sockets p1) k =
                 Some (WebSocket.setHandlers true WebSocket.new))
      by apply nth_error_last.
    rewrite run_effects, (step_Opens hasCounter p1 k _ N1 eq_refl).
    cbn [fst snd WebSocket.onopen WebSocket.setHandlers].
    match goal with
    | |- context [Connection.run hasCounter ?q _] => set (p2 := q)
    end.
    assert (N2 : nth_error (Connection.sockets p2) k =
                 Some (WebSocket.setReadyState WebSocket.OPEN
                         (WebSocket.setHandlers true WebSocket.new))).
    { subst p2. cbn [Connection.setSockets Connection.sockets].
      now rewrite nth_error_update_same, N1. }
    rewrite run_effects,
      (step_Message hasCounter p2 k _ e now N2 eq_refl eq_refl).
    cbn [fst snd Connection.run app]. reflexivity.
  - intros i s t Hw Hi Hc Hm Ht.
    pose proof (nth_error_in_range _ _ _ Hi) as Hik.
    destruct (switchTab_events_connecting p i s Hw Hi Hc)
      as (A1 & W1 & N1 & Q1).
    rewrite run_effects, handlings_app. cbn [Connection.step].
    rewrite Q1. cbn [app].
    set (p1 := fst (Connection.switchTab "events" true p)) in *.
    rewrite run_effects, (step_Opens hasCounter p1 i s N1 Hc), handlings_app.
    cbn [fst snd].
    replace (handlings
               (if WebSocket.onopen s
                then [Connection.ConsoleLog "WebSocket connected";
                      Connection.UpdateConnectionStatus true]
                else [])) with (@nil (string * list DockerManager.Effect))
      by now destruct (WebSocket.onopen s).
    cbn [app].
    set (p2 := Connection.setSockets _ p1).
    assert (W2 : Connection.ws p2 =
                 Some (List.length (Connection.sockets p)))
      by exact W1.
    assert (N2 : nth_error (Connection.sockets p2) i =
                 Some (WebSocket.setReadyState WebSocket.OPEN s)).
    { subst p2. cbn [Connection.setSockets Connection.sockets].
      now rewrite nth_error_update_same, N1. }
    destruct (switchTab_away t p2 _ Ht W2) as (A3 & W3 & N3 & Q3).
    rewrite run_effects, handlings_app. cbn [Connection.step].
    rewrite Q3. cbn [app].
    set (p3 := fst (Connection.switchTab t true p2)) in *.
    assert (N3i : nth_error (Connection.sockets p3) i =
                  Some (WebSocket.setReadyState WebSocket.OPEN s))
      by (rewrite (N3 i Hik); exact N2).
    rewrite run_effects,
      (step_Message hasCounter p3 i _ e now N3i eq_refl Hm).
    cbn [fst snd Connection.run app handlings].
    rewrite A3. subst p2. cbn [Connection.setSockets Connection.app].
    rewrite A1. reflexivity.
Qed.

Lemma disorderly_sessions_reach_refresh_witness :
  handlings
    (snd (Connection.run true leftEarly
            [Connection.Timeout true; Connection.Opens 1;
             Connection.Message 1 containerStart 1700000009000])) =
  [("dashboard",
    [DockerManager.SetEventsCountText 1; DockerManager.FetchSystemStats])].
Proof.
  assert (H : Connection.reconnects leftEarly <> O)
    by (vm_compute; discriminate).
  exact (f_equal handlings
           (proj1 (disorderly_sessions_reach_refresh true leftEarly
                     containerStart 1700000009000) eq_refl H)).
Defined.

(** X23: [closeWebSocket] leaves the page without a socket, and the
    socket it held without any of its four handlers and, if it was open
    or connecting, closing; no other socket is touched, and closing
    again does nothing.  From then on a message on that socket reaches
    nothing, and its close schedules no reconnect. *)
Theorem closeWebSocket_detaches :
  forall (hasCounter : bool) (p : Connection.Page) (i : nat)
         (s : WebSocket.Object),
    Connection.ws p = Some i ->
    nth_error (Connection.sockets p) i = Some s ->
    let p' := fst (Connection.closeWebSocket p) in
    Connection.ws p' = None /\
    nth_error (Connection.sockets p') i =
      Some {| WebSocket.readyState := closedFrom (WebSocket.readyState s);
              WebSocket.onopen := false; WebSocket.onmessage := false;
              WebSocket.onerror := false; WebSocket.onclose := false |} /\
    (forall j, j <> i ->
       nth_error (Connection.sockets p') j =
       nth_error (Connection.sockets p) j) /\
    Connection.closeWebSocket p' = (p', []) /\
    (forall e now,
       Connection.step hasCounter p' (Connection.Message i e now) = (p', [])) /\
    Connection.reconnects
      (fst (Connection.step hasCounter p' (Connection.Closes i))) =
      Connection.reconnects p /\
    snd (Connection.step hasCounter p' (Connection.Closes i)) = [].
Proof.
  intros hasCounter p i s Hw Hi. cbv zeta.
  assert (E : exists l,
            fst (Connection.closeWebSocket p) =
            {| Connection.app := Connection.app p;
               Connection.ws := None;
               Connection.sockets := l;
               Connection.reconnects := Connection.reconnects p |} /\
            l = Connection.sockets (fst (Connection.closeWebSocket p))).
  { unfold Connection.closeWebSocket. rewrite Hw. cbn [fst].
    eexists. split; reflexivity. }
  destruct E as (l & E & El).
  assert (Nl : nth_error l i =
               Some {| WebSocket.readyState :=
                         closedFrom (WebSocket.readyState s);
                       WebSocket.onopen := false;
                       WebSocket.onmessage := false;
                       WebSocket.onerror := false;
                       WebSocket.onclose := false |}).
  { rewrite El. unfold Connection.closeWebSocket. rewrite Hw.
    cbn [fst Connection.sockets].
    rewrite nth_error_update_same, Hi. cbn [option_map]. f_equal.
    destruct s as [[] ? ? ? ?]; reflexivity. }
  assert (Ol : forall j, j <> i ->
               nth_error l j = nth_error (Connection.sockets p) j).
  { intros j Hj. rewrite El. unfold Connection.closeWebSocket. rewrite Hw.
    cbn [fst Connection.sockets].
    now apply nth_error_update_other, not_eq_sym. }
  rewrite E. clear E El.
  set (p' := {| Connection.app := Connection.app p;
                Connection.ws := None;
                Connection.sockets := l;
                Connection.reconnects := Connection.reconnects p |}).
  assert (N : nth_error (Connection.sockets p') i =
              Some {| WebSocket.readyState :=
                        closedFrom (WebSocket.readyState s);
                      WebSocket.onopen := false;
                      WebSocket.onmessage := false;
                      WebSocket.onerror := false;
                      WebSocket.onclose := false |}) by exact Nl.
  split; [reflexivity|]. split; [exact N|]. split; [|split; [|split]].
  - exact Ol.
  - reflexivity.
  - intros e now. now apply (step_Message_deaf hasCounter p' i _ e now N).
  - cbn [Connection.step]. rewrite N.
    cbn [WebSocket.readyState WebSocket.onclose].
    destruct (closedFrom (WebSocket.readyState s)); split; reflexivity.
Qed.

Lemma closeWebSocket_detaches_witness :
  Connection.ws
    (fst (Connection.closeWebSocket
            (fst (Connection.run true Connection.constructor
                    [Connection.Click "events" true; Connection.Opens 0]))))
  = None.
Proof.
  exact (proj1 (closeWebSocket_detaches true
                  (fst (Connection.run true Connection.constructor
                          [Connection.Click "events" true;
                           Connection.Opens 0]))
                  0 _ eq_refl eq_refl)).
Defined.
